(** * The AMQP session of azure-servicebus' _pyamqp, embedded in Rocq

    Source: sdk/servicebus/azure-servicebus/azure/servicebus/_pyamqp/session.py
    (class [Session]).

    The session is a mutable Python object that talks to two kinds of
    collaborators whose code lives in other modules:
      - the [Connection], to which every outgoing frame is handed with
        [_process_outgoing_frame(channel, frame)];
      - the links ([SenderLink], [ReceiverLink]), which are called back while
        frames are routed and which may themselves call into the session.

    The embedding threads an explicit [World] (session fields, connection,
    the hidden state of the links, the state-change log) through a small
    state-and-exception monad.  A Python exception leaves the mutations done
    before it in place, so a computation returns its outcome together with
    the world it reached. *)

From Stdlib Require Import ZArith List Bool String Lia.
From Stdlib.Strings Require Import Byte.
Import ListNotations.
Local Open Scope Z_scope.

Set Implicit Arguments.

(** ** Python values the session handles *)

Definition bytes := list byte.

(** [len(x)] is a Python int. *)
Definition len {A : Type} (l : list A) : Z := Z.of_nat (List.length l).

(** Python's index normalisation in a slice [l[a:b]]: a negative index counts
    from the end, and both ends are clamped to [0, len]. *)
Definition slice_index (n i : Z) : Z :=
  if i <? 0 then Z.max 0 (i + n) else Z.min i n.

(** [l[a:b]] *)
Definition py_slice {A : Type} (l : list A) (a b : Z) : list A :=
  let lo := slice_index (len l) a in
  let hi := slice_index (len l) b in
  if hi <=? lo then [] else firstn (Z.to_nat (hi - lo)) (skipn (Z.to_nat lo) l).

(** [l[a:]] *)
Definition py_slice_from {A : Type} (l : list A) (a : Z) : list A :=
  skipn (Z.to_nat (slice_index (len l) a)) l.

(** A Python [dict]: insertion ordered, one entry per key.  The session
    iterates over [links.values()] and [_output_handles.values()], so the
    order is kept. *)
Section PyDict.
Variables (K V : Type) (eqb : K -> K -> bool).

Definition pydict := list (K * V).

(** [d[k]], with [None] standing for the [KeyError]. *)
Fixpoint dict_get (d : pydict) (k : K) : option V :=
  match d with
  | [] => None
  | (k', v) :: d' => if eqb k k' then Some v else dict_get d' k
  end.

(** [k in d] *)
Definition dict_mem (d : pydict) (k : K) : bool :=
  match dict_get d k with Some _ => true | None => false end.

(** [d[k] = v]: an existing key keeps its position. *)
Fixpoint dict_set (d : pydict) (k : K) (v : V) : pydict :=
  match d with
  | [] => [(k, v)]
  | (k', v') :: d' =>
      if eqb k k' then (k', v) :: d' else (k', v') :: dict_set d' k v
  end.

(** [d.values()] *)
Definition dict_values (d : pydict) : list V := map snd d.

End PyDict.

(** ** constants.py / error.py: the enumerations the session uses *)

(** Modelled from the spec: [SessionState] of constants.py, which is not
    among the sources; its seven members are those of the spec's data model
    and the ones session.py names. *)
Inductive SessionState :=
| UNMAPPED | BEGIN_SENT | BEGIN_RCVD | MAPPED | END_SENT | END_RCVD | DISCARDING.

Definition SessionState_eqb (a b : SessionState) : bool :=
  match a, b with
  | UNMAPPED, UNMAPPED | BEGIN_SENT, BEGIN_SENT | BEGIN_RCVD, BEGIN_RCVD
  | MAPPED, MAPPED | END_SENT, END_SENT | END_RCVD, END_RCVD
  | DISCARDING, DISCARDING => true
  | _, _ => false
  end.

(** Modelled from the spec: [SessionTransferState] of constants.py, not among
    the sources; the three results session.py assigns to a delivery. *)
Inductive SessionTransferState := OKAY | ERROR | BUSY.

(** Modelled from the spec: the members of [ErrorCondition] (error.py, not
    among the sources) that session.py uses: session-unattached-handle and
    link-detach-forced. *)
Inductive ErrorCondition := SessionUnattachedHandle | LinkDetachForced.

(** Modelled from the spec: [AMQPError] of error.py, not among the sources:
    the structured error (condition, description, info) an End carries.  It
    is a tuple of three fields, so an error object is truthy in
    [DISCARDING if error else END_SENT]. *)
Record AMQPError := mkAMQPError {
  condition : ErrorCondition;
  description : string;
  info : option string
}.

(** The exceptions that the modelled code raises or lets through. *)
Inductive exn :=
| KeyError
| ValueError
| TypeError
| StopIteration
| OtherException.

(** ** performatives.py: the frames *)

(** Modelled from the spec: the Begin performative of performatives.py, not
    among the sources; the fields are those of the spec's external
    interfaces, in the order in which [_incoming_begin] indexes the decoded
    frame and [_outgoing_begin] names them. *)
Record BeginFrame := mkBegin {
  begin_remote_channel : option Z;
  begin_next_outgoing_id : Z;
  begin_incoming_window : Z;
  begin_outgoing_window : Z;
  begin_handle_max : Z;
  begin_offered_capabilities : option (list string);
  begin_desired_capabilities : option (list string);
  begin_properties : option (list (string * string))
}.

(** Modelled from the spec: the Flow performative, likewise; [_incoming_flow]
    reads the first five fields by index. *)
Record FlowFrame := mkFlow {
  flow_next_incoming_id : option Z;
  flow_incoming_window : Z;
  flow_next_outgoing_id : Z;
  flow_outgoing_window : Z;
  flow_handle : option Z;
  flow_link_credit : option Z;
  flow_drain : option bool;
  flow_echo : option bool
}.

(** Modelled from the spec: the Transfer performative, likewise; the fields
    are the keys [_outgoing_transfer] copies from [delivery.frame], and the
    handle comes first in a decoded frame. *)
Record TransferFrame := mkTransfer {
  tf_handle : Z;
  tf_delivery_id : option Z;
  tf_delivery_tag : option bytes;
  tf_message_format : option Z;
  tf_settled : option bool;
  tf_more : bool;
  tf_rcv_settle_mode : option Z;
  tf_state : option bytes;
  tf_resume : option bool;
  tf_aborted : option bool;
  tf_batchable : option bool;
  tf_payload : bytes
}.

(** What a link hands to [_outgoing_attach], [_outgoing_detach] and
    [_outgoing_disposition]; the session forwards these unread. *)
Inductive LinkFrameKind := AttachKind | DetachKind | DispositionKind.

Inductive Performative (LinkFrame : Type) :=
| PBegin (f : BeginFrame)
| PEnd (error : option AMQPError)
| PFlow (f : FlowFrame)
| PTransfer (f : TransferFrame)
| PLink (k : LinkFrameKind) (f : LinkFrame).

Arguments PBegin {LinkFrame} f.
Arguments PEnd {LinkFrame} error.
Arguments PFlow {LinkFrame} f.
Arguments PTransfer {LinkFrame} f.
Arguments PLink {LinkFrame} k f.

(** The delivery object a sender link passes to [_outgoing_transfer]: its
    [frame] dictionary and its [transfer_state] attribute. *)
Record Delivery := mkDelivery {
  frame : TransferFrame;
  transfer_state : option SessionTransferState
}.

(** ** The session object and the world it lives in *)

Record Session (Link : Type) := mkSession {
  name : string;
  state : SessionState;
  handle_max : Z;
  properties : option (list (string * string));
  remote_properties : option (list (string * string));
  channel : Z;
  remote_channel : option Z;
  next_outgoing_id : Z;
  next_incoming_id : option Z;
  incoming_window : Z;
  outgoing_window : Z;
  target_incoming_window : Z;
  remote_incoming_window : Z;
  remote_outgoing_window : Z;
  offered_capabilities : option (list string);
  desired_capabilities : option (list string);
  allow_pipelined_open : bool;
  links : pydict string Link;
  _output_handles : pydict Z Link;
  _input_handles : pydict Z Link
}.

(** The connection as the session sees it: the peer's maximum frame size, the
    frames handed to [_process_outgoing_frame] (oldest first, each with the
    channel it was sent on) and the errors passed to [close]. *)
Record Connection (LinkFrame : Type) := mkConnection {
  _remote_max_frame_size : Z;
  outgoing : list (Z * Performative LinkFrame);
  closed_with : list (option AMQPError)
}.

(** [state_log] is what [_set_state] writes with [_LOGGER.info]: one
    (previous, new) pair per state change, oldest first. *)
Record World (Link LinkStore LinkFrame : Type) := mkWorld {
  sess : Session Link;
  conn : Connection LinkFrame;
  lstore : LinkStore;
  state_log : list (SessionState * SessionState)
}.

(** ** The monad *)

Inductive outcome (A : Type) :=
| Ok (a : A)
| Raise (e : exn)
| OutOfFuel.

Arguments Ok {A} a.
Arguments Raise {A} e.
Arguments OutOfFuel {A}.

Definition M (W A : Type) := W -> outcome A * W.

Definition ret {W A : Type} (a : A) : M W A := fun w => (Ok a, w).

Definition bind {W A B : Type} (m : M W A) (k : A -> M W B) : M W B :=
  fun w =>
    match m w with
    | (Ok a, w') => k a w'
    | (Raise e, w') => (Raise e, w')
    | (OutOfFuel, w') => (OutOfFuel, w')
    end.

Definition raise {W A : Type} (e : exn) : M W A := fun w => (Raise e, w).

Definition get {W : Type} : M W W := fun w => (Ok w, w).

Definition modify {W : Type} (f : W -> W) : M W unit := fun w => (Ok tt, f w).

(** [try: m except <handles e>: handler e]; an exception the handler does not
    take ([None]) propagates. *)
Definition try_except {W A : Type} (m : M W A) (handler : exn -> option (M W A))
  : M W A :=
  fun w =>
    match m w with
    | (Raise e, w') =>
        match handler e with
        | Some h => h w'
        | None => (Raise e, w')
        end
    | r => r
    end.

(** [for x in xs: body x] over a snapshot of the sequence. *)
Fixpoint for_each {W X : Type} (xs : list X) (body : X -> M W unit) : M W unit :=
  match xs with
  | [] => ret tt
  | x :: xs' => bind (body x) (fun _ => for_each xs' body)
  end.

Declare Scope session_scope.
Delimit Scope session_scope with session.
Notation "x <- m ;; k" := (bind m (fun x => k))
  (at level 61, m at next level, right associativity) : session_scope.
Notation "m ;; k" := (bind m (fun _ => k))
  (at level 61, right associativity) : session_scope.

(** Attribute assignment [self.<field> = v], one function per attribute the
    modelled methods write. *)
Section Assign.
Variable Link : Type.

Definition set_state (v : SessionState) (s : Session Link) : Session Link :=
  mkSession (name s) v (handle_max s) (properties s) (remote_properties s)
    (channel s) (remote_channel s) (next_outgoing_id s) (next_incoming_id
    s) (incoming_window s) (outgoing_window s) (target_incoming_window s)
    (remote_incoming_window s) (remote_outgoing_window s)
    (offered_capabilities s) (desired_capabilities s)
    (allow_pipelined_open s) (links s) (_output_handles s) (_input_handles
    s).

Definition set_handle_max (v : Z) (s : Session Link) : Session Link :=
  mkSession (name s) (state s) v (properties s) (remote_properties s) (channel s)
    (remote_channel s) (next_outgoing_id s) (next_incoming_id s)
    (incoming_window s) (outgoing_window s) (target_incoming_window s)
    (remote_incoming_window s) (remote_outgoing_window s)
    (offered_capabilities s) (desired_capabilities s)
    (allow_pipelined_open s) (links s) (_output_handles s) (_input_handles
    s).

Definition set_remote_properties (v : option (list (string * string))) (s : Session Link) : Session Link :=
  mkSession (name s) (state s) (handle_max s) (properties s) v (channel s)
    (remote_channel s) (next_outgoing_id s) (next_incoming_id s)
    (incoming_window s) (outgoing_window s) (target_incoming_window s)
    (remote_incoming_window s) (remote_outgoing_window s)
    (offered_capabilities s) (desired_capabilities s)
    (allow_pipelined_open s) (links s) (_output_handles s) (_input_handles
    s).

Definition set_remote_channel (v : option Z) (s : Session Link) : Session Link :=
  mkSession (name s) (state s) (handle_max s) (properties s) (remote_properties s)
    (channel s) v (next_outgoing_id s) (next_incoming_id s)
    (incoming_window s) (outgoing_window s) (target_incoming_window s)
    (remote_incoming_window s) (remote_outgoing_window s)
    (offered_capabilities s) (desired_capabilities s)
    (allow_pipelined_open s) (links s) (_output_handles s) (_input_handles
    s).

Definition set_next_outgoing_id (v : Z) (s : Session Link) : Session Link :=
  mkSession (name s) (state s) (handle_max s) (properties s) (remote_properties s)
    (channel s) (remote_channel s) v (next_incoming_id s) (incoming_window
    s) (outgoing_window s) (target_incoming_window s)
    (remote_incoming_window s) (remote_outgoing_window s)
    (offered_capabilities s) (desired_capabilities s)
    (allow_pipelined_open s) (links s) (_output_handles s) (_input_handles
    s).

Definition set_next_incoming_id (v : option Z) (s : Session Link) : Session Link :=
  mkSession (name s) (state s) (handle_max s) (properties s) (remote_properties s)
    (channel s) (remote_channel s) (next_outgoing_id s) v (incoming_window
    s) (outgoing_window s) (target_incoming_window s)
    (remote_incoming_window s) (remote_outgoing_window s)
    (offered_capabilities s) (desired_capabilities s)
    (allow_pipelined_open s) (links s) (_output_handles s) (_input_handles
    s).

Definition set_incoming_window (v : Z) (s : Session Link) : Session Link :=
  mkSession (name s) (state s) (handle_max s) (properties s) (remote_properties s)
    (channel s) (remote_channel s) (next_outgoing_id s) (next_incoming_id
    s) v (outgoing_window s) (target_incoming_window s)
    (remote_incoming_window s) (remote_outgoing_window s)
    (offered_capabilities s) (desired_capabilities s)
    (allow_pipelined_open s) (links s) (_output_handles s) (_input_handles
    s).

Definition set_outgoing_window (v : Z) (s : Session Link) : Session Link :=
  mkSession (name s) (state s) (handle_max s) (properties s) (remote_properties s)
    (channel s) (remote_channel s) (next_outgoing_id s) (next_incoming_id
    s) (incoming_window s) v (target_incoming_window s)
    (remote_incoming_window s) (remote_outgoing_window s)
    (offered_capabilities s) (desired_capabilities s)
    (allow_pipelined_open s) (links s) (_output_handles s) (_input_handles
    s).

Definition set_remote_incoming_window (v : Z) (s : Session Link) : Session Link :=
  mkSession (name s) (state s) (handle_max s) (properties s) (remote_properties s)
    (channel s) (remote_channel s) (next_outgoing_id s) (next_incoming_id
    s) (incoming_window s) (outgoing_window s) (target_incoming_window s)
    v (remote_outgoing_window s) (offered_capabilities s)
    (desired_capabilities s) (allow_pipelined_open s) (links s)
    (_output_handles s) (_input_handles s).

Definition set_remote_outgoing_window (v : Z) (s : Session Link) : Session Link :=
  mkSession (name s) (state s) (handle_max s) (properties s) (remote_properties s)
    (channel s) (remote_channel s) (next_outgoing_id s) (next_incoming_id
    s) (incoming_window s) (outgoing_window s) (target_incoming_window s)
    (remote_incoming_window s) v (offered_capabilities s)
    (desired_capabilities s) (allow_pipelined_open s) (links s)
    (_output_handles s) (_input_handles s).

Definition set_links (v : pydict string Link) (s : Session Link) : Session Link :=
  mkSession (name s) (state s) (handle_max s) (properties s) (remote_properties s)
    (channel s) (remote_channel s) (next_outgoing_id s) (next_incoming_id
    s) (incoming_window s) (outgoing_window s) (target_incoming_window s)
    (remote_incoming_window s) (remote_outgoing_window s)
    (offered_capabilities s) (desired_capabilities s)
    (allow_pipelined_open s) v (_output_handles s) (_input_handles s).

Definition set_output_handles (v : pydict Z Link) (s : Session Link) : Session Link :=
  mkSession (name s) (state s) (handle_max s) (properties s) (remote_properties s)
    (channel s) (remote_channel s) (next_outgoing_id s) (next_incoming_id
    s) (incoming_window s) (outgoing_window s) (target_incoming_window s)
    (remote_incoming_window s) (remote_outgoing_window s)
    (offered_capabilities s) (desired_capabilities s)
    (allow_pipelined_open s) (links s) v (_input_handles s).

Definition set_input_handles (v : pydict Z Link) (s : Session Link) : Session Link :=
  mkSession (name s) (state s) (handle_max s) (properties s) (remote_properties s)
    (channel s) (remote_channel s) (next_outgoing_id s) (next_incoming_id
    s) (incoming_window s) (outgoing_window s) (target_incoming_window s)
    (remote_incoming_window s) (remote_outgoing_window s)
    (offered_capabilities s) (desired_capabilities s)
    (allow_pipelined_open s) (links s) (_output_handles s) v.

End Assign.

(** ** The collaborators

    Everything the session calls but does not define: the frame encoder
    ([_encode.encode_frame], used only to measure a Transfer performative)
    and the link classes.  A link is an opaque reference; its own mutable
    state is the [LinkStore] component of the world.  Each callback is an
    arbitrary computation on the world: it may send frames through the
    session, change the session, or raise. *)
Record Collaborators := mkCollaborators {
  Link : Type;
  LinkStore : Type;
  LinkFrame : Type;
  LinkArgs : Type;
  (** the length of [encode_frame(...)[1]] for a Transfer performative built
      from the given fields *)
  encoded_size : TransferFrame -> Z;
  (** [link.name] *)
  link_name : Link -> string;
  (** [link._is_closed] *)
  link_is_closed : LinkStore -> Link -> bool;
  (** [SenderLink(session, handle=..., target_address=..., **kwargs)] *)
  new_SenderLink : Z -> LinkArgs -> M (World Link LinkStore LinkFrame) Link;
  (** [ReceiverLink(session, handle=..., source_address=..., **kwargs)] *)
  new_ReceiverLink : Z -> LinkArgs -> M (World Link LinkStore LinkFrame) Link;
  link_on_session_state_change : Link -> M (World Link LinkStore LinkFrame) unit;
  link_detach : Link -> option AMQPError -> M (World Link LinkStore LinkFrame) unit;
  link_incoming_flow : Link -> FlowFrame -> M (World Link LinkStore LinkFrame) unit;
  link_incoming_transfer :
    Link -> TransferFrame -> M (World Link LinkStore LinkFrame) unit;
  link_incoming_detach :
    Link -> Z * option bool * option AMQPError ->
    M (World Link LinkStore LinkFrame) unit
}.

(** The keyword arguments of [Session.__init__] that the modelled methods
    depend on; [None] is an argument left out. *)
Record SessionKwargs := mkSessionKwargs {
  kw_name : option string;
  kw_handle_max : option Z;
  kw_properties : option (list (string * string));
  kw_next_outgoing_id : option Z;
  kw_incoming_window : option Z;
  kw_outgoing_window : option Z;
  kw_desired_capabilities : option (list string);
  kw_allow_pipelined_open : option bool
}.

Definition no_kwargs : SessionKwargs :=
  mkSessionKwargs None None None None None None None None.

Definition or_default {A : Type} (o : option A) (d : A) : A :=
  match o with Some a => a | None => d end.

(** [next(i for i in range(start, start + count) if free i)]; [None] is the
    [StopIteration] of an exhausted generator. *)
Fixpoint next_in_range (free : Z -> bool) (start : Z) (count : nat) : option Z :=
  match count with
  | O => None
  | S count' =>
      if free start then Some start else next_in_range free (start + 1) count'
  end.

(** ** The methods of [Session] *)

Section SessionMethods.
Variable ext : Collaborators.

Local Open Scope session_scope.

Local Abbreviation W := (World (Link ext) (LinkStore ext) (LinkFrame ext)).
Local Abbreviation Frame := (Performative (LinkFrame ext)).

(** [Session.__init__(connection, channel, **kwargs)]; [uuid4] is the value
    [str(uuid.uuid4())] takes when no (or an empty) name is given. *)
Definition Session_init (uuid4 : string) (channel : Z) (kwargs : SessionKwargs)
  : Session (Link ext) :=
  let incoming_window := or_default (kw_incoming_window kwargs) 1 in
  mkSession
    (match kw_name kwargs with
     | Some EmptyString | None => uuid4
     | Some n => n
     end)
    UNMAPPED
    (or_default (kw_handle_max kwargs) 4294967295)
    (kw_properties kwargs)
    None
    channel
    None
    (or_default (kw_next_outgoing_id kwargs) 0)
    None
    incoming_window
    (or_default (kw_outgoing_window kwargs) 1)
    incoming_window
    0
    0
    None
    (kw_desired_capabilities kwargs)
    (or_default (kw_allow_pipelined_open kwargs) true)
    [] [] [].

(** [self.<attr> = ...] on the session inside the world. *)
Definition assign (f : Session (Link ext) -> Session (Link ext)) : M W unit :=
  modify (fun w => mkWorld (f (sess w)) (conn w) (lstore w) (state_log w)).

(** [self._connection._process_outgoing_frame(channel, frame)] *)
Definition _process_outgoing_frame (channel : Z) (f : Frame) : M W unit :=
  modify (fun w =>
    mkWorld (sess w)
      (mkConnection (_remote_max_frame_size (conn w))
         (outgoing (conn w) ++ [(channel, f)])
         (closed_with (conn w)))
      (lstore w) (state_log w)).

(** [self._connection.close(error=...)] *)
Definition connection_close (error : option AMQPError) : M W unit :=
  modify (fun w =>
    mkWorld (sess w)
      (mkConnection (_remote_max_frame_size (conn w))
         (outgoing (conn w))
         (closed_with (conn w) ++ [error]))
      (lstore w) (state_log w)).

Definition log_state_change (previous new : SessionState) : M W unit :=
  modify (fun w =>
    mkWorld (sess w) (conn w) (lstore w) (state_log w ++ [(previous, new)])).

Definition _set_state (new_state : option SessionState) : M W unit :=
  match new_state with
  | None => ret tt
  | Some new =>
      w <- get ;;
      let previous_state := state (sess w) in
      assign (set_state new) ;;
      log_state_change previous_state new ;;
      w <- get ;;
      for_each (dict_values (links (sess w))) (link_on_session_state_change ext)
  end.

Definition _get_next_output_handle : M W Z :=
  w <- get ;;
  let s := sess w in
  if len (_output_handles s) >=? handle_max s then raise ValueError
  else
    match next_in_range (fun i => negb (dict_mem Z.eqb (_output_handles s) i))
                        1 (Z.to_nat (handle_max s - 1)) with
    | Some next_handle => ret next_handle
    | None => raise StopIteration
    end.

Definition _outgoing_begin : M W unit :=
  w <- get ;;
  let s := sess w in
  let begin_frame :=
    mkBegin
      (if SessionState_eqb (state s) BEGIN_RCVD then remote_channel s else None)
      (next_outgoing_id s)
      (incoming_window s)
      (outgoing_window s)
      (handle_max s)
      (if SessionState_eqb (state s) BEGIN_RCVD
       then offered_capabilities s else None)
      (if SessionState_eqb (state s) UNMAPPED
       then desired_capabilities s else None)
      (properties s) in
  _process_outgoing_frame (channel s) (PBegin begin_frame).

Definition _incoming_begin (frame : BeginFrame) : M W unit :=
  assign (set_handle_max (begin_handle_max frame)) ;;
  assign (set_next_incoming_id (Some (begin_next_outgoing_id frame))) ;;
  assign (set_remote_incoming_window (begin_incoming_window frame)) ;;
  assign (set_remote_outgoing_window (begin_outgoing_window frame)) ;;
  assign (set_remote_properties (begin_properties frame)) ;;
  w <- get ;;
  if SessionState_eqb (state (sess w)) BEGIN_SENT then
    assign (set_remote_channel (begin_remote_channel frame)) ;;
    _set_state (Some MAPPED)
  else if SessionState_eqb (state (sess w)) UNMAPPED then
    _set_state (Some BEGIN_RCVD) ;;
    _outgoing_begin ;;
    _set_state (Some MAPPED)
  else ret tt.

Definition _outgoing_end (error : option AMQPError) : M W unit :=
  w <- get ;;
  _process_outgoing_frame (channel (sess w)) (PEnd error).

Definition state_in (s : SessionState) (l : list SessionState) : bool :=
  existsb (SessionState_eqb s) l.

Definition _incoming_end : M W unit :=
  w <- get ;;
  (if negb (state_in (state (sess w)) [END_RCVD; END_SENT; DISCARDING]) then
     _set_state (Some END_RCVD) ;;
     w <- get ;;
     for_each (dict_values (links (sess w))) (fun link => link_detach ext link None) ;;
     _outgoing_end None
   else ret tt) ;;
  _set_state (Some UNMAPPED).

(** [_outgoing_attach], [_outgoing_detach] and [_outgoing_disposition]
    forward the link's frame. *)
Definition _outgoing_link_frame (k : LinkFrameKind) (frame : LinkFrame ext)
  : M W unit :=
  w <- get ;;
  _process_outgoing_frame (channel (sess w)) (PLink k frame).

(** [link_flow = frame or {}], then the four session fields are written
    over it. *)
Definition _outgoing_flow (frame : option FlowFrame) : M W unit :=
  w <- get ;;
  let s := sess w in
  let link_flow :=
    or_default frame (mkFlow None 0 0 0 None None None None) in
  let flow_frame :=
    mkFlow (next_incoming_id s) (incoming_window s)
           (next_outgoing_id s) (outgoing_window s)
           (flow_handle link_flow)
           (flow_link_credit link_flow)
           (flow_drain link_flow) (flow_echo link_flow) in
  _process_outgoing_frame (channel s) (PFlow flow_frame).

(** [x or y] on an optional integer: [None] and [0] are both falsy. *)
Definition int_or (x : option Z) (y : Z) : Z :=
  match x with
  | Some n => if n =? 0 then y else n
  | None => y
  end.

Definition _incoming_flow (frame : FlowFrame) : M W unit :=
  assign (set_next_incoming_id (Some (flow_next_outgoing_id frame))) ;;
  w <- get ;;
  let remote_incoming_id :=
    int_or (flow_next_incoming_id frame) (next_outgoing_id (sess w)) in
  assign (set_remote_incoming_window
            (remote_incoming_id + flow_incoming_window frame
             - next_outgoing_id (sess w))) ;;
  assign (set_remote_outgoing_window (flow_outgoing_window frame)) ;;
  match flow_handle frame with
  | Some handle =>
      w <- get ;;
      match dict_get Z.eqb (_input_handles (sess w)) handle with
      | Some link => link_incoming_flow ext link frame
      | None => raise KeyError
      end
  | None =>
      w <- get ;;
      for_each (dict_values (_output_handles (sess w))) (fun link =>
        w <- get ;;
        if (remote_incoming_window (sess w) >? 0)
           && negb (link_is_closed ext (lstore w) link)
        then link_incoming_flow ext link frame
        else ret tt)
  end.

(** The fields of [tmp_delivery_frame] together with the payload of the
    frame: everything is copied from [delivery.frame] except [more],
    [delivery_id] and the payload. *)
Definition tmp_delivery_frame (f : TransferFrame) (more : bool)
    (delivery_id : Z) (payload : bytes) : TransferFrame :=
  mkTransfer (tf_handle f) (Some delivery_id) (tf_delivery_tag f)
    (tf_message_format f) (tf_settled f) more (tf_rcv_settle_mode f)
    (tf_state f) (tf_resume f) (tf_aborted f) (tf_batchable f) payload.

(** The loop [while remaining_payload_cnt > available_frame_size] of
    [_outgoing_transfer]; it returns [start_idx].  Nothing bounds the number
    of iterations in the source (the loop never ends when
    [available_frame_size <= 0] and the payload is longer), so the model
    takes fuel, one unit per test of the loop condition. *)
Fixpoint transfer_loop (fuel : nat) (f : TransferFrame) (payload : bytes)
    (available_frame_size start_idx remaining_payload_cnt : Z) : M W Z :=
  match fuel with
  | O => fun w => (OutOfFuel, w)
  | S fuel' =>
      if remaining_payload_cnt >? available_frame_size then
        w <- get ;;
        _process_outgoing_frame (channel (sess w))
          (PTransfer
             (tmp_delivery_frame f true (next_outgoing_id (sess w))
                (py_slice payload start_idx (start_idx + available_frame_size)))) ;;
        transfer_loop fuel' f payload available_frame_size
          (start_idx + available_frame_size)
          (remaining_payload_cnt - available_frame_size)
      else ret start_idx
  end.

Definition set_transfer_state (v : SessionTransferState) (d : Delivery)
  : Delivery :=
  mkDelivery (frame d) (Some v).

(** [delivery.frame["delivery_id"] = id; delivery.frame["payload"] = b""] *)
Definition measured_frame (f : TransferFrame) (delivery_id : Z)
  : TransferFrame :=
  mkTransfer (tf_handle f) (Some delivery_id) (tf_delivery_tag f)
    (tf_message_format f) (tf_settled f) (tf_more f) (tf_rcv_settle_mode f)
    (tf_state f) (tf_resume f) (tf_aborted f) (tf_batchable f) [].

(** [_outgoing_transfer(delivery, network_trace_params)].  The delivery is
    mutated in place by the source; here the mutated delivery is the
    result.  The debug logging of the frames is left out. *)
Definition _outgoing_transfer (fuel : nat) (delivery : Delivery) : M W Delivery :=
  w <- get ;;
  let delivery :=
    if negb (SessionState_eqb (state (sess w)) MAPPED)
    then set_transfer_state ERROR delivery else delivery in
  if remote_incoming_window (sess w) <=? 0 then
    ret (set_transfer_state BUSY delivery)
  else
    let payload := tf_payload (frame delivery) in
    let payload_size := len payload in
    let delivery :=
      mkDelivery (measured_frame (frame delivery) (next_outgoing_id (sess w)))
                 (transfer_state delivery) in
    let transfer_overhead_size := encoded_size ext (frame delivery) in
    let available_frame_size :=
      _remote_max_frame_size (conn w) - transfer_overhead_size - 8 in
    start_idx <- transfer_loop fuel (frame delivery) payload
                   available_frame_size 0 payload_size ;;
    w <- get ;;
    _process_outgoing_frame (channel (sess w))
      (PTransfer
         (tmp_delivery_frame (frame delivery) false (next_outgoing_id (sess w))
            (py_slice_from payload start_idx))) ;;
    w <- get ;;
    assign (set_next_outgoing_id (next_outgoing_id (sess w) + 1)) ;;
    w <- get ;;
    assign (set_remote_incoming_window (remote_incoming_window (sess w) - 1)) ;;
    w <- get ;;
    assign (set_outgoing_window (outgoing_window (sess w) - 1)) ;;
    ret (set_transfer_state OKAY delivery).

(** [_wait_for_response(wait, end_state)] for [wait=False], the default of
    [begin] and [end] and the only value the session itself passes: neither
    branch is taken.  The polling branches (real time, the connection's
    [listen]) are not modelled. *)
Definition _wait_for_response_no_wait (end_state : SessionState) : M W unit :=
  ret tt.

(** [begin(wait=False)] *)
Definition begin : M W unit :=
  _outgoing_begin ;;
  _set_state (Some BEGIN_SENT) ;;
  w <- get ;;
  if negb (allow_pipelined_open (sess w)) then raise ValueError else ret tt.

(** [end(error=None, wait=False)]; every exception class of the model is a
    subclass of [Exception], so the handler takes them all. *)
Definition end_ (error : option AMQPError) : M W unit :=
  try_except
    (w <- get ;;
     (if negb (state_in (state (sess w)) [UNMAPPED; DISCARDING])
      then _outgoing_end error else ret tt) ;;
     w <- get ;;
     for_each (dict_values (links (sess w)))
              (fun link => link_detach ext link None) ;;
     let new_state :=
       match error with Some _ => DISCARDING | None => END_SENT end in
     _set_state (Some new_state) ;;
     _wait_for_response_no_wait UNMAPPED)
    (fun exc => Some (_set_state (Some UNMAPPED))).

Definition unattached_handle_error : AMQPError :=
  mkAMQPError SessionUnattachedHandle
    "Invalid handle reference in received frame: Handle is not currently associated with an attached link"
    None.

(** The [try] block yields [false] when it runs to its end and the
    [except KeyError] block, which ends in [return], yields [true]. *)
Definition _incoming_transfer (frame : TransferFrame) : M W unit :=
  w <- get ;;
  match next_incoming_id (sess w) with
  | None => raise TypeError
  | Some n => assign (set_next_incoming_id (Some (n + 1)))
  end ;;
  w <- get ;;
  assign (set_remote_outgoing_window (remote_outgoing_window (sess w) - 1)) ;;
  w <- get ;;
  assign (set_incoming_window (incoming_window (sess w) - 1)) ;;
  returned <-
    try_except
      (w <- get ;;
       match dict_get Z.eqb (_input_handles (sess w)) (tf_handle frame) with
       | Some link => link_incoming_transfer ext link frame
       | None => raise KeyError
       end ;;
       ret false)
      (fun exc =>
         match exc with
         | KeyError =>
             Some (_set_state (Some DISCARDING) ;;
                   end_ (Some unattached_handle_error) ;;
                   ret true)
         | _ => None
         end) ;;
  if returned : bool then ret tt
  else
    w <- get ;;
    if incoming_window (sess w) =? 0 then
      assign (set_incoming_window (target_incoming_window (sess w))) ;;
      _outgoing_flow None
    else ret tt.

(** An inbound Detach as the decoded list [handle, closed, error]. *)
Definition _incoming_detach (frame : Z * option bool * option AMQPError)
  : M W unit :=
  try_except
    (w <- get ;;
     match dict_get Z.eqb (_input_handles (sess w)) (fst (fst frame)) with
     | Some link => link_incoming_detach ext link frame
     | None => raise KeyError
     end)
    (fun exc =>
       match exc with
       | KeyError =>
           Some (_set_state (Some DISCARDING) ;;
                 connection_close (Some unattached_handle_error))
       | _ => None
       end).

Definition create_receiver_link (args : LinkArgs ext) : M W (Link ext) :=
  assigned_handle <- _get_next_output_handle ;;
  link <- new_ReceiverLink ext assigned_handle args ;;
  w <- get ;;
  assign (set_links (dict_set String.eqb (links (sess w)) (link_name ext link) link)) ;;
  w <- get ;;
  assign (set_output_handles
            (dict_set Z.eqb (_output_handles (sess w)) assigned_handle link)) ;;
  ret link.

Definition create_sender_link (args : LinkArgs ext) : M W (Link ext) :=
  assigned_handle <- _get_next_output_handle ;;
  link <- new_SenderLink ext assigned_handle args ;;
  w <- get ;;
  assign (set_output_handles
            (dict_set Z.eqb (_output_handles (sess w)) assigned_handle link)) ;;
  w <- get ;;
  assign (set_links (dict_set String.eqb (links (sess w)) (link_name ext link) link)) ;;
  ret link.
End SessionMethods.

(** ** A concrete set of collaborators

    Simple links, used to run the model on concrete sessions: a link is its
    name, handle and role; the link store lists the handles of the links that
    were detached; detaching, locally with [detach] or on an inbound Detach,
    sends one Detach frame (here: the handle) and closes the link; the other
    callbacks do nothing.  The encoder reports a fixed size [overhead] for
    every Transfer performative. *)
Record SimpleLink := mkSimpleLink {
  sl_name : string;
  sl_handle : Z;
  sl_is_sender : bool
}.

Definition SimpleWorld := World SimpleLink (list Z) Z.

Definition simple_detach (l : SimpleLink) : M SimpleWorld unit :=
  fun w =>
    if existsb (Z.eqb (sl_handle l)) (lstore w) then (Ok tt, w)
    else
      (Ok tt,
       mkWorld (sess w)
         (mkConnection (_remote_max_frame_size (conn w))
            (outgoing (conn w)
             ++ [(channel (sess w), PLink DetachKind (sl_handle l))])
            (closed_with (conn w)))
         (sl_handle l :: lstore w) (state_log w)).

Definition simple_links (overhead : Z) : Collaborators :=
  mkCollaborators
    (fun _ => overhead)
    sl_name
    (fun store l => existsb (Z.eqb (sl_handle l)) store)
    (fun handle name => ret (mkSimpleLink name handle true))
    (fun handle name => ret (mkSimpleLink name handle false))
    (fun _ => ret tt)
    (fun l _ => simple_detach l)
    (fun _ _ => ret tt)
    (fun _ _ => ret tt)
    (fun l _ => simple_detach l).

(** A world around a freshly constructed session. *)
Definition new_world (uuid4 : string) (channel : Z) (kwargs : SessionKwargs)
    (remote_max_frame_size : Z) : SimpleWorld :=
  mkWorld (Session_init (simple_links 0) uuid4 channel kwargs)
          (mkConnection remote_max_frame_size [] [])
          [] [].

(** Running one method after another, as long as each returns normally. *)
Definition and_then {W A B : Type} (r : outcome A * W) (k : M W B)
  : outcome B * W :=
  match r with
  | (Ok _, w) => k w
  | (Raise e, w) => (Raise e, w)
  | (OutOfFuel, w) => (OutOfFuel, w)
  end.

(** ** Vocabulary of the statements *)

Section Vocabulary.
Variable ext : Collaborators.

Local Abbreviation W := (World (Link ext) (LinkStore ext) (LinkFrame ext)).
Local Abbreviation Frame := (Performative (LinkFrame ext)).

(** The world after the frames [fs] were handed to the connection. *)
Definition sent (w : W) (fs : list (Z * Frame)) : W :=
  mkWorld (sess w)
    (mkConnection (_remote_max_frame_size (conn w))
       (outgoing (conn w) ++ fs) (closed_with (conn w)))
    (lstore w) (state_log w).

(** The world with [f] applied to the session. *)
Definition with_sess (f : Session (Link ext) -> Session (Link ext)) (w : W) : W :=
  mkWorld (f (sess w)) (conn w) (lstore w) (state_log w).

Definition is_begin (p : Frame) : bool :=
  match p with PBegin _ => true | _ => false end.
Definition is_end (p : Frame) : bool :=
  match p with PEnd _ => true | _ => false end.
Definition is_transfer (p : Frame) : bool :=
  match p with PTransfer _ => true | _ => false end.

(** Begin and End are the session's own frames; a link never sends them. *)
Definition is_session_frame (p : Frame) : bool := is_begin p || is_end p.

(** The Begin and End frames of a connection log, in order. *)
Definition session_frames (log : list (Z * Frame)) : list Frame :=
  filter is_session_frame (map snd log).

(** The End frames of a connection log. *)
Definition end_frames (log : list (Z * Frame)) : list Frame :=
  filter is_end (map snd log).

(** The Transfer frames of a connection log. *)
Definition transfer_frames (log : list (Z * Frame)) : list Frame :=
  filter is_transfer (map snd log).

(** What a well-behaved link callback may do to the world: anything that
    leaves the session object and the state log alone and sends no Begin
    or End frame. *)
Record link_step (w w' : W) : Prop := mk_link_step {
  ls_sess : sess w' = sess w;
  ls_log : state_log w' = state_log w;
  ls_out : exists fs, outgoing (conn w') = outgoing (conn w) ++ fs
                      /\ session_frames fs = []
}.

(** The part of the world that such a callback cannot change. *)
Definition observe (w : W)
  : Session (Link ext) * list (SessionState * SessionState) * list Frame :=
  (sess w, state_log w, session_frames (outgoing (conn w))).

(** A callback that returns normally and only does a [link_step]. *)
Definition quiet {A : Type} (m : M W A) : Prop :=
  forall w, exists a w', m w = (Ok a, w') /\ link_step w w'.

(** The per-frame payload capacity computed by [_outgoing_transfer] for the
    delivery [d] in the world [w]. *)
Definition capacity (w : W) (d : Delivery) : Z :=
  _remote_max_frame_size (conn w)
  - encoded_size ext (measured_frame (frame d) (next_outgoing_id (sess w)))
  - 8.

(** max(1, ceil(S / C)) *)
Definition frame_count (S C : Z) : Z := Z.max 1 ((S + C - 1) / C).

(** The smallest free handle in [lo, hi), as a relation. *)
Definition smallest_free (lo hi : Z) (table : pydict Z (Link ext)) (h : Z) : Prop :=
  lo <= h < hi /\ dict_mem Z.eqb table h = false
  /\ forall i, lo <= i < h -> dict_mem Z.eqb table i = true.

(** The frames sent by the loop of [_outgoing_transfer] for the chunks
    [cs] of the payload, and a list of Transfer frames as it appears in the
    connection's log. *)
Definition more_frames (w : W) (f : TransferFrame) (cs : list bytes)
  : list TransferFrame :=
  map (tmp_delivery_frame f true (next_outgoing_id (sess w))) cs.

Definition on_channel (w : W) (fs : list TransferFrame) : list (Z * Frame) :=
  map (fun f => (channel (sess w), PTransfer f)) fs.

(** The three counters after one delivery. *)
Definition count_delivery (s : Session (Link ext)) : Session (Link ext) :=
  set_outgoing_window (outgoing_window s - 1)
    (set_remote_incoming_window (remote_incoming_window s - 1)
       (set_next_outgoing_id (next_outgoing_id s + 1) s)).

(** The three counters after one inbound Transfer frame, [n] being the
    value of [next_incoming_id] before it. *)
Definition count_frame (n : Z) (s : Session (Link ext)) : Session (Link ext) :=
  set_incoming_window (incoming_window s - 1)
    (set_remote_outgoing_window (remote_outgoing_window s - 1)
       (set_next_incoming_id (Some (n + 1)) s)).

(** Creating one link after another: [true] asks for a sender link,
    [false] for a receiver link. *)
Fixpoint create_links (requests : list (bool * LinkArgs ext))
  : M W (list (Link ext)) :=
  match requests with
  | [] => ret []
  | (sender, args) :: requests' =>
      bind (if sender : bool then create_sender_link ext args
            else create_receiver_link ext args)
        (fun link =>
           bind (create_links requests') (fun ls => ret (link :: ls)))
  end.


(** The links take state changes and [detach] quietly. *)
Definition links_quiet : Prop :=
  (forall l, quiet (link_on_session_state_change ext l))
  /\ (forall l e, quiet (link_detach ext l e)).

(** The link constructors return a link and behave as quiet callbacks. *)
Definition constructors_quiet : Prop :=
  (forall h a, quiet (new_SenderLink ext h a))
  /\ (forall h a, quiet (new_ReceiverLink ext h a)).

(** The state [end(error)] moves the session to. *)
Definition end_state (error : option AMQPError) : SessionState :=
  match error with Some _ => DISCARDING | None => END_SENT end.

(** The output-handle table holds exactly the handles 1 .. k. *)
Definition filled (k : Z) (table : pydict Z (Link ext)) : Prop :=
  len table = k
  /\ forall i, dict_mem Z.eqb table i = true <-> 1 <= i <= k.
End Vocabulary.

(** ** Concrete sessions

    A session freshly constructed on channel 0 of a connection whose peer
    accepts frames of 512 bytes; the peer's Begin (100-frame windows, at most
    the handles below 7); and the sessions reached from there. *)
Definition fresh_world : SimpleWorld := new_world "session" 0 no_kwargs 512.

Definition peer_begin : BeginFrame := mkBegin None 0 100 100 7 None None None.

(** The peer opened the session: MAPPED after the reply Begin. *)
Definition mapped_world : SimpleWorld :=
  snd (_incoming_begin (simple_links 0) peer_begin fresh_world).

(** A delivery on link handle 1 with a payload of [n] zero bytes. *)
Definition delivery_of (n : nat) : Delivery :=
  mkDelivery
    (mkTransfer 1 None (Some [x01]) (Some 0) (Some false) false None None None
                None None (repeat x00 n))
    None.

(** [n] deliveries sent one after the other, each with enough fuel. *)
Fixpoint send_deliveries (ext : Collaborators) (n : nat) (d : Delivery)
    (w : World (Link ext) (LinkStore ext) (LinkFrame ext))
  : World (Link ext) (LinkStore ext) (LinkFrame ext) :=
  match n with
  | O => w
  | S n' =>
      send_deliveries ext n' d
        (snd (_outgoing_transfer ext (S (List.length (tf_payload (frame d)))) d w))
  end.

(** Ten one-byte deliveries later: [next_outgoing_id] is 10. *)
Definition sent_ten_world : SimpleWorld :=
  send_deliveries (simple_links 32) 10 (delivery_of 1) mapped_world.

(** The same session after [end()]: END_SENT, the remote window still open. *)
Definition ended_world : SimpleWorld :=
  snd (end_ (simple_links 32) None mapped_world).

(** The mapped session with the peer's handle 0 bound to a receiver link, as
    an inbound Attach for that link leaves it. *)
Definition receiving_world : SimpleWorld :=
  with_sess (simple_links 32)
    (set_input_handles [(0, mkSimpleLink "receiver" 1 false)]) mapped_world.

(** An inbound Transfer frame on the peer's handle [h]. *)
Definition transfer_on (h : Z) : TransferFrame :=
  mkTransfer h (Some 0) (Some [x01]) (Some 0) (Some true) false None None None
             None None [x00; x00].

(** A session-level Flow: the peer's next incoming id and incoming window. *)
Definition peer_flow (next_incoming : option Z) (window : Z) : FlowFrame :=
  mkFlow next_incoming window 0 100 None None None None.

(** The session of [sent_ten_world] once the peer, having taken five of the
    ten frames, has advertised a window of two. *)
Definition closed_window_world : SimpleWorld :=
  snd (_incoming_flow (simple_links 32) (peer_flow (Some 5) 2) sent_ten_world).

(** The fresh session after a local [begin()]: BEGIN_SENT. *)
Definition begun_world : SimpleWorld := snd (begin (simple_links 32) fresh_world).

(** ** Further vocabulary: sequences of calls and what they assign *)

Section Sequences.
Variable ext : Collaborators.

Local Abbreviation W := (World (Link ext) (LinkStore ext) (LinkFrame ext)).

(** What [_incoming_begin] assigns before it looks at the state. *)
Definition begin_assignments (frame : BeginFrame) (s : Session (Link ext))
  : Session (Link ext) :=
  set_remote_properties (begin_properties frame)
    (set_remote_outgoing_window (begin_outgoing_window frame)
       (set_remote_incoming_window (begin_incoming_window frame)
          (set_next_incoming_id (Some (begin_next_outgoing_id frame))
             (set_handle_max (begin_handle_max frame) s)))).

(** What [_incoming_flow] assigns before it routes the frame. *)
Definition flow_assignments (frame : FlowFrame) (s : Session (Link ext))
  : Session (Link ext) :=
  set_remote_outgoing_window (flow_outgoing_window frame)
    (set_remote_incoming_window
       (int_or (flow_next_incoming_id frame) (next_outgoing_id s)
        + flow_incoming_window frame - next_outgoing_id s)
       (set_next_incoming_id (Some (flow_next_outgoing_id frame)) s)).

(** The Begin frame [_outgoing_begin] builds from the session [s]. *)
Definition outgoing_begin_frame (s : Session (Link ext)) : BeginFrame :=
  mkBegin
    (if SessionState_eqb (state s) BEGIN_RCVD then remote_channel s else None)
    (next_outgoing_id s) (incoming_window s) (outgoing_window s) (handle_max s)
    (if SessionState_eqb (state s) BEGIN_RCVD then offered_capabilities s else None)
    (if SessionState_eqb (state s) UNMAPPED then desired_capabilities s else None)
    (properties s).

(** The world after [self._connection.close(error=...)]. *)
Definition closed (w : W) (error : option AMQPError) : W :=
  mkWorld (sess w)
    (mkConnection (_remote_max_frame_size (conn w)) (outgoing (conn w))
       (closed_with (conn w) ++ [error]))
    (lstore w) (state_log w).

(** The deliveries [ds] handed to [_outgoing_transfer] one after the other,
    each with the same fuel; the result lists the deliveries as the calls
    left them. *)
Fixpoint outgoing_transfers (fuel : nat) (ds : list Delivery)
  : M W (list Delivery) :=
  match ds with
  | [] => ret []
  | d :: ds' =>
      bind (_outgoing_transfer ext fuel d) (fun d' =>
      bind (outgoing_transfers fuel ds') (fun rest => ret (d' :: rest)))
  end.

(** The inbound Transfer frames [fs] processed in order. *)
Definition incoming_transfers (fs : list TransferFrame) : M W unit :=
  for_each fs (_incoming_transfer ext).

(** A whole session: local [begin()], the peer's Begin, local [end()], the
    peer's End. *)
Definition begin_to_end (peer : BeginFrame) : M W unit :=
  bind (begin ext) (fun _ =>
  bind (_incoming_begin ext peer) (fun _ =>
  bind (end_ ext None) (fun _ =>
  _incoming_end ext))).

(** The output-handle table as a run of [create_sender_link] and
    [create_receiver_link] calls keeps it: one entry per handle, every handle
    in [1, handle_max). *)
Definition handles_ok (s : Session (Link ext)) : Prop :=
  NoDup (map fst (_output_handles s))
  /\ Forall (fun h => 1 <= h < handle_max s) (map fst (_output_handles s)).

(** [incoming_window] after [k] inbound frames, for a window that cycles
    through target, target - 1, ..., 1. *)
Definition window_after (target window k : Z) : Z :=
  (window - 1 - k) mod target + 1.

(** How often such a window has reached 0 in [k] inbound frames. *)
Definition resets_after (target window k : Z) : Z :=
  (k + target - window) / target.

(** The Flow frames of a connection log. *)
Definition flow_frames (log : list (Z * Performative (LinkFrame ext)))
  : list (Performative (LinkFrame ext)) :=
  filter (fun p => match p with PFlow _ => true | _ => false end) (map snd log).

(** A callback that returns normally and touches nothing but the links' own
    state: it sends no frame and leaves the session alone. *)
Definition silent {A : Type} (m : M W A) : Prop :=
  forall w, exists a st,
    m w = (Ok a, mkWorld (sess w) (conn w) st (state_log w)).
End Sequences.

(** ** Links that fail

    The simple links again, except that [_incoming_transfer] and
    [_incoming_detach] raise the exception [e]; and the simple links except
    that [detach] raises [e]. *)
Definition failing_links (e : exn) : Collaborators :=
  mkCollaborators
    (fun _ => 32)
    sl_name
    (fun store l => existsb (Z.eqb (sl_handle l)) store)
    (fun handle name => ret (mkSimpleLink name handle true))
    (fun handle name => ret (mkSimpleLink name handle false))
    (fun _ => ret tt)
    (fun l _ => simple_detach l)
    (fun _ _ => ret tt)
    (fun _ _ => raise e)
    (fun _ _ => raise e).

Definition undetachable_links (e : exn) : Collaborators :=
  mkCollaborators
    (fun _ => 32)
    sl_name
    (fun store l => existsb (Z.eqb (sl_handle l)) store)
    (fun handle name => ret (mkSimpleLink name handle true))
    (fun handle name => ret (mkSimpleLink name handle false))
    (fun _ => ret tt)
    (fun _ _ => (raise e : M SimpleWorld unit))
    (fun _ _ => ret tt)
    (fun _ _ => ret tt)
    (fun _ _ => ret tt).

(** The mapped session with one sender link, created with
    [create_sender_link]. *)
Definition sending_world : SimpleWorld :=
  snd (create_sender_link (simple_links 32) "sender"%string mapped_world).

(** The mapped session whose remote window the peer's Flow has set to 3. *)
Definition window_three_world : SimpleWorld :=
  snd (_incoming_flow (simple_links 32) (peer_flow None 3) mapped_world).

(** The fresh session constructed with [allow_pipelined_open=False]. *)
Definition unpipelined_world : SimpleWorld :=
  new_world "session" 0
    (mkSessionKwargs None None None None None None None (Some false)) 512.

(** A session constructed with [incoming_window=n], opened by the peer, with
    the peer's handle 0 bound to a receiver link. *)
Definition receiving_world_with_window (n : Z) : SimpleWorld :=
  with_sess (simple_links 32)
    (set_input_handles [(0, mkSimpleLink "receiver" 1 false)])
    (snd (_incoming_begin (simple_links 32) peer_begin
            (new_world "session" 0
               (mkSessionKwargs None None None None (Some n) None None None)
               512))).

Unset Implicit Arguments.

(** * Properties *)

(** ** Lists, slices and arithmetic *)

Lemma len_nonneg {A : Type} (l : list A) : 0 <= len l.
Proof. unfold len; lia. Qed.

Lemma len_app {A : Type} (l1 l2 : list A) : len (l1 ++ l2) = len l1 + len l2.
Proof. unfold len; rewrite length_app; lia. Qed.

Lemma len_cons {A : Type} (a : A) (l : list A) : len (a :: l) = 1 + len l.
Proof. unfold len; simpl List.length; lia. Qed.

Lemma firstn_plus {A : Type} (a b : nat) (l : list A) :
  firstn (a + b) l = firstn a l ++ firstn b (skipn a l).
Proof.
  revert l; induction a as [|a IH]; intros l; simpl.
  - reflexivity.
  - destruct l as [|x l]; simpl.
    + now rewrite firstn_nil.
    + now rewrite IH.
Qed.

Lemma skipn_plus {A : Type} (a b : nat) (l : list A) :
  skipn (a + b) l = skipn b (skipn a l).
Proof.
  revert l; induction a as [|a IH]; intros l; simpl.
  - reflexivity.
  - destruct l as [|x l]; simpl.
    + now rewrite skipn_nil.
    + apply IH.
Qed.

Lemma py_slice_inside {A : Type} (l : list A) (start n : Z) :
  0 <= start -> 0 < n -> start + n <= len l ->
  py_slice l start (start + n)
  = firstn (Z.to_nat n) (skipn (Z.to_nat start) l).
Proof.
  intros Hs Hn Hl. unfold py_slice, slice_index.
  destruct (Z.ltb_spec start 0); [lia|].
  destruct (Z.ltb_spec (start + n) 0); [lia|].
  rewrite !Z.min_l by lia.
  destruct (Z.leb_spec (start + n) start); [lia|].
  do 2 f_equal. lia.
Qed.

Lemma py_slice_from_inside {A : Type} (l : list A) (start : Z) :
  0 <= start <= len l ->
  py_slice_from l start = skipn (Z.to_nat start) l.
Proof.
  intros Hs. unfold py_slice_from, slice_index.
  destruct (Z.ltb_spec start 0); [lia|].
  now rewrite Z.min_l by lia.
Qed.

Lemma frame_count_last (S C : Z) :
  0 < C -> S <= C -> frame_count S C = 1.
Proof.
  intros HC HS. unfold frame_count.
  assert ((S + C - 1) / C <= 1); [|lia].
  apply Z.lt_succ_r. apply Z.div_lt_upper_bound; lia.
Qed.

Lemma frame_count_more (S C : Z) :
  0 < C -> C < S -> frame_count S C = frame_count (S - C) C + 1.
Proof.
  intros HC HS. unfold frame_count.
  replace (S + C - 1) with ((S - C + C - 1) + 1 * C) by lia.
  rewrite Z.div_add by lia.
  assert (1 <= (S - C + C - 1) / C); [|lia].
  apply Z.div_le_lower_bound; lia.
Qed.

Lemma frame_count_pos (S C : Z) : 1 <= frame_count S C.
Proof. unfold frame_count; lia. Qed.

(** The last fragment starts inside the payload. *)
Lemma frame_count_start (S C : Z) :
  0 < C -> 0 <= S -> C * (frame_count S C - 1) <= S.
Proof.
  intros HC HS. unfold frame_count.
  destruct (Z.max_spec 1 ((S + C - 1) / C)) as [[_ ->]|[_ ->]]; [|lia].
  assert (C * ((S + C - 1) / C) <= S + C - 1) by (apply Z.mul_div_le; lia).
  lia.
Qed.

Lemma frame_count_example (C : Z) : 10 <= C -> frame_count (C * 3 + 10) C = 4.
Proof.
  intros HC. unfold frame_count.
  replace (C * 3 + 10 + C - 1) with (9 + 4 * C) by lia.
  rewrite Z.div_add by lia. rewrite Z.div_small by lia. lia.
Qed.


(** ** Stepping through the monad *)

Lemma bind_ok {W A B : Type} (m : M W A) (k : A -> M W B) (w w' : W) (a : A) :
  m w = (Ok a, w') -> bind m k w = k a w'.
Proof. unfold bind; now intros ->. Qed.

Lemma bind_raise {W A B : Type} (m : M W A) (k : A -> M W B) (w w' : W) (e : exn) :
  m w = (Raise e, w') -> bind m k w = (Raise e, w').
Proof. unfold bind; now intros ->. Qed.

Lemma bind_assoc {W A B C : Type} (m : M W A) (f : A -> M W B) (k : B -> M W C)
    (w : W) :
  bind (bind m f) k w = bind m (fun a => bind (f a) k) w.
Proof. unfold bind. now destruct (m w) as [[a|e|] w']. Qed.

Section Transfer.
Variable ext : Collaborators.

Local Abbreviation W := (World (Link ext) (LinkStore ext) (LinkFrame ext)).

Lemma sent_nil (w : W) : sent ext w [] = w.
Proof.
  destruct w as [s [m o c] l g]; unfold sent; simpl. now rewrite app_nil_r.
Qed.

Lemma sent_sent (w : W) fs gs : sent ext (sent ext w fs) gs = sent ext w (fs ++ gs).
Proof. unfold sent; simpl. now rewrite app_assoc. Qed.

(** With a positive capacity the loop ends after [frame_count - 1] frames
    of [C] bytes each, which are the payload from [start_idx] on, cut in
    order. *)
Lemma transfer_loop_ok (f : TransferFrame) (payload : bytes) (C : Z) :
  0 < C ->
  forall (fuel : nat) (start remaining : Z) (w : W),
    0 <= start -> 0 <= remaining -> start + remaining = len payload ->
    (Z.to_nat (frame_count remaining C) <= fuel)%nat ->
    exists cs : list bytes,
      transfer_loop ext fuel f payload C start remaining w
      = (Ok (start + C * len cs), sent ext w (on_channel ext w (more_frames ext w f cs)))
      /\ len cs = frame_count remaining C - 1
      /\ List.concat cs
         = firstn (Z.to_nat (C * len cs)) (skipn (Z.to_nat start) payload).
Proof.
  intros HC. induction fuel as [|fuel IH]; intros start remaining w Hs Hr Hlen Hfuel.
  - pose proof (frame_count_pos remaining C). lia.
  - cbn [transfer_loop].
    destruct (Z.gtb_spec remaining C) as [Hgt|Hle].
    + rewrite (frame_count_more remaining C HC Hgt) in Hfuel.
      pose proof (frame_count_pos (remaining - C) C) as Hpos.
      destruct (IH (start + C) (remaining - C)
                   (sent ext w [(channel (sess w),
                             PTransfer (tmp_delivery_frame f true
                                (next_outgoing_id (sess w))
                                (py_slice payload start (start + C))))]))
        as (cs & Hrun & Hcount & Hcat); try lia.
      exists (py_slice payload start (start + C) :: cs).
      split; [|split].
      * unfold bind, get, _process_outgoing_frame, modify. 
        cbn beta iota.
        change (mkWorld (sess w)
                  (mkConnection (_remote_max_frame_size (conn w))
                     (outgoing (conn w) ++
                      [(channel (sess w),
                        PTransfer (tmp_delivery_frame f true
                           (next_outgoing_id (sess w))
                           (py_slice payload start (start + C))))])
                     (closed_with (conn w))) (lstore w) (state_log w))
          with (sent ext w [(channel (sess w),
                         PTransfer (tmp_delivery_frame f true
                            (next_outgoing_id (sess w))
                            (py_slice payload start (start + C))))]).
        rewrite Hrun. rewrite sent_sent. rewrite len_cons.
        f_equal. f_equal. lia.
      * rewrite len_cons, Hcount, (frame_count_more remaining C HC Hgt). lia.
      * cbn [List.concat]. rewrite Hcat, len_cons.
        rewrite py_slice_inside by lia.
        replace (Z.to_nat (C * (1 + len cs)))
          with (Z.to_nat C + Z.to_nat (C * len cs))%nat
          by (pose proof (len_nonneg cs); nia).
        rewrite firstn_plus. f_equal. f_equal.
        rewrite <- skipn_plus. f_equal. lia.
    + exists []. rewrite (frame_count_last remaining C HC) by lia.
      unfold ret. cbn [more_frames on_channel map len List.length List.concat].
      rewrite sent_nil. split; [|split].
      * unfold len; simpl List.length. f_equal. f_equal. lia.
      * unfold len; simpl List.length. lia.
      * unfold len; simpl List.length. rewrite Z.mul_0_r. reflexivity.
Qed.
End Transfer.


Section OutgoingTransfer.
Variable ext : Collaborators.

Local Abbreviation W := (World (Link ext) (LinkStore ext) (LinkFrame ext)).

(** [_outgoing_transfer] with an open remote window and a positive frame
    capacity, whatever the session state: the payload is cut into
    [frame_count] fragments, all sent, and the delivery is counted once. *)
Lemma outgoing_transfer_sends (w : W) (d : Delivery) (fuel : nat) :
  let C := capacity ext w d in
  let payload := tf_payload (frame d) in
  let f := measured_frame (frame d) (next_outgoing_id (sess w)) in
  0 < remote_incoming_window (sess w) ->
  0 < C ->
  (Z.to_nat (frame_count (len payload) C) <= fuel)%nat ->
  exists cs : list bytes,
    _outgoing_transfer ext fuel d w
    = (Ok (mkDelivery f (Some OKAY)),
       with_sess ext (count_delivery ext)
         (sent ext w
            (on_channel ext w
               (more_frames ext w f cs
                ++ [tmp_delivery_frame f false (next_outgoing_id (sess w))
                      (skipn (Z.to_nat (C * len cs)) payload)]))))
    /\ len cs = frame_count (len payload) C - 1
    /\ List.concat cs ++ skipn (Z.to_nat (C * len cs)) payload = payload.
Proof.
  intros C payload f Hwin HC Hfuel.
  destruct (transfer_loop_ok ext f payload C HC fuel 0 (len payload) w)
    as (cs & Hloop & Hcount & Hcat); try lia.
  { apply len_nonneg. }
  exists cs. split; [|split].
  - unfold _outgoing_transfer.
    unfold bind at 1. unfold get at 1. cbn beta iota.
    destruct (Z.leb_spec (remote_incoming_window (sess w)) 0) as [|_]; [lia|].
    destruct (negb (SessionState_eqb (state (sess w)) MAPPED));
      cbn [frame set_transfer_state transfer_state];
      fold payload; fold f; fold C; fold (capacity ext w d);
      change (_remote_max_frame_size (conn w) - encoded_size ext f - 8) with C;
      rewrite (bind_ok _ _ _ _ _ Hloop);
      rewrite py_slice_from_inside
        by (pose proof (frame_count_start (len payload) C HC (len_nonneg payload));
            pose proof (len_nonneg cs); nia);
      unfold on_channel; rewrite map_app, <- sent_sent;
      replace (0 + C * len cs) with (C * len cs) by lia;
      reflexivity.
  - exact Hcount.
  - rewrite Hcat. cbn [Z.to_nat skipn]. apply firstn_skipn.
Qed.
End OutgoingTransfer.


(** ** Well-behaved links *)

Section Quiet.
Variable ext : Collaborators.

Local Abbreviation W := (World (Link ext) (LinkStore ext) (LinkFrame ext)).
Local Abbreviation Frame := (Performative (LinkFrame ext)).

Lemma session_frames_app (l1 l2 : list (Z * Frame)) :
  session_frames ext (l1 ++ l2) = session_frames ext l1 ++ session_frames ext l2.
Proof. unfold session_frames. now rewrite map_app, filter_app. Qed.

Lemma end_frames_of_session_frames (l : list (Z * Frame)) :
  end_frames ext l = filter (is_end ext) (session_frames ext l).
Proof.
  unfold end_frames, session_frames.
  induction (map snd l) as [|p ps IH]; [reflexivity|].
  cbn [filter]. destruct p; cbn; now rewrite IH.
Qed.

Lemma observe_link_step (w w' : W) :
  link_step ext w w' -> observe ext w' = observe ext w.
Proof.
  intros [Hs Hl (fs & Ho & Hfs)]. unfold observe.
  now rewrite Hs, Hl, Ho, session_frames_app, Hfs, app_nil_r.
Qed.

Lemma quiet_observe {A : Type} (m : M W A) (w : W) :
  quiet ext m ->
  exists a w', m w = (Ok a, w') /\ observe ext w' = observe ext w.
Proof.
  intros Hq. destruct (Hq w) as (a & w' & Hrun & Hstep).
  exists a, w'. split; [exact Hrun|]. now apply observe_link_step.
Qed.

Lemma for_each_observe {X : Type} (body : X -> M W unit) (xs : list X) :
  (forall x, quiet ext (body x)) ->
  forall w, exists w', for_each xs body w = (Ok tt, w')
                       /\ observe ext w' = observe ext w.
Proof.
  intros Hq. induction xs as [|x xs IH]; intros w.
  - exists w. split; reflexivity.
  - destruct (quiet_observe (body x) w (Hq x)) as ([] & w1 & Hrun & Hobs).
    destruct (IH w1) as (w2 & Hrest & Hobs2).
    exists w2. split.
    + cbn [for_each]. rewrite (bind_ok _ _ _ _ _ Hrun). exact Hrest.
    + now rewrite Hobs2.
Qed.

(** [_set_state] with links that take the notification quietly. *)
Lemma set_state_observe (new : SessionState) (w : W) :
  (forall l, quiet ext (link_on_session_state_change ext l)) ->
  exists w', _set_state ext (Some new) w = (Ok tt, w')
    /\ observe ext w'
       = (set_state new (sess w), state_log w ++ [(state (sess w), new)],
          session_frames ext (outgoing (conn w))).
Proof.
  intros Hq. unfold _set_state.
  set (wm := mkWorld (set_state new (sess w)) (conn w) (lstore w)
                     (state_log w ++ [(state (sess w), new)])).
  destruct (for_each_observe _ (dict_values (links (sess wm))) Hq wm)
    as (w' & Hrun & Hobs).
  exists w'. split; [|exact Hobs].
  unfold bind, get, assign, log_state_change, modify. cbn beta iota.
  exact Hrun.
Qed.

(** Sending one frame. *)
Lemma observe_sent (w : W) (ch : Z) (p : Frame) :
  observe ext (sent ext w [(ch, p)])
  = (sess w, state_log w,
     session_frames ext (outgoing (conn w))
     ++ (if is_session_frame ext p then [p] else [])).
Proof.
  unfold observe, sent. cbn [sess state_log conn outgoing].
  rewrite session_frames_app. unfold session_frames at 2.
  cbn [map snd filter]. now destruct (is_session_frame ext p).
Qed.
End Quiet.


Section Lifecycle.
Variable ext : Collaborators.

Local Abbreviation W := (World (Link ext) (LinkStore ext) (LinkFrame ext)).
Local Abbreviation Frame := (Performative (LinkFrame ext)).

Lemma bind_get {B : Type} (k : W -> M W B) (w : W) : bind get k w = k w w.
Proof. reflexivity. Qed.

Lemma bind_assign {B : Type} (f : Session (Link ext) -> Session (Link ext))
    (k : unit -> M W B) (w : W) :
  bind (assign ext f) k w = k tt (with_sess ext f w).
Proof. reflexivity. Qed.

Lemma bind_send {B : Type} (ch : Z) (p : Frame) (k : unit -> M W B) (w : W) :
  bind (_process_outgoing_frame ext ch p) k w = k tt (sent ext w [(ch, p)]).
Proof. reflexivity. Qed.

Lemma observe_with_sess (f : Session (Link ext) -> Session (Link ext)) (w : W) :
  observe ext (with_sess ext f w)
  = (f (sess w), state_log w, session_frames ext (outgoing (conn w))).
Proof. reflexivity. Qed.

Lemma observe_parts (w : W) s lg fs :
  observe ext w = (s, lg, fs) ->
  sess w = s /\ state_log w = lg /\ session_frames ext (outgoing (conn w)) = fs.
Proof. unfold observe; intros H; inversion H; auto. Qed.

(** [end(error)] with quiet links: it returns normally, sends its End frame
    unless the session is UNMAPPED or DISCARDING, and leaves the session
    in DISCARDING (with an error) or END_SENT (without). *)
Lemma end_observe (error : option AMQPError) (w : W) :
  links_quiet ext ->
  exists w', end_ ext error w = (Ok tt, w')
    /\ observe ext w'
       = (set_state (end_state error) (sess w),
          state_log w ++ [(state (sess w), end_state error)],
          session_frames ext (outgoing (conn w))
          ++ (if state_in (state (sess w)) [UNMAPPED; DISCARDING]
              then [] else [PEnd error])).
Proof.
  intros [Hchange Hdetach].
  set (w1 := if negb (state_in (state (sess w)) [UNMAPPED; DISCARDING])
             then sent ext w [(channel (sess w), PEnd error)] else w).
  assert (Hobs1 : observe ext w1
                  = (sess w, state_log w,
                     session_frames ext (outgoing (conn w))
                     ++ (if state_in (state (sess w)) [UNMAPPED; DISCARDING]
                         then [] else [PEnd error]))).
  { subst w1. destruct (state_in (state (sess w)) [UNMAPPED; DISCARDING]);
      cbn [negb].
    - unfold observe. now rewrite app_nil_r.
    - apply observe_sent. }
  destruct (for_each_observe ext (fun link => link_detach ext link None)
              (dict_values (links (sess w1)))
              (fun l => Hdetach l None) w1) as (w2 & Hrun2 & Hobs2).
  destruct (set_state_observe ext (end_state error) w2 Hchange)
    as (w3 & Hrun3 & Hobs3).
  exists w3. split.
  - unfold end_, try_except.
    rewrite bind_get.
    replace (bind (if negb (state_in (state (sess w)) [UNMAPPED; DISCARDING])
                   then _outgoing_end ext error else ret tt) _ w)
      with (bind get (fun w0 =>
              bind (for_each (dict_values (links (sess w0)))
                      (fun link => link_detach ext link None))
                (fun _ => bind (_set_state ext (Some (end_state error)))
                            (fun _ => _wait_for_response_no_wait ext UNMAPPED)))
              w1).
    + rewrite bind_get, (bind_ok _ _ _ _ _ Hrun2), (bind_ok _ _ _ _ _ Hrun3).
      reflexivity.
    + subst w1. destruct (negb (state_in (state (sess w)) [UNMAPPED; DISCARDING]));
        reflexivity.
  - rewrite Hobs3.
    rewrite Hobs1 in Hobs2.
    destruct (observe_parts _ _ _ _ Hobs2) as (Hs2 & Hl2 & Hf2).
    now rewrite Hs2, Hl2, Hf2.
Qed.
End Lifecycle.


Section LifecycleClaims.
Variable ext : Collaborators.

Local Abbreviation W := (World (Link ext) (LinkStore ext) (LinkFrame ext)).
Local Abbreviation Frame := (Performative (LinkFrame ext)).

Lemma end_frames_parts (w w' : W) (fs : list Frame) :
  session_frames ext (outgoing (conn w'))
  = session_frames ext (outgoing (conn w)) ++ fs ->
  end_frames ext (outgoing (conn w'))
  = end_frames ext (outgoing (conn w)) ++ filter (is_end ext) fs.
Proof.
  intros H. rewrite !end_frames_of_session_frames, H. apply filter_app.
Qed.

(** A [try] whose handler takes every exception and never raises itself
    does not raise. *)
Lemma try_except_never_raises {A : Type} (m : M W A) (h : exn -> M W A) (w : W)
    (e : exn) :
  (forall e' w' e'', fst (h e' w') <> Raise e'') ->
  fst (try_except m (fun exc => Some (h exc)) w) <> Raise e.
Proof.
  intros Hh. unfold try_except.
  destruct (m w) as [[a|e'|] w']; cbn [fst]; [discriminate|apply Hh|discriminate].
Qed.

(** C9.  [end()] never raises, whatever the links' [detach] does (their
    state-change callback being quiet): an exception inside is caught and
    the session set to UNMAPPED.  But [end()] is not idempotent.  With links
    that detach quietly both calls return normally; the first sends one End
    frame unless the session is UNMAPPED or DISCARDING, and the second sends
    one more End frame unless the first was given an error: a plain [end()]
    leaves the session END_SENT, which the guard of [end()] does not
    exclude.  Two plain [end()] calls on a MAPPED session send two End
    frames. *)
Theorem end_twice (e1 e2 : option AMQPError) (w : W) :
  (forall l, quiet ext (link_on_session_state_change ext l)) ->
  (forall (error : option AMQPError) (w0 : W) (e : exn),
      fst (end_ ext error w0) <> Raise e)
  /\ ((forall l e, quiet ext (link_detach ext l e)) ->
      exists w1 w2,
        end_ ext e1 w = (Ok tt, w1)
        /\ state (sess w1) = end_state e1
        /\ end_ ext e2 w1 = (Ok tt, w2)
        /\ end_frames ext (outgoing (conn w1))
           = end_frames ext (outgoing (conn w))
             ++ (if state_in (state (sess w)) [UNMAPPED; DISCARDING]
                 then [] else [PEnd e1])
        /\ end_frames ext (outgoing (conn w2))
           = end_frames ext (outgoing (conn w1))
             ++ (match e1 with Some _ => [] | None => [PEnd e2] end)).
Proof.
  intros Hchange. split.
  - intros error w0 e. unfold end_. apply try_except_never_raises.
    intros _ w' e''.
    destruct (set_state_observe ext UNMAPPED w' Hchange) as (w'' & Hrun & _).
    rewrite Hrun. discriminate.
  - intros Hdetach.
    assert (Hq : links_quiet ext) by (split; assumption).
    destruct (end_observe ext e1 w Hq) as (w1 & Hrun1 & Hobs1).
    destruct (end_observe ext e2 w1 Hq) as (w2 & Hrun2 & Hobs2).
    destruct (observe_parts ext _ _ _ _ Hobs1) as (Hs1 & _ & Hf1).
    destruct (observe_parts ext _ _ _ _ Hobs2) as (_ & _ & Hf2).
    exists w1, w2. split; [exact Hrun1|]. split; [now rewrite Hs1|].
    split; [exact Hrun2|]. split.
    + rewrite (end_frames_parts _ _ _ Hf1).
      now destruct (state_in (state (sess w)) [UNMAPPED; DISCARDING]).
    + rewrite (end_frames_parts _ _ _ Hf2), Hs1.
      now destruct e1.
Qed.

(** C2.  An inbound Transfer whose handle is not in the input-handle table
    (the session having a [next_incoming_id], its links quiet) leaves the
    session DISCARDING, but no End frame is sent: [_set_state(DISCARDING)]
    runs before [end(error=...)], whose guard then skips [_outgoing_end].
    The End frames in the connection's log are those that were there. *)
Theorem incoming_transfer_unknown_handle (frame : TransferFrame) (w : W) (n : Z) :
  links_quiet ext ->
  next_incoming_id (sess w) = Some n ->
  dict_get Z.eqb (_input_handles (sess w)) (tf_handle frame) = None ->
  exists w',
    _incoming_transfer ext frame w = (Ok tt, w')
    /\ state (sess w') = DISCARDING
    /\ end_frames ext (outgoing (conn w')) = end_frames ext (outgoing (conn w)).
Proof.
  intros Hq Hid Hget.
  set (w1 := with_sess ext (count_frame ext n) w).
  destruct (set_state_observe ext DISCARDING w1 (proj1 Hq))
    as (w2 & Hrun2 & Hobs2).
  destruct (end_observe ext (Some unattached_handle_error) w2 Hq)
    as (w3 & Hrun3 & Hobs3).
  destruct (observe_parts ext _ _ _ _ Hobs2) as (Hs2 & _ & Hf2).
  destruct (observe_parts ext _ _ _ _ Hobs3) as (Hs3 & _ & Hf3).
  exists w3. split; [|split].
  - unfold _incoming_transfer.
    rewrite bind_get, Hid, bind_assign.
    rewrite bind_get, bind_assign, bind_get, bind_assign.
    change (with_sess ext _ (with_sess ext _ (with_sess ext _ w))) with w1.
    unfold bind at 1, try_except.
    rewrite bind_get.
    replace (_input_handles (sess w1)) with (_input_handles (sess w))
      by reflexivity.
    rewrite Hget. unfold bind at 1, raise.
    rewrite (bind_ok _ _ _ _ _ Hrun2), (bind_ok _ _ _ _ _ Hrun3).
    reflexivity.
  - now rewrite Hs3.
  - rewrite !end_frames_of_session_frames, Hf3, Hf2, Hs2. cbn.
    now rewrite app_nil_r.
Qed.

(** C8, as amended.  A session in UNMAPPED that processes an inbound Begin
    goes through BEGIN_RCVD (state log), sends exactly one Begin in reply
    and ends MAPPED; a session in BEGIN_SENT ends MAPPED without sending a
    Begin.  In both orders [next_incoming_id] is the peer's
    next-outgoing-id.  [remote_channel] is taken from the peer's Begin only
    in the BEGIN_SENT order; in the UNMAPPED order it is left as it was. *)
Theorem incoming_begin_handshake (frame : BeginFrame) (w : W) :
  (forall l, quiet ext (link_on_session_state_change ext l)) ->
  state (sess w) = UNMAPPED \/ state (sess w) = BEGIN_SENT ->
  exists w',
    _incoming_begin ext frame w = (Ok tt, w')
    /\ state (sess w') = MAPPED
    /\ next_incoming_id (sess w') = Some (begin_next_outgoing_id frame)
    /\ state_log w'
       = state_log w
         ++ (match state (sess w) with
             | UNMAPPED => [(UNMAPPED, BEGIN_RCVD); (BEGIN_RCVD, MAPPED)]
             | _ => [(BEGIN_SENT, MAPPED)]
             end)
    /\ session_frames ext (outgoing (conn w'))
       = session_frames ext (outgoing (conn w))
         ++ (match state (sess w) with
             | UNMAPPED =>
                 [PBegin (mkBegin (remote_channel (sess w))
                            (next_outgoing_id (sess w))
                            (incoming_window (sess w))
                            (outgoing_window (sess w))
                            (begin_handle_max frame)
                            (offered_capabilities (sess w))
                            None
                            (properties (sess w)))]
             | _ => []
             end)
    /\ remote_channel (sess w')
       = (match state (sess w) with
          | UNMAPPED => remote_channel (sess w)
          | _ => begin_remote_channel frame
          end).
Proof.
  intros Hq Hstate.
  set (w1 := with_sess ext
               (fun s => set_remote_properties (begin_properties frame)
                  (set_remote_outgoing_window (begin_outgoing_window frame)
                     (set_remote_incoming_window (begin_incoming_window frame)
                        (set_next_incoming_id (Some (begin_next_outgoing_id frame))
                           (set_handle_max (begin_handle_max frame) s))))) w).
  assert (Hrun : _incoming_begin ext frame w
                 = (if SessionState_eqb (state (sess w)) BEGIN_SENT
                    then bind (assign ext (set_remote_channel (begin_remote_channel frame)))
                           (fun _ => _set_state ext (Some MAPPED))
                    else if SessionState_eqb (state (sess w)) UNMAPPED
                    then bind (_set_state ext (Some BEGIN_RCVD))
                           (fun _ => bind (_outgoing_begin ext)
                              (fun _ => _set_state ext (Some MAPPED)))
                    else ret tt) w1) by reflexivity.
  rewrite Hrun. clear Hrun.
  destruct Hstate as [Hst|Hst]; rewrite Hst; cbn [SessionState_eqb].
  - destruct (set_state_observe ext BEGIN_RCVD w1 Hq) as (w2 & Hrun2 & Hobs2).
    destruct (observe_parts ext _ _ _ _ Hobs2) as (Hs2 & Hl2 & Hf2).
    set (reply := mkBegin (remote_channel (sess w)) (next_outgoing_id (sess w))
                    (incoming_window (sess w)) (outgoing_window (sess w))
                    (begin_handle_max frame) (offered_capabilities (sess w))
                    None (properties (sess w))).
    destruct (set_state_observe ext MAPPED
                (sent ext w2 [(channel (sess w), PBegin reply)]) Hq)
      as (w3 & Hrun3 & Hobs3).
    destruct (observe_parts ext _ _ _ _ Hobs3) as (Hs3 & Hl3 & Hf3).
    exists w3. split; [|repeat split].
    + rewrite (bind_ok _ _ _ _ _ Hrun2).
      unfold _outgoing_begin. rewrite bind_assoc, bind_get, Hs2.
      change (bind (_process_outgoing_frame ext (channel (sess w)) (PBegin reply))
                (fun _ => _set_state ext (Some MAPPED)) w2 = (Ok tt, w3)).
      rewrite bind_send. exact Hrun3.
    + now rewrite Hs3.
    + rewrite Hs3. cbn [sess sent]. now rewrite Hs2.
    + rewrite Hl3. cbn [sess sent state_log]. rewrite Hl2, Hs2.
      subst w1. cbn. rewrite Hst. now rewrite <- app_assoc.
    + rewrite Hf3. cbn [sent conn outgoing]. rewrite session_frames_app, Hf2.
      reflexivity.
    + rewrite Hs3. cbn [sess sent]. now rewrite Hs2.
  - rewrite bind_assign.
    destruct (set_state_observe ext MAPPED
                (with_sess ext (set_remote_channel (begin_remote_channel frame)) w1)
                Hq) as (w2 & Hrun2 & Hobs2).
    destruct (observe_parts ext _ _ _ _ Hobs2) as (Hs2 & Hl2 & Hf2).
    exists w2. split; [exact Hrun2|repeat split].
    + now rewrite Hs2.
    + now rewrite Hs2.
    + rewrite Hl2. subst w1. cbn. now rewrite Hst.
    + rewrite Hf2. subst w1. cbn. now rewrite app_nil_r.
    + now rewrite Hs2.
Qed.
End LifecycleClaims.


Section TransferClaims.
Variable ext : Collaborators.

Local Abbreviation W := (World (Link ext) (LinkStore ext) (LinkFrame ext)).
Local Abbreviation Frame := (Performative (LinkFrame ext)).

Lemma more_frames_more (w : W) (f : TransferFrame) (cs : list bytes) :
  map tf_more (more_frames ext w f cs) = repeat true (List.length cs).
Proof.
  unfold more_frames. induction cs as [|c cs IH]; [reflexivity|].
  cbn [map List.length repeat]. now rewrite IH.
Qed.

Lemma more_frames_payload (w : W) (f : TransferFrame) (cs : list bytes) :
  map tf_payload (more_frames ext w f cs) = cs.
Proof.
  unfold more_frames. induction cs as [|c cs IH]; [reflexivity|].
  cbn [map]. now rewrite IH.
Qed.

Lemma more_frames_delivery_id (w : W) (f : TransferFrame) (cs : list bytes) :
  Forall (fun t => tf_delivery_id t = Some (next_outgoing_id (sess w)))
         (more_frames ext w f cs).
Proof.
  unfold more_frames. induction cs as [|c cs IH]; constructor; auto.
Qed.

Lemma transfer_frames_app (l1 l2 : list (Z * Frame)) :
  transfer_frames ext (l1 ++ l2)
  = transfer_frames ext l1 ++ transfer_frames ext l2.
Proof. unfold transfer_frames. now rewrite map_app, filter_app. Qed.

Lemma transfer_frames_on_channel (w : W) (fs : list TransferFrame) :
  transfer_frames ext (on_channel ext w fs) = map PTransfer fs.
Proof.
  unfold transfer_frames, on_channel.
  induction fs as [|f fs IH]; [reflexivity|].
  cbn [map snd filter is_transfer]. now rewrite IH.
Qed.

Lemma len_map {A B : Type} (g : A -> B) (l : list A) : len (map g l) = len l.
Proof. unfold len. now rewrite length_map. Qed.

(** The loop of [_outgoing_transfer] leaves the session object alone,
    whatever the fuel and the capacity. *)
Lemma transfer_loop_sess (f : TransferFrame) (payload : bytes) (C : Z) :
  forall (fuel : nat) (start remaining : Z) (w : W),
    sess (snd (transfer_loop ext fuel f payload C start remaining w)) = sess w.
Proof.
  induction fuel as [|fuel IH]; intros start remaining w; cbn [transfer_loop].
  - reflexivity.
  - destruct (remaining >? C); [|reflexivity].
    rewrite bind_get, bind_send. now rewrite IH.
Qed.

(** C1, as amended.  A delivery sent while the session is MAPPED and
    [remote_incoming_window > 0], with a payload of S bytes and a capacity
    C > 0, goes out (given fuel for the loop) in exactly max(1, ceil(S/C))
    Transfer frames, all but the last with [more=True] and the last with
    [more=False], every one carrying the [next_outgoing_id] of the start as
    its delivery id; the payloads concatenated are the original payload;
    and the three counters each move by one for the whole delivery.  A
    payload of C*3+10 bytes gives 4 frames when C >= 10. *)
Theorem outgoing_transfer_fragments (w : W) (d : Delivery) (fuel : nat) :
  let C := capacity ext w d in
  let payload := tf_payload (frame d) in
  state (sess w) = MAPPED ->
  0 < remote_incoming_window (sess w) ->
  0 < C ->
  (Z.to_nat (frame_count (len payload) C) <= fuel)%nat ->
  exists (d' : Delivery) (w' : W) (frames : list TransferFrame),
    _outgoing_transfer ext fuel d w = (Ok d', w')
    /\ transfer_state d' = Some OKAY
    /\ outgoing (conn w') = outgoing (conn w) ++ on_channel ext w frames
    /\ len frames = frame_count (len payload) C
    /\ map tf_more frames
       = repeat true (Z.to_nat (frame_count (len payload) C - 1)) ++ [false]
    /\ Forall (fun t => tf_delivery_id t = Some (next_outgoing_id (sess w)))
              frames
    /\ List.concat (map tf_payload frames) = payload
    /\ next_outgoing_id (sess w') = next_outgoing_id (sess w) + 1
    /\ remote_incoming_window (sess w') = remote_incoming_window (sess w) - 1
    /\ outgoing_window (sess w') = outgoing_window (sess w) - 1
    /\ (10 <= C -> len payload = C * 3 + 10 ->
        map tf_more frames = [true; true; true; false]).
Proof.
  intros C payload _ Hwin HC Hfuel.
  destruct (outgoing_transfer_sends ext w d fuel Hwin HC Hfuel)
    as (cs & Hrun & Hcount & Hcat).
  fold C payload in Hrun, Hcount, Hcat.
  set (f := measured_frame (frame d) (next_outgoing_id (sess w))) in *.
  set (final := tmp_delivery_frame f false (next_outgoing_id (sess w))
                  (skipn (Z.to_nat (C * len cs)) payload)) in *.
  assert (Hmore : map tf_more (more_frames ext w f cs ++ [final])
                  = repeat true (Z.to_nat (frame_count (len payload) C - 1))
                    ++ [false]).
  { rewrite map_app, more_frames_more. cbn [map final tmp_delivery_frame tf_more].
    do 2 f_equal. rewrite <- Hcount. unfold len. now rewrite Nat2Z.id. }
  exists (mkDelivery f (Some OKAY)),
         (with_sess ext (count_delivery ext)
            (sent ext w (on_channel ext w (more_frames ext w f cs ++ [final])))),
         (more_frames ext w f cs ++ [final]).
  split; [exact Hrun|]. repeat split.
  - rewrite len_app. unfold more_frames. rewrite len_map, Hcount.
    unfold len; cbn [List.length]. lia.
  - exact Hmore.
  - apply Forall_app. split; [apply more_frames_delivery_id|].
    constructor; [reflexivity|constructor].
  - rewrite map_app, concat_app, more_frames_payload.
    cbn [map List.concat final tmp_delivery_frame tf_payload].
    now rewrite app_nil_r.
  - intros H10 HS. rewrite Hmore, HS, frame_count_example by exact H10.
    reflexivity.
Qed.

(** C6.  [_outgoing_transfer] on a session that is not MAPPED but whose
    remote window is open does not reject the delivery: the ERROR mark is
    overwritten, the fragments are sent, the counters move and the
    delivery ends OKAY, because the window test is an [if], not an
    [elif]. *)
Theorem outgoing_transfer_not_mapped (w : W) (d : Delivery) (fuel : nat) :
  let C := capacity ext w d in
  let payload := tf_payload (frame d) in
  state (sess w) <> MAPPED ->
  0 < remote_incoming_window (sess w) ->
  0 < C ->
  (Z.to_nat (frame_count (len payload) C) <= fuel)%nat ->
  exists (d' : Delivery) (w' : W),
    _outgoing_transfer ext fuel d w = (Ok d', w')
    /\ transfer_state d' = Some OKAY
    /\ len (transfer_frames ext (outgoing (conn w')))
       = len (transfer_frames ext (outgoing (conn w)))
         + frame_count (len payload) C
    /\ next_outgoing_id (sess w') = next_outgoing_id (sess w) + 1
    /\ remote_incoming_window (sess w') = remote_incoming_window (sess w) - 1
    /\ outgoing_window (sess w') = outgoing_window (sess w) - 1.
Proof.
  intros C payload _ Hwin HC Hfuel.
  destruct (outgoing_transfer_sends ext w d fuel Hwin HC Hfuel)
    as (cs & Hrun & Hcount & _).
  fold C payload in Hrun, Hcount.
  eexists _, _. split; [exact Hrun|]. repeat split.
  cbn [with_sess conn sent outgoing].
  rewrite transfer_frames_app, len_app, transfer_frames_on_channel.
  rewrite len_map, len_app. unfold more_frames. rewrite len_map, Hcount.
  unfold len at 3; cbn [List.length]. lia.
Qed.

(** C3, as amended.  [_outgoing_transfer] called while
    [remote_incoming_window <= 0] marks the delivery BUSY and changes
    nothing else: no frame, no counter.  And [_outgoing_transfer] never
    takes a non-negative [remote_incoming_window] below zero, whatever the
    fuel and the outcome.  (An inbound Flow can set it negative.) *)
Theorem outgoing_transfer_window_floor (w : W) (d : Delivery) (fuel : nat) :
  (remote_incoming_window (sess w) <= 0 ->
   _outgoing_transfer ext fuel d w = (Ok (mkDelivery (frame d) (Some BUSY)), w))
  /\ (0 <= remote_incoming_window (sess w) ->
      0 <= remote_incoming_window
             (sess (snd (_outgoing_transfer ext fuel d w)))).
Proof.
  split; intros Hwin.
  - unfold _outgoing_transfer. rewrite bind_get.
    destruct (Z.leb_spec (remote_incoming_window (sess w)) 0); [|lia].
    now destruct (negb (SessionState_eqb (state (sess w)) MAPPED)).
  - unfold _outgoing_transfer. rewrite bind_get.
    destruct (Z.leb_spec (remote_incoming_window (sess w)) 0) as [Hle|Hgt].
    + unfold ret. cbn [snd]. exact Hwin.
    + match goal with
      | |- context [bind (transfer_loop ext fuel ?f ?p ?c ?s ?r) _ w] =>
          pose proof (transfer_loop_sess f p c fuel s r w) as Hsess;
          unfold bind at 1;
          destruct (transfer_loop ext fuel f p c s r w) as [[start|e|] w1]
      end; cbn [snd] in Hsess |- *; try (rewrite Hsess; lia).
      rewrite bind_get, bind_send, bind_get, bind_assign, bind_get, bind_assign,
        bind_get, bind_assign.
      unfold ret. cbn. rewrite Hsess. lia.
Qed.

(** C4.  An inbound Transfer frame on a known handle, on a session that has
    a [next_incoming_id], whose link takes the frame without raising and
    without changing the session: [next_incoming_id] goes up by one,
    [remote_outgoing_window] and [incoming_window] go down by one; and when
    [incoming_window] thereby reaches 0 it is reset to
    [target_incoming_window] and exactly one Flow frame is sent after
    whatever the link sent. *)
Theorem incoming_transfer_counts (frame : TransferFrame) (w w1 : W) (n : Z)
    (link : Link ext) :
  next_incoming_id (sess w) = Some n ->
  dict_get Z.eqb (_input_handles (sess w)) (tf_handle frame) = Some link ->
  link_incoming_transfer ext link frame (with_sess ext (count_frame ext n) w)
  = (Ok tt, w1) ->
  sess w1 = count_frame ext n (sess w) ->
  exists w',
    _incoming_transfer ext frame w = (Ok tt, w')
    /\ next_incoming_id (sess w') = Some (n + 1)
    /\ remote_outgoing_window (sess w') = remote_outgoing_window (sess w) - 1
    /\ (incoming_window (sess w) - 1 <> 0 ->
        incoming_window (sess w') = incoming_window (sess w) - 1
        /\ outgoing (conn w') = outgoing (conn w1))
    /\ (incoming_window (sess w) - 1 = 0 ->
        incoming_window (sess w') = target_incoming_window (sess w)
        /\ outgoing (conn w')
           = outgoing (conn w1)
             ++ [(channel (sess w),
                  PFlow (mkFlow (Some (n + 1)) (target_incoming_window (sess w))
                           (next_outgoing_id (sess w)) (outgoing_window (sess w))
                           None None None None))]).
Proof.
  intros Hid Hget Hlink Hsess.
  set (w0 := with_sess ext (count_frame ext n) w) in *.
  assert (Hrun : _incoming_transfer ext frame w
                 = bind get (fun w2 =>
                     if incoming_window (sess w2) =? 0 then
                       bind (assign ext (set_incoming_window
                                           (target_incoming_window (sess w2))))
                            (fun _ => _outgoing_flow ext None)
                     else ret tt) w1).
  { unfold _incoming_transfer.
    rewrite bind_get, Hid, bind_assign.
    rewrite bind_get, bind_assign, bind_get, bind_assign.
    change (with_sess ext _ (with_sess ext _ (with_sess ext _ w))) with w0.
    unfold bind at 1, try_except.
    rewrite bind_get.
    replace (_input_handles (sess w0)) with (_input_handles (sess w))
      by reflexivity.
    rewrite Hget, (bind_ok _ _ _ _ _ Hlink). reflexivity. }
  rewrite Hrun, bind_get, Hsess.
  cbn [count_frame incoming_window set_incoming_window].
  destruct (Z.eqb_spec (incoming_window (sess w) - 1) 0) as [Hz|Hnz].
  - rewrite bind_assign. unfold _outgoing_flow. rewrite bind_get.
    eexists. split; [reflexivity|].
    cbn [with_sess sess conn sent outgoing]. rewrite Hsess.
    repeat split; try reflexivity; intros; try contradiction.
  - eexists. split; [reflexivity|].
    rewrite Hsess. repeat split; try reflexivity; intros; contradiction.
Qed.

(** What [_incoming_flow] assigns, for a session-level Flow (no handle) on
    a session without output links. *)
Lemma incoming_flow_assigns (frame : FlowFrame) (w : W) :
  flow_handle frame = None ->
  _output_handles (sess w) = [] ->
  exists w',
    _incoming_flow ext frame w = (Ok tt, w')
    /\ next_incoming_id (sess w') = Some (flow_next_outgoing_id frame)
    /\ remote_incoming_window (sess w')
       = int_or (flow_next_incoming_id frame) (next_outgoing_id (sess w))
         + flow_incoming_window frame - next_outgoing_id (sess w)
    /\ remote_outgoing_window (sess w') = flow_outgoing_window frame.
Proof.
  intros Hh Ho. unfold _incoming_flow.
  rewrite bind_assign, bind_get, bind_assign, bind_assign, Hh, bind_get.
  cbn [with_sess sess _output_handles set_remote_outgoing_window
       set_remote_incoming_window set_next_incoming_id].
  rewrite Ho. cbn [dict_values map for_each]. unfold ret.
  eexists. split; [reflexivity|]. repeat split.
Qed.

(** C7.  When the peer's Flow carries next-incoming-id 0 (present, not
    omitted), [frame[0] or self.next_outgoing_id] substitutes the local
    [next_outgoing_id] all the same: [remote_incoming_window] becomes the
    peer's incoming-window, which differs from
    0 + incoming-window - next_outgoing_id as soon as [next_outgoing_id]
    is not 0. *)
Theorem incoming_flow_zero_next_incoming_id (frame : FlowFrame) (w : W) :
  flow_next_incoming_id frame = Some 0 ->
  flow_handle frame = None ->
  _output_handles (sess w) = [] ->
  exists w',
    _incoming_flow ext frame w = (Ok tt, w')
    /\ remote_incoming_window (sess w') = flow_incoming_window frame
    /\ (next_outgoing_id (sess w) <> 0 ->
        remote_incoming_window (sess w')
        <> 0 + flow_incoming_window frame - next_outgoing_id (sess w)).
Proof.
  intros Hz Hh Ho.
  destruct (incoming_flow_assigns frame w Hh Ho) as (w' & Hrun & _ & Hwin & _).
  rewrite Hz in Hwin. cbn [int_or Z.eqb] in Hwin.
  exists w'. split; [exact Hrun|]. split; lia.
Qed.
End TransferClaims.


(** ** Handles *)

Lemma next_in_range_some (free : Z -> bool) :
  forall (count : nat) (start h : Z),
    next_in_range free start count = Some h ->
    start <= h < start + Z.of_nat count
    /\ free h = true
    /\ forall i, start <= i < h -> free i = false.
Proof.
  induction count as [|count IH]; intros start h; cbn [next_in_range].
  - discriminate.
  - destruct (free start) eqn:Hfree.
    + intros [= <-]. repeat split; try lia. exact Hfree.
    + intros Hnext. destruct (IH _ _ Hnext) as (Hrange & Hh & Hmin).
      repeat split; try lia; [exact Hh|].
      intros i Hi. destruct (Z.eq_dec i start) as [->|Hne]; [exact Hfree|].
      apply Hmin. lia.
Qed.

Lemma next_in_range_none (free : Z -> bool) :
  forall (count : nat) (start : Z),
    next_in_range free start count = None ->
    forall i, start <= i < start + Z.of_nat count -> free i = false.
Proof.
  induction count as [|count IH]; intros start; cbn [next_in_range].
  - intros _ i Hi. lia.
  - destruct (free start) eqn:Hfree; [discriminate|].
    intros Hnext i Hi. destruct (Z.eq_dec i start) as [->|Hne]; [exact Hfree|].
    apply (IH _ Hnext). lia.
Qed.

Section DictZ.
Variable V : Type.

Lemma dict_mem_set (d : pydict Z V) (k i : Z) (v : V) :
  dict_mem Z.eqb (dict_set Z.eqb d k v) i = (i =? k) || dict_mem Z.eqb d i.
Proof.
  unfold dict_mem. induction d as [|[k' v'] d IH]; cbn [dict_set dict_get].
  - now destruct (Z.eqb_spec i k).
  - destruct (Z.eqb_spec k k') as [->|Hkk']; cbn [dict_get].
    + destruct (Z.eqb_spec i k'); reflexivity.
    + destruct (Z.eqb_spec i k') as [->|Hik'].
      * now rewrite orb_true_r.
      * exact IH.
Qed.

Lemma len_dict_set_new (d : pydict Z V) (k : Z) (v : V) :
  dict_mem Z.eqb d k = false -> len (dict_set Z.eqb d k v) = len d + 1.
Proof.
  unfold dict_mem. induction d as [|[k' v'] d IH]; cbn [dict_set dict_get].
  - intros _. reflexivity.
  - destruct (Z.eqb_spec k k') as [->|Hkk']; [discriminate|].
    intros Hmem. rewrite !len_cons, (IH Hmem). lia.
Qed.
End DictZ.

Section Handles.
Variable ext : Collaborators.

Local Abbreviation W := (World (Link ext) (LinkStore ext) (LinkFrame ext)).

(** [_get_next_output_handle] returns the smallest free handle from 1 on,
    when the guard on the size of the table lets it search. *)
Lemma get_next_output_handle_smallest (w : W) (h : Z) :
  len (_output_handles (sess w)) < handle_max (sess w) ->
  smallest_free ext 1 (handle_max (sess w)) (_output_handles (sess w)) h ->
  _get_next_output_handle ext w = (Ok h, w).
Proof.
  intros Hlen (Hrange & Hfree & Hmin).
  unfold _get_next_output_handle. rewrite bind_get.
  destruct (Z.geb_spec (len (_output_handles (sess w))) (handle_max (sess w)));
    [lia|].
  destruct (next_in_range _ 1 (Z.to_nat (handle_max (sess w) - 1))) as [h'|]
    eqn:Hnext.
  - destruct (next_in_range_some _ _ _ _ Hnext) as (Hrange' & Hfree' & Hmin').
    destruct (Z.lt_trichotomy h h') as [Hlt|[->|Hgt]]; [| reflexivity |].
    + specialize (Hmin' h ltac:(lia)). cbn beta in Hmin'.
      rewrite Hfree in Hmin'. discriminate.
    + specialize (Hmin h' ltac:(lia)). cbn beta in Hfree'.
      rewrite Hmin in Hfree'. discriminate.
  - pose proof (next_in_range_none _ _ _ Hnext h ltac:(lia)) as Hnone.
    cbn beta in Hnone. rewrite Hfree in Hnone. discriminate.
Qed.

(** With every handle of [1, handle_max) taken it raises: [ValueError] when
    the guard fires, [StopIteration] from [next] otherwise. *)
Lemma get_next_output_handle_full (w : W) :
  (forall i, 1 <= i < handle_max (sess w) ->
             dict_mem Z.eqb (_output_handles (sess w)) i = true) ->
  _get_next_output_handle ext w
  = (Raise (if len (_output_handles (sess w)) >=? handle_max (sess w)
            then ValueError else StopIteration), w).
Proof.
  intros Hfull. unfold _get_next_output_handle. rewrite bind_get.
  destruct (len (_output_handles (sess w)) >=? handle_max (sess w));
    [reflexivity|].
  destruct (next_in_range _ 1 (Z.to_nat (handle_max (sess w) - 1))) as [h'|]
    eqn:Hnext; [|reflexivity].
  destruct (next_in_range_some _ _ _ _ Hnext) as (Hrange' & Hfree' & _).
  cbn beta in Hfree'. rewrite Hfull in Hfree' by lia. discriminate.
Qed.

Lemma filled_nil : filled ext 0 [].
Proof. split; [reflexivity|]. intros i. cbn. split; [discriminate|lia]. Qed.

Lemma filled_smallest_free (k hm : Z) (table : pydict Z (Link ext)) :
  filled ext k table -> 0 <= k -> k + 1 < hm ->
  smallest_free ext 1 hm table (k + 1).
Proof.
  intros [Hlen Hmem] Hk Hhm. repeat split; try lia.
  - destruct (dict_mem Z.eqb table (k + 1)) eqn:E; [|reflexivity].
    apply Hmem in E. lia.
  - intros i Hi. apply Hmem. lia.
Qed.

Lemma filled_set (k : Z) (table : pydict Z (Link ext)) (l : Link ext) :
  filled ext k table -> filled ext (k + 1) (dict_set Z.eqb table (k + 1) l).
Proof.
  intros [Hlen Hmem]. split.
  - rewrite len_dict_set_new, Hlen; [reflexivity|].
    destruct (dict_mem Z.eqb table (k + 1)) eqn:E; [|reflexivity].
    apply Hmem in E. lia.
  - intros i. pose proof (len_nonneg table).
    rewrite dict_mem_set, orb_true_iff, Hmem, Z.eqb_eq. lia.
Qed.

(** Creating a link when the allocator returns [h]: the new link is stored
    under [h]; nothing is removed from the table. *)
Lemma create_link_ok (sender : bool) (args : LinkArgs ext) (w : W) (h : Z) :
  constructors_quiet ext ->
  _get_next_output_handle ext w = (Ok h, w) ->
  exists (l : Link ext) (w' : W),
    (if sender then create_sender_link ext args
     else create_receiver_link ext args) w = (Ok l, w')
    /\ _output_handles (sess w')
       = dict_set Z.eqb (_output_handles (sess w)) h l
    /\ handle_max (sess w') = handle_max (sess w).
Proof.
  intros [Hsender Hreceiver] Hh.
  destruct sender.
  - destruct (Hsender h args w) as (l & w1 & Hnew & [Hs _ _]).
    exists l. eexists. split.
    + unfold create_sender_link.
      rewrite (bind_ok _ _ _ _ _ Hh), (bind_ok _ _ _ _ _ Hnew).
      rewrite bind_get, bind_assign, bind_get, bind_assign. reflexivity.
    + cbn. now rewrite Hs.
  - destruct (Hreceiver h args w) as (l & w1 & Hnew & [Hs _ _]).
    exists l. eexists. split.
    + unfold create_receiver_link.
      rewrite (bind_ok _ _ _ _ _ Hh), (bind_ok _ _ _ _ _ Hnew).
      rewrite bind_get, bind_assign, bind_get, bind_assign. reflexivity.
    + cbn. now rewrite Hs.
Qed.

Lemma create_link_filled (sender : bool) (args : LinkArgs ext) (w : W) (k : Z) :
  constructors_quiet ext ->
  filled ext k (_output_handles (sess w)) -> 0 <= k -> k + 1 < handle_max (sess w) ->
  exists (l : Link ext) (w' : W),
    (if sender then create_sender_link ext args
     else create_receiver_link ext args) w = (Ok l, w')
    /\ _output_handles (sess w')
       = dict_set Z.eqb (_output_handles (sess w)) (k + 1) l
    /\ handle_max (sess w') = handle_max (sess w).
Proof.
  intros Hq Hfilled Hk Hhm.
  apply create_link_ok; [exact Hq|].
  apply get_next_output_handle_smallest.
  - destruct Hfilled as [-> _]. lia.
  - now apply filled_smallest_free.
Qed.

Lemma create_links_filled (requests : list (bool * LinkArgs ext)) :
  constructors_quiet ext ->
  forall (w : W) (k : Z),
    filled ext k (_output_handles (sess w)) -> 0 <= k ->
    k + len requests < handle_max (sess w) ->
    exists (ls : list (Link ext)) (w' : W),
      create_links ext requests w = (Ok ls, w')
      /\ filled ext (k + len requests) (_output_handles (sess w'))
      /\ handle_max (sess w') = handle_max (sess w).
Proof.
  intros Hq. induction requests as [|[sender args] requests IH];
    intros w k Hfilled Hk Hhm.
  - exists [], w. split; [reflexivity|]. split; [|reflexivity].
    replace (k + len (@nil (bool * LinkArgs ext))) with k
      by (unfold len; cbn [List.length]; lia).
    exact Hfilled.
  - rewrite len_cons in Hhm |- *. pose proof (len_nonneg requests) as Hreq.
    destruct (create_link_filled sender args w k Hq Hfilled Hk ltac:(lia))
      as (l & w1 & Hrun1 & Htable1 & Hmax1).
    destruct (IH w1 (k + 1)) as (ls & w2 & Hrun2 & Hfilled2 & Hmax2).
    + rewrite Htable1. now apply filled_set.
    + lia.
    + rewrite Hmax1. lia.
    + exists (l :: ls), w2. split; [|split].
      * cbn [create_links]. rewrite (bind_ok _ _ _ _ _ Hrun1).
        rewrite (bind_ok _ _ _ _ _ Hrun2). reflexivity.
      * replace (k + (1 + len requests)) with (k + 1 + len requests) by lia.
        exact Hfilled2.
      * congruence.
Qed.

(** C10.  From a session with an empty output-handle table, creating
    handle_max - 1 links (sender or receiver, constructors quiet) succeeds
    and takes every handle of 1 .. handle_max - 1.  In the state reached the
    table has fewer than handle_max entries, so the guard does not raise
    its ValueError, and [_get_next_output_handle] raises StopIteration,
    which [create_sender_link] and [create_receiver_link] let through. *)
Theorem handle_exhaustion_raises_StopIteration
    (requests : list (bool * LinkArgs ext)) (w : W) :
  constructors_quiet ext ->
  _output_handles (sess w) = [] ->
  len requests = handle_max (sess w) - 1 ->
  exists (ls : list (Link ext)) (w' : W),
    create_links ext requests w = (Ok ls, w')
    /\ (forall i, 1 <= i < handle_max (sess w') ->
                  dict_mem Z.eqb (_output_handles (sess w')) i = true)
    /\ len (_output_handles (sess w')) < handle_max (sess w')
    /\ _get_next_output_handle ext w' = (Raise StopIteration, w')
    /\ (forall args, create_sender_link ext args w' = (Raise StopIteration, w'))
    /\ (forall args, create_receiver_link ext args w' = (Raise StopIteration, w')).
Proof.
  intros Hq Hempty Hlen.
  destruct (create_links_filled requests Hq w 0) as (ls & w' & Hrun & Hfilled & Hmax).
  - rewrite Hempty. apply filled_nil.
  - lia.
  - lia.
  - exists ls, w'. destruct Hfilled as [Hsize Hmem].
    assert (Hfull : forall i, 1 <= i < handle_max (sess w') ->
               dict_mem Z.eqb (_output_handles (sess w')) i = true)
      by (intros i Hi; apply Hmem; lia).
    assert (Hraise : _get_next_output_handle ext w' = (Raise StopIteration, w')).
    { rewrite (get_next_output_handle_full w' Hfull).
      destruct (Z.geb_spec (len (_output_handles (sess w')))
                  (handle_max (sess w'))); [lia|reflexivity]. }
    split; [exact Hrun|]. split; [exact Hfull|]. split; [lia|].
    split; [exact Hraise|].
    split; intros args.
    + unfold create_sender_link. now rewrite (bind_raise _ _ _ _ _ Hraise).
    + unfold create_receiver_link. now rewrite (bind_raise _ _ _ _ _ Hraise).
Qed.

End Handles.



(** ** The simple links are well behaved *)

Lemma link_step_refl (ext : Collaborators)
    (w : World (Link ext) (LinkStore ext) (LinkFrame ext)) :
  link_step ext w w.
Proof.
  split; try reflexivity. exists []. split; [now rewrite app_nil_r|reflexivity].
Qed.

Lemma simple_detach_quiet (overhead : Z) (l : SimpleLink) :
  quiet (simple_links overhead) (simple_detach l).
Proof.
  intros w. unfold simple_detach.
  match goal with |- context [if ?b then _ else _] => destruct b end.
  - exists tt, w. split; [reflexivity|]. apply (link_step_refl (simple_links overhead)).
  - eexists tt, _. split; [reflexivity|].
    split; try reflexivity.
    eexists. split; reflexivity.
Qed.

Lemma simple_links_quiet (overhead : Z) : links_quiet (simple_links overhead).
Proof.
  split.
  - intros l w. exists tt, w. split; [reflexivity|].
    apply (link_step_refl (simple_links overhead)).
  - intros l e. apply simple_detach_quiet.
Qed.

Lemma simple_constructors_quiet (overhead : Z) :
  constructors_quiet (simple_links overhead).
Proof.
  split; intros h a w; eexists _, w;
    (split; [reflexivity|apply (link_step_refl (simple_links overhead))]).
Qed.

(** ** The claims on concrete sessions *)

(** C1, witness: capacity 10 (512 - 494 - 8), payload of 3 * 10 + 10 bytes,
    four frames. *)
Lemma outgoing_transfer_fragments_witness :
  state (sess mapped_world) = MAPPED
  /\ 0 < remote_incoming_window (sess mapped_world)
  /\ capacity (simple_links 494) mapped_world (delivery_of 40) = 10
  /\ exists (d' : Delivery) (w' : SimpleWorld),
       _outgoing_transfer (simple_links 494) 4 (delivery_of 40) mapped_world
       = (Ok d', w')
       /\ transfer_state d' = Some OKAY
       /\ next_outgoing_id (sess w') = next_outgoing_id (sess mapped_world) + 1.
Proof.
  split; [reflexivity|]. split; [reflexivity|]. split; [reflexivity|].
  destruct (outgoing_transfer_fragments (simple_links 494) mapped_world
              (delivery_of 40) 4)
    as (d' & w' & frames & Hrun & Hstate & _ & _ & _ & _ & _ & Hid & _).
  - reflexivity.
  - reflexivity.
  - reflexivity.
  - vm_compute. lia.
  - exists d', w'. auto.
Defined.

(** C1, counterexample: with capacity 4 (512 - 500 - 8) a payload of
    4 * 3 + 10 = 22 bytes goes out in six Transfer frames, not four. *)
Lemma outgoing_transfer_small_capacity_six_frames :
  state (sess mapped_world) = MAPPED
  /\ 0 < remote_incoming_window (sess mapped_world)
  /\ capacity (simple_links 500) mapped_world (delivery_of 22) = 4
  /\ len (tf_payload (frame (delivery_of 22))) = 4 * 3 + 10
  /\ map (fun f => match f with PTransfer t => tf_more t | _ => false end)
         (transfer_frames (simple_links 500)
            (outgoing (conn (snd (_outgoing_transfer (simple_links 500) 6
                                    (delivery_of 22) mapped_world)))))
     = [true; true; true; true; true; false].
Proof. repeat split. Qed.


(** C2, witness and failing input: a Transfer on handle 99, which no link
    occupies.  The session ends DISCARDING and no End frame was sent. *)
Lemma incoming_transfer_unknown_handle_witness :
  next_incoming_id (sess mapped_world) = Some 0
  /\ dict_get Z.eqb (_input_handles (sess mapped_world)) (tf_handle (transfer_on 99))
     = None
  /\ exists w' : SimpleWorld,
       _incoming_transfer (simple_links 32) (transfer_on 99) mapped_world
       = (Ok tt, w')
       /\ state (sess w') = DISCARDING
       /\ end_frames (simple_links 32) (outgoing (conn w')) = [].
Proof.
  split; [vm_compute; reflexivity|]. split; [vm_compute; reflexivity|].
  apply (incoming_transfer_unknown_handle (simple_links 32) (transfer_on 99)
           mapped_world 0 (simple_links_quiet 32)); reflexivity.
Defined.

(** C3, counterexample: ten frames were sent; the peer, having taken five of
    them, advertises a window of two.  [remote_incoming_window] becomes
    5 + 2 - 10 = -3. *)
Lemma incoming_flow_negative_window :
  next_outgoing_id (sess sent_ten_world) = 10
  /\ 0 <= remote_incoming_window (sess sent_ten_world)
  /\ fst (_incoming_flow (simple_links 32) (peer_flow (Some 5) 2) sent_ten_world)
     = Ok tt
  /\ remote_incoming_window
       (sess (snd (_incoming_flow (simple_links 32) (peer_flow (Some 5) 2)
                     sent_ten_world)))
     = -3.
Proof. vm_compute. repeat split. discriminate. Qed.

(** C3, witness: BUSY on the closed window, and a window of 100 stays
    non-negative. *)
Lemma outgoing_transfer_window_floor_witness :
  remote_incoming_window (sess closed_window_world) <= 0
  /\ _outgoing_transfer (simple_links 32) 3 (delivery_of 2) closed_window_world
     = (Ok (mkDelivery (frame (delivery_of 2)) (Some BUSY)), closed_window_world)
  /\ 0 <= remote_incoming_window (sess mapped_world)
  /\ 0 <= remote_incoming_window
            (sess (snd (_outgoing_transfer (simple_links 32) 3 (delivery_of 2)
                          mapped_world))).
Proof.
  assert (H1 : remote_incoming_window (sess closed_window_world) <= 0)
    by (vm_compute; discriminate).
  assert (H2 : 0 <= remote_incoming_window (sess mapped_world))
    by (vm_compute; discriminate).
  split; [exact H1|]. split.
  - exact (proj1 (outgoing_transfer_window_floor (simple_links 32)
                    closed_window_world (delivery_of 2) 3) H1).
  - split; [exact H2|].
    exact (proj2 (outgoing_transfer_window_floor (simple_links 32)
                    mapped_world (delivery_of 2) 3) H2).
Defined.

(** C4, witness: [incoming_window] is 1, so the frame brings it to 0; it is
    reset to the target and one Flow goes out. *)
Lemma incoming_transfer_counts_witness :
  next_incoming_id (sess receiving_world) = Some 0
  /\ incoming_window (sess receiving_world) - 1 = 0
  /\ exists w' : SimpleWorld,
       _incoming_transfer (simple_links 32) (transfer_on 0) receiving_world
       = (Ok tt, w')
       /\ next_incoming_id (sess w') = Some 1
       /\ remote_outgoing_window (sess w') = 99
       /\ incoming_window (sess w') = target_incoming_window (sess receiving_world)
       /\ outgoing (conn w')
          = outgoing (conn receiving_world)
            ++ [(0, PFlow (mkFlow (Some 1) 1 0 1 None None None None))].
Proof.
  assert (Hzero : incoming_window (sess receiving_world) - 1 = 0)
    by (vm_compute; reflexivity).
  split; [vm_compute; reflexivity|]. split; [exact Hzero|].
  destruct (incoming_transfer_counts (simple_links 32) (transfer_on 0)
              receiving_world
              (with_sess (simple_links 32) (count_frame (simple_links 32) 0)
                 receiving_world)
              0 (mkSimpleLink "receiver" 1 false))
    as (w' & Hrun & Hid & Hout & _ & Hreset);
    try (vm_compute; reflexivity).
  destruct (Hreset Hzero) as [Hwin Hflow].
  exists w'. split; [exact Hrun|]. split; [exact Hid|].
  split; [etransitivity; [exact Hout|vm_compute; reflexivity]|].
  split; [exact Hwin|].
  etransitivity; [exact Hflow|vm_compute; reflexivity].
Defined.



(** C6, witness and failing input: the session was ended (END_SENT) with the
    remote window still at 100; the delivery goes out and is marked OKAY. *)
Lemma outgoing_transfer_not_mapped_witness :
  state (sess ended_world) = END_SENT
  /\ 0 < remote_incoming_window (sess ended_world)
  /\ exists (d' : Delivery) (w' : SimpleWorld),
       _outgoing_transfer (simple_links 32) 1 (delivery_of 2) ended_world
       = (Ok d', w')
       /\ transfer_state d' = Some OKAY
       /\ len (transfer_frames (simple_links 32) (outgoing (conn w'))) = 1
       /\ next_outgoing_id (sess w') = 1.
Proof.
  split; [vm_compute; reflexivity|]. split; [vm_compute; reflexivity|].
  destruct (outgoing_transfer_not_mapped (simple_links 32) ended_world
              (delivery_of 2) 1)
    as (d' & w' & Hrun & Hstate & Hframes & Hid & _).
  - discriminate.
  - reflexivity.
  - reflexivity.
  - vm_compute. lia.
  - exists d', w'. repeat split; assumption.
Defined.

(** C7, witness and failing input: ten frames were sent and the peer, which
    has not taken any yet, advertises next-incoming-id 0 and a window of 100.
    The session computes a remote window of 100 where
    0 + 100 - 10 = 90 frames are left. *)
Lemma incoming_flow_zero_next_incoming_id_witness :
  next_outgoing_id (sess sent_ten_world) = 10
  /\ exists w' : SimpleWorld,
       _incoming_flow (simple_links 32) (peer_flow (Some 0) 100) sent_ten_world
       = (Ok tt, w')
       /\ remote_incoming_window (sess w') = 100
       /\ remote_incoming_window (sess w') <> 0 + 100 - 10.
Proof.
  assert (Hid : next_outgoing_id (sess sent_ten_world) = 10)
    by (vm_compute; reflexivity).
  split; [exact Hid|].
  destruct (incoming_flow_zero_next_incoming_id (simple_links 32)
              (peer_flow (Some 0) 100) sent_ten_world)
    as (w' & Hrun & Hwin & Hne); try (vm_compute; reflexivity).
  exists w'. split; [exact Hrun|]. split; [exact Hwin|].
  apply Hne. intros Hzero.
  assert (H : 10 = 0) by (etransitivity; [symmetry; exact Hid|exact Hzero]).
  discriminate H.
Defined.

(** C8, counterexample: a Begin that names remote channel 3 reaches a session
    that is UNMAPPED; the session ends MAPPED with [remote_channel] still
    unset. *)
Lemma incoming_begin_unmapped_keeps_remote_channel :
  state (sess fresh_world) = UNMAPPED
  /\ state (sess (snd (_incoming_begin (simple_links 32)
                         (mkBegin (Some 3) 0 100 100 7 None None None)
                         fresh_world)))
     = MAPPED
  /\ remote_channel (sess (snd (_incoming_begin (simple_links 32)
                                  (mkBegin (Some 3) 0 100 100 7 None None None)
                                  fresh_world)))
     = None.
Proof. vm_compute. repeat split. Qed.

(** C8, witness: the peer's Begin first, and the local Begin first. *)
Lemma incoming_begin_handshake_witness :
  state (sess fresh_world) = UNMAPPED
  /\ (exists w' : SimpleWorld,
        _incoming_begin (simple_links 32) peer_begin fresh_world = (Ok tt, w')
        /\ state (sess w') = MAPPED
        /\ next_incoming_id (sess w') = Some 0
        /\ state_log w' = [(UNMAPPED, BEGIN_RCVD); (BEGIN_RCVD, MAPPED)])
  /\ state (sess begun_world) = BEGIN_SENT
  /\ (exists w' : SimpleWorld,
        _incoming_begin (simple_links 32)
          (mkBegin (Some 0) 0 100 100 7 None None None) begun_world
        = (Ok tt, w')
        /\ state (sess w') = MAPPED
        /\ remote_channel (sess w') = Some 0).
Proof.
  split; [reflexivity|]. split; [|split; [reflexivity|]].
  - destruct (incoming_begin_handshake (simple_links 32) peer_begin fresh_world
                (proj1 (simple_links_quiet 32)) (or_introl eq_refl))
      as (w' & Hrun & Hstate & Hid & Hlog & _).
    exists w'. repeat split; assumption.
  - destruct (incoming_begin_handshake (simple_links 32)
                (mkBegin (Some 0) 0 100 100 7 None None None) begun_world
                (proj1 (simple_links_quiet 32)) (or_intror eq_refl))
      as (w' & Hrun & Hstate & _ & _ & _ & Hchannel).
    exists w'. repeat split; assumption.
Defined.

(** C9, the failing input run: two [end()] calls on a MAPPED session send
    two End frames. *)
Lemma double_end_sends_two_end_frames :
  state (sess mapped_world) = MAPPED
  /\ fst (and_then (end_ (simple_links 32) None mapped_world)
                   (end_ (simple_links 32) None))
     = Ok tt
  /\ end_frames (simple_links 32)
       (outgoing (conn (snd (and_then (end_ (simple_links 32) None mapped_world)
                                      (end_ (simple_links 32) None)))))
     = [PEnd None; PEnd None].
Proof. vm_compute. repeat split. Qed.

(** C9, witness and failing input: [end()] on a MAPPED session whose one
    link fails to detach does not raise and leaves the session UNMAPPED; and
    two [end()] calls on the MAPPED session without links send two End
    frames, the session being END_SENT in between. *)
Lemma end_twice_witness :
  state (sess sending_world) = MAPPED
  /\ state (sess (snd (end_ (undetachable_links OtherException) None
                         sending_world))) = UNMAPPED
  /\ fst (end_ (undetachable_links OtherException) None sending_world)
     <> Raise OtherException
  /\ exists w1 w2 : SimpleWorld,
       end_ (simple_links 32) None mapped_world = (Ok tt, w1)
       /\ state (sess w1) = END_SENT
       /\ end_ (simple_links 32) None w1 = (Ok tt, w2)
       /\ end_frames (simple_links 32) (outgoing (conn w1)) = [PEnd None]
       /\ end_frames (simple_links 32) (outgoing (conn w2))
          = [PEnd None; PEnd None].
Proof.
  split; [reflexivity|]. split; [vm_compute; reflexivity|]. split.
  - apply (proj1 (end_twice (undetachable_links OtherException) None None
                    sending_world
                    (fun l w => ex_intro _ tt
                       (ex_intro _ w
                          (conj eq_refl
                             (link_step_refl (undetachable_links OtherException)
                                w)))))).
  - destruct (proj2 (end_twice (simple_links 32) None None mapped_world
                       (proj1 (simple_links_quiet 32)))
                    (proj2 (simple_links_quiet 32)))
      as (w1 & w2 & Hrun1 & Hstate & Hrun2 & Hends1 & Hends2).
    exists w1, w2. split; [exact Hrun1|]. split; [exact Hstate|].
    split; [exact Hrun2|]. split.
    + etransitivity; [exact Hends1|vm_compute; reflexivity].
    + etransitivity; [exact Hends2|].
      etransitivity; [exact (f_equal (fun l => l ++ [PEnd None]) Hends1)|].
      vm_compute; reflexivity.
Defined.

(** C10, witness: handle_max is 7; six links take the handles 1 to 6 and the
    next allocation raises StopIteration. *)
Lemma handle_exhaustion_raises_StopIteration_witness :
  handle_max (sess mapped_world) = 7
  /\ exists (ls : list SimpleLink) (w' : SimpleWorld),
       create_links (simple_links 32)
         [(true, "a"); (false, "b"); (true, "c"); (false, "d"); (true, "e");
          (false, "f")]%string mapped_world
       = (Ok ls, w')
       /\ len (_output_handles (sess w')) < handle_max (sess w')
       /\ _get_next_output_handle (simple_links 32) w' = (Raise StopIteration, w').
Proof.
  split; [reflexivity|].
  destruct (handle_exhaustion_raises_StopIteration (simple_links 32)
              [(true, "a"); (false, "b"); (true, "c"); (false, "d"); (true, "e");
               (false, "f")]%string mapped_world
              (simple_constructors_quiet 32))
    as (ls & w' & Hrun & _ & Hlen & Hraise & _); try reflexivity.
  exists ls, w'. repeat split; assumption.
Defined.

Lemma bind_ret_tt {W B : Type} (k : unit -> M W B) (w : W) :
  bind (ret tt) k w = k tt w.
Proof. reflexivity. Qed.

Lemma bind_ret_nil {W A B : Type} (k : list A -> M W B) (w : W) :
  bind (ret []) k w = k [] w.
Proof. reflexivity. Qed.

Lemma bind_ret_false {W B : Type} (k : bool -> M W B) (w : W) :
  bind (ret false) k w = k false w.
Proof. reflexivity. Qed.


(** * Further properties of the session *)

(** ** The session life cycle *)

Section LifeCycle.
Variable ext : Collaborators.

Local Abbreviation W := (World (Link ext) (LinkStore ext) (LinkFrame ext)).
Local Abbreviation Frame := (Performative (LinkFrame ext)).

(** [begin()] with links that take the state change quietly. *)
Lemma begin_observe (w : W) :
  (forall l, quiet ext (link_on_session_state_change ext l)) ->
  exists w',
    begin ext w
    = (if allow_pipelined_open (sess w) then Ok tt else Raise ValueError, w')
    /\ observe ext w'
       = (set_state BEGIN_SENT (sess w),
          state_log w ++ [(state (sess w), BEGIN_SENT)],
          session_frames ext (outgoing (conn w))
          ++ [PBegin (outgoing_begin_frame ext (sess w))]).
Proof.
  intros Hq.
  destruct (set_state_observe ext BEGIN_SENT
              (sent ext w [(channel (sess w),
                            PBegin (outgoing_begin_frame ext (sess w)))]) Hq)
    as (w1 & Hrun1 & Hobs1).
  destruct (observe_parts ext _ _ _ _ Hobs1) as (Hs1 & Hl1 & Hf1).
  exists w1. split.
  - unfold begin, _outgoing_begin.
    rewrite bind_assoc, bind_get.
    change (bind (_process_outgoing_frame ext (channel (sess w))
                    (PBegin (outgoing_begin_frame ext (sess w)))) ?k w)
      with (bind (_process_outgoing_frame ext (channel (sess w))
                    (PBegin (outgoing_begin_frame ext (sess w)))) k w).
    rewrite bind_send, (bind_ok _ _ _ _ _ Hrun1), bind_get, Hs1.
    cbn [sess sent set_state allow_pipelined_open].
    now destruct (allow_pipelined_open (sess w)).
  - rewrite Hobs1. cbn [sess sent state_log conn outgoing].
    now rewrite session_frames_app.
Qed.

(** X1.  [begin()] first sends its Begin frame and moves the session to
    BEGIN_SENT (links taking the state change quietly); only then does it
    look at [allow_pipelined_open], so with [allow_pipelined_open=False] it
    raises ValueError after the frame has gone out and the state has
    changed. *)
Theorem begin_sends_before_it_raises (w : W) :
  (forall l, quiet ext (link_on_session_state_change ext l)) ->
  exists w',
    begin ext w
    = (if allow_pipelined_open (sess w) then Ok tt else Raise ValueError, w')
    /\ state (sess w') = BEGIN_SENT
    /\ state_log w' = state_log w ++ [(state (sess w), BEGIN_SENT)]
    /\ session_frames ext (outgoing (conn w'))
       = session_frames ext (outgoing (conn w))
         ++ [PBegin (outgoing_begin_frame ext (sess w))].
Proof.
  intros Hq. destruct (begin_observe w Hq) as (w' & Hrun & Hobs).
  destruct (observe_parts ext _ _ _ _ Hobs) as (Hs & Hl & Hf).
  exists w'. split; [exact Hrun|]. split; [now rewrite Hs|]. split; assumption.
Qed.

(** An inbound Begin on a session in BEGIN_SENT. *)
Lemma incoming_begin_observe_begin_sent (frame : BeginFrame) (w : W) :
  (forall l, quiet ext (link_on_session_state_change ext l)) ->
  state (sess w) = BEGIN_SENT ->
  exists w',
    _incoming_begin ext frame w = (Ok tt, w')
    /\ observe ext w'
       = (set_state MAPPED
            (set_remote_channel (begin_remote_channel frame)
               (begin_assignments ext frame (sess w))),
          state_log w ++ [(BEGIN_SENT, MAPPED)],
          session_frames ext (outgoing (conn w))).
Proof.
  intros Hq Hst.
  destruct (set_state_observe ext MAPPED
              (with_sess ext
                 (fun s => set_remote_channel (begin_remote_channel frame)
                             (begin_assignments ext frame s)) w) Hq)
    as (w1 & Hrun1 & Hobs1).
  exists w1. split.
  - unfold _incoming_begin.
    rewrite !bind_assign, bind_get.
    cbn [with_sess sess state set_remote_properties set_remote_outgoing_window
         set_remote_incoming_window set_next_incoming_id set_handle_max].
    rewrite Hst. cbn [SessionState_eqb]. rewrite bind_assign. exact Hrun1.
  - rewrite Hobs1. cbn. now rewrite Hst.
Qed.

(** X2.  An inbound Begin on a session that is neither UNMAPPED nor
    BEGIN_SENT is not refused: handle_max, next_incoming_id, the two remote
    windows and the remote properties are overwritten from the frame, and
    nothing else happens (no state change, no frame, no link called). *)
Theorem incoming_begin_in_other_states (frame : BeginFrame) (w : W) :
  state (sess w) <> UNMAPPED ->
  state (sess w) <> BEGIN_SENT ->
  _incoming_begin ext frame w
  = (Ok tt, with_sess ext (begin_assignments ext frame) w).
Proof.
  intros Hu Hb. unfold _incoming_begin.
  rewrite !bind_assign, bind_get.
  cbn [with_sess sess state set_remote_properties set_remote_outgoing_window
       set_remote_incoming_window set_next_incoming_id set_handle_max].
  destruct (state (sess w)); try contradiction; reflexivity.
Qed.

(** [_incoming_end] with quiet links. *)
Lemma incoming_end_observe (w : W) :
  links_quiet ext ->
  exists w',
    _incoming_end ext w = (Ok tt, w')
    /\ observe ext w'
       = (set_state UNMAPPED (sess w),
          state_log w
          ++ (if state_in (state (sess w)) [END_RCVD; END_SENT; DISCARDING]
              then [(state (sess w), UNMAPPED)]
              else [(state (sess w), END_RCVD); (END_RCVD, UNMAPPED)]),
          session_frames ext (outgoing (conn w))
          ++ (if state_in (state (sess w)) [END_RCVD; END_SENT; DISCARDING]
              then [] else [PEnd None])).
Proof.
  intros [Hchange Hdetach]. unfold _incoming_end. rewrite bind_get.
  destruct (state_in (state (sess w)) [END_RCVD; END_SENT; DISCARDING]);
    cbn [negb].
  - rewrite bind_ret_tt.
    destruct (set_state_observe ext UNMAPPED w Hchange) as (w1 & Hrun1 & Hobs1).
    exists w1. split; [exact Hrun1|]. rewrite Hobs1. now rewrite app_nil_r.
  - destruct (set_state_observe ext END_RCVD w Hchange) as (w1 & Hrun1 & Hobs1).
    destruct (observe_parts ext _ _ _ _ Hobs1) as (Hs1 & Hl1 & Hf1).
    destruct (for_each_observe ext (fun link => link_detach ext link None)
                (dict_values (links (sess w1)))
                (fun l => Hdetach l None) w1) as (w2 & Hrun2 & Hobs2).
    rewrite Hobs1 in Hobs2.
    destruct (observe_parts ext _ _ _ _ Hobs2) as (Hs2 & Hl2 & Hf2).
    destruct (set_state_observe ext UNMAPPED
                (sent ext w2 [(channel (sess w2), PEnd None)]) Hchange)
      as (w3 & Hrun3 & Hobs3).
    exists w3. split.
    + rewrite bind_assoc, (bind_ok _ _ _ _ _ Hrun1).
      rewrite bind_assoc, bind_get, bind_assoc, (bind_ok _ _ _ _ _ Hrun2).
      unfold _outgoing_end. rewrite bind_assoc, bind_get, bind_send.
      exact Hrun3.
    + rewrite Hobs3. cbn [sess sent state_log conn outgoing].
      rewrite session_frames_app, Hs2, Hl2, Hf2. cbn.
      now rewrite <- app_assoc.
Qed.

(** X3.  With quiet links, an inbound End always leaves the session
    UNMAPPED and changes no other attribute.  From END_RCVD, END_SENT or
    DISCARDING no End frame is sent; from any other state the session goes
    through END_RCVD and sends exactly one End frame, without error, in
    reply. *)
Theorem incoming_end_replies_once (w : W) :
  links_quiet ext ->
  exists w',
    _incoming_end ext w = (Ok tt, w')
    /\ sess w' = set_state UNMAPPED (sess w)
    /\ end_frames ext (outgoing (conn w'))
       = end_frames ext (outgoing (conn w))
         ++ (if state_in (state (sess w)) [END_RCVD; END_SENT; DISCARDING]
             then [] else [PEnd None])
    /\ state_log w'
       = state_log w
         ++ (if state_in (state (sess w)) [END_RCVD; END_SENT; DISCARDING]
             then [(state (sess w), UNMAPPED)]
             else [(state (sess w), END_RCVD); (END_RCVD, UNMAPPED)]).
Proof.
  intros Hq. destruct (incoming_end_observe w Hq) as (w' & Hrun & Hobs).
  destruct (observe_parts ext _ _ _ _ Hobs) as (Hs & Hl & Hf).
  exists w'. split; [exact Hrun|]. split; [exact Hs|]. split; [|exact Hl].
  rewrite (end_frames_parts ext _ _ _ Hf).
  now destruct (state_in (state (sess w)) [END_RCVD; END_SENT; DISCARDING]).
Qed.

(** X4.  A whole session with quiet links: local [begin()], the peer's
    Begin, local [end()], the peer's End.  All four calls return normally,
    the session is UNMAPPED again after BEGIN_SENT, MAPPED and END_SENT,
    and it has sent exactly its Begin and one End without error. *)
Theorem begin_to_end_round_trip (peer : BeginFrame) (w : W) :
  links_quiet ext ->
  state (sess w) = UNMAPPED ->
  allow_pipelined_open (sess w) = true ->
  exists w',
    begin_to_end ext peer w = (Ok tt, w')
    /\ sess w'
       = set_state UNMAPPED
           (set_remote_channel (begin_remote_channel peer)
              (begin_assignments ext peer (sess w)))
    /\ state_log w'
       = state_log w
         ++ [(UNMAPPED, BEGIN_SENT); (BEGIN_SENT, MAPPED); (MAPPED, END_SENT);
             (END_SENT, UNMAPPED)]
    /\ session_frames ext (outgoing (conn w'))
       = session_frames ext (outgoing (conn w))
         ++ [PBegin (outgoing_begin_frame ext (sess w)); PEnd None].
Proof.
  intros Hq Hst Hallow.
  destruct (begin_observe w (proj1 Hq)) as (w1 & Hrun1 & Hobs1).
  rewrite Hallow in Hrun1.
  destruct (observe_parts ext _ _ _ _ Hobs1) as (Hs1 & Hl1 & Hf1).
  destruct (incoming_begin_observe_begin_sent peer w1 (proj1 Hq))
    as (w2 & Hrun2 & Hobs2); [now rewrite Hs1|].
  destruct (observe_parts ext _ _ _ _ Hobs2) as (Hs2 & Hl2 & Hf2).
  destruct (end_observe ext None w2 Hq) as (w3 & Hrun3 & Hobs3).
  destruct (observe_parts ext _ _ _ _ Hobs3) as (Hs3 & Hl3 & Hf3).
  destruct (incoming_end_observe w3 Hq) as (w4 & Hrun4 & Hobs4).
  destruct (observe_parts ext _ _ _ _ Hobs4) as (Hs4 & Hl4 & Hf4).
  exists w4. split; [|split; [|split]].
  - unfold begin_to_end.
    rewrite (bind_ok _ _ _ _ _ Hrun1), (bind_ok _ _ _ _ _ Hrun2),
      (bind_ok _ _ _ _ _ Hrun3). exact Hrun4.
  - rewrite Hs4, Hs3, Hs2, Hs1. reflexivity.
  - rewrite Hl4, Hs3, Hl3, Hs2, Hl2, Hl1, Hst. cbn.
    now rewrite <- !app_assoc.
  - rewrite Hf4, Hs3, Hf3, Hs2, Hf2, Hf1. cbn.
    now rewrite <- !app_assoc.
Qed.

(** X5.  When the [detach] of one of the links raises inside [end()], the
    exception does not leave [end()]: the call returns normally with the
    session set to UNMAPPED (not END_SENT or DISCARDING), and no further
    Begin or End frame is sent after the failure; an End frame sent before
    the links were detached stays sent. *)
Theorem end_swallows_detach_failure (error : option AMQPError) (w w2 : W)
    (e : exn) :
  (forall l, quiet ext (link_on_session_state_change ext l)) ->
  for_each (dict_values (links (sess w)))
           (fun link => link_detach ext link None)
           (if state_in (state (sess w)) [UNMAPPED; DISCARDING] then w
            else sent ext w [(channel (sess w), PEnd error)])
  = (Raise e, w2) ->
  exists w',
    end_ ext error w = (Ok tt, w')
    /\ sess w' = set_state UNMAPPED (sess w2)
    /\ state_log w' = state_log w2 ++ [(state (sess w2), UNMAPPED)]
    /\ session_frames ext (outgoing (conn w'))
       = session_frames ext (outgoing (conn w2)).
Proof.
  intros Hq Hfail.
  destruct (set_state_observe ext UNMAPPED w2 Hq) as (w3 & Hrun3 & Hobs3).
  destruct (observe_parts ext _ _ _ _ Hobs3) as (Hs3 & Hl3 & Hf3).
  exists w3. split; [|split; [|split]]; try assumption.
  unfold end_, try_except. rewrite bind_get.
  destruct (state_in (state (sess w)) [UNMAPPED; DISCARDING]); cbn [negb].
  - rewrite bind_ret_tt, bind_get, (bind_raise _ _ _ _ _ Hfail). exact Hrun3.
  - unfold _outgoing_end. rewrite bind_assoc, bind_get, bind_send, bind_get.
    cbn [sess sent]. rewrite (bind_raise _ _ _ _ _ Hfail). exact Hrun3.
Qed.
End LifeCycle.


(** ** Routing of inbound frames *)

Section Routing.
Variable ext : Collaborators.

Local Abbreviation W := (World (Link ext) (LinkStore ext) (LinkFrame ext)).
Local Abbreviation Frame := (Performative (LinkFrame ext)).

(** X6.  An inbound Detach whose handle is not in the input-handle table
    sets the session to DISCARDING and then closes the connection with the
    session-unattached-handle error; no Begin or End frame is sent. *)
Theorem incoming_detach_unknown_handle
    (frame : Z * option bool * option AMQPError) (w : W) :
  (forall l, quiet ext (link_on_session_state_change ext l)) ->
  dict_get Z.eqb (_input_handles (sess w)) (fst (fst frame)) = None ->
  exists w1,
    _set_state ext (Some DISCARDING) w = (Ok tt, w1)
    /\ _incoming_detach ext frame w
       = (Ok tt, closed ext w1 (Some unattached_handle_error))
    /\ sess w1 = set_state DISCARDING (sess w)
    /\ session_frames ext (outgoing (conn w1))
       = session_frames ext (outgoing (conn w)).
Proof.
  intros Hq Hget.
  destruct (set_state_observe ext DISCARDING w Hq) as (w1 & Hrun1 & Hobs1).
  destruct (observe_parts ext _ _ _ _ Hobs1) as (Hs1 & _ & Hf1).
  exists w1. split; [exact Hrun1|]. split; [|split; assumption].
  unfold _incoming_detach, try_except.
  rewrite bind_get, Hget. unfold raise.
  now rewrite (bind_ok _ _ _ _ _ Hrun1).
Qed.

(** X7.  An exception raised by the link's [_incoming_transfer] leaves
    [Session._incoming_transfer] as it is, the counters already moved, unless
    it is a KeyError: that one is taken for an unattached handle, and the
    session is set to DISCARDING and ended, with no Flow and no End frame
    sent. *)
Theorem incoming_transfer_link_failure (frame : TransferFrame) (w w1 : W)
    (n : Z) (link : Link ext) (e : exn) :
  links_quiet ext ->
  next_incoming_id (sess w) = Some n ->
  dict_get Z.eqb (_input_handles (sess w)) (tf_handle frame) = Some link ->
  link_incoming_transfer ext link frame (with_sess ext (count_frame ext n) w)
  = (Raise e, w1) ->
  (e <> KeyError -> _incoming_transfer ext frame w = (Raise e, w1))
  /\ (e = KeyError ->
      exists w',
        _incoming_transfer ext frame w = (Ok tt, w')
        /\ sess w' = set_state DISCARDING (sess w1)
        /\ session_frames ext (outgoing (conn w'))
           = session_frames ext (outgoing (conn w1))).
Proof.
  intros Hq Hid Hget Hlink.
  set (w0 := with_sess ext (count_frame ext n) w) in *.
  assert (Hrun : forall B (k : bool -> M W B),
             bind (try_except
                     (bind get (fun w2 =>
                        bind (match dict_get Z.eqb (_input_handles (sess w2))
                                      (tf_handle frame) with
                              | Some l => link_incoming_transfer ext l frame
                              | None => raise KeyError
                              end) (fun _ => ret false)))
                     (fun exc =>
                        match exc with
                        | KeyError =>
                            Some (bind (_set_state ext (Some DISCARDING)) (fun _ =>
                                  bind (end_ ext (Some unattached_handle_error))
                                       (fun _ => ret true)))
                        | _ => None
                        end)) k w0
             = match e with
               | KeyError =>
                   bind (bind (_set_state ext (Some DISCARDING)) (fun _ =>
                         bind (end_ ext (Some unattached_handle_error))
                              (fun _ => ret true))) k w1
               | _ => (Raise e, w1)
               end).
  { intros B k. unfold bind at 1, try_except. rewrite bind_get.
    replace (_input_handles (sess w0)) with (_input_handles (sess w))
      by reflexivity.
    rewrite Hget, (bind_raise _ _ _ _ _ Hlink). now destruct e. }
  assert (Hstart : _incoming_transfer ext frame w
                   = match e with
                     | KeyError =>
                         bind (bind (_set_state ext (Some DISCARDING)) (fun _ =>
                               bind (end_ ext (Some unattached_handle_error))
                                    (fun _ => ret true)))
                           (fun returned : bool =>
                              if returned then ret tt
                              else bind get (fun w2 =>
                                if incoming_window (sess w2) =? 0 then
                                  bind (assign ext (set_incoming_window
                                          (target_incoming_window (sess w2))))
                                    (fun _ => _outgoing_flow ext None)
                                else ret tt)) w1
                     | _ => (Raise e, w1)
                     end).
  { unfold _incoming_transfer.
    rewrite bind_get, Hid, bind_assign.
    rewrite bind_get, bind_assign, bind_get, bind_assign.
    change (with_sess ext _ (with_sess ext _ (with_sess ext _ w))) with w0.
    apply Hrun. }
  split.
  - intros Hne. rewrite Hstart. destruct e; try reflexivity. contradiction.
  - intros ->.
    destruct (set_state_observe ext DISCARDING w1 (proj1 Hq))
      as (w2 & Hrun2 & Hobs2).
    destruct (end_observe ext (Some unattached_handle_error) w2 Hq)
      as (w3 & Hrun3 & Hobs3).
    destruct (observe_parts ext _ _ _ _ Hobs2) as (Hs2 & _ & Hf2).
    destruct (observe_parts ext _ _ _ _ Hobs3) as (Hs3 & _ & Hf3).
    exists w3. split; [|split].
    + rewrite Hstart, bind_assoc, (bind_ok _ _ _ _ _ Hrun2).
      rewrite bind_assoc, (bind_ok _ _ _ _ _ Hrun3). reflexivity.
    + rewrite Hs3, Hs2. reflexivity.
    + rewrite Hf3, Hs2, Hf2. cbn. now rewrite app_nil_r.
Qed.

(** X8.  An inbound Flow that names a handle missing from the
    input-handle table raises KeyError after next_incoming_id and the two
    remote windows have been overwritten from the frame. *)
Theorem incoming_flow_unknown_handle (frame : FlowFrame) (w : W) (h : Z) :
  flow_handle frame = Some h ->
  dict_get Z.eqb (_input_handles (sess w)) h = None ->
  _incoming_flow ext frame w
  = (Raise KeyError, with_sess ext (flow_assignments ext frame) w).
Proof.
  intros Hh Hget. unfold _incoming_flow.
  rewrite bind_assign, bind_get, bind_assign, bind_assign, Hh, bind_get.
  cbn [with_sess sess _input_handles set_remote_outgoing_window
       set_remote_incoming_window set_next_incoming_id].
  now rewrite Hget.
Qed.

(** X9.  A session-level Flow (no handle) that leaves
    [remote_incoming_window] at zero or below is passed on to no link at
    all, whatever links the session has: the call only makes the three
    assignments. *)
Theorem incoming_flow_closed_window_notifies_nobody (frame : FlowFrame) (w : W) :
  flow_handle frame = None ->
  int_or (flow_next_incoming_id frame) (next_outgoing_id (sess w))
  + flow_incoming_window frame - next_outgoing_id (sess w) <= 0 ->
  _incoming_flow ext frame w
  = (Ok tt, with_sess ext (flow_assignments ext frame) w).
Proof.
  intros Hh Hwin. unfold _incoming_flow.
  rewrite bind_assign, bind_get, bind_assign, bind_assign, Hh, bind_get.
  change (with_sess ext _ (with_sess ext _ (with_sess ext _ w)))
    with (with_sess ext (flow_assignments ext frame) w).
  set (w1 := with_sess ext (flow_assignments ext frame) w).
  assert (Hclosed : (remote_incoming_window (sess w1) >? 0) = false).
  { subst w1. cbn. destruct (Z.gtb_spec
      (int_or (flow_next_incoming_id frame) (next_outgoing_id (sess w))
       + flow_incoming_window frame - next_outgoing_id (sess w)) 0); [lia|reflexivity]. }
  induction (dict_values (_output_handles (sess w1))) as [|l ls IH].
  - reflexivity.
  - cbn [for_each]. rewrite bind_assoc, bind_get, Hclosed. cbn [andb].
    rewrite bind_ret_tt. exact IH.
Qed.
End Routing.


(** ** Sequences of deliveries *)

Lemma frame_count_le (S C : Z) : 0 < C -> 0 <= S -> frame_count S C <= S + 1.
Proof.
  intros HC HS. unfold frame_count.
  assert ((S + C - 1) / C < S + 1); [|lia].
  apply Z.div_lt_upper_bound; nia.
Qed.

Section Deliveries.
Variable ext : Collaborators.

Local Abbreviation W := (World (Link ext) (LinkStore ext) (LinkFrame ext)).
Local Abbreviation Frame := (Performative (LinkFrame ext)).

(** With a capacity of zero or less and a longer payload the loop of
    [_outgoing_transfer] sends one frame per unit of fuel and does not end. *)
Lemma transfer_loop_diverges (f : TransferFrame) (payload : bytes) (C : Z) :
  C <= 0 ->
  forall (fuel : nat) (start remaining : Z) (w : W),
    C < remaining ->
    exists w',
      transfer_loop ext fuel f payload C start remaining w = (OutOfFuel, w')
      /\ sess w' = sess w
      /\ len (transfer_frames ext (outgoing (conn w')))
         = len (transfer_frames ext (outgoing (conn w))) + Z.of_nat fuel.
Proof.
  intros HC. induction fuel as [|fuel IH]; intros start remaining w Hrem;
    cbn [transfer_loop].
  - exists w. repeat split. lia.
  - destruct (Z.gtb_spec remaining C) as [_|Hle]; [|lia].
    rewrite bind_get, bind_send.
    destruct (IH (start + C) (remaining - C)
                 (sent ext w [(channel (sess w),
                    PTransfer (tmp_delivery_frame f true (next_outgoing_id (sess w))
                                 (py_slice payload start (start + C))))]))
      as (w' & Hrun & Hsess & Hlen); [lia|].
    exists w'. split; [exact Hrun|]. split; [exact Hsess|].
    rewrite Hlen. cbn [sent conn outgoing].
    rewrite transfer_frames_app, len_app.
    unfold transfer_frames at 2. cbn [map snd filter is_transfer].
    unfold len at 2. cbn [List.length]. lia.
Qed.

(** X10.  With an open remote window, a frame capacity of zero or less
    (the peer's maximum frame size does not exceed the Transfer overhead
    plus 8) and a payload longer than the capacity, [_outgoing_transfer]
    does not return: for every amount of fuel the loop is still running, has
    sent one Transfer frame per iteration and has not touched the session
    counters. *)
Theorem outgoing_transfer_never_returns (w : W) (d : Delivery) (fuel : nat) :
  0 < remote_incoming_window (sess w) ->
  capacity ext w d <= 0 ->
  capacity ext w d < len (tf_payload (frame d)) ->
  exists w',
    _outgoing_transfer ext fuel d w = (OutOfFuel, w')
    /\ sess w' = sess w
    /\ len (transfer_frames ext (outgoing (conn w')))
       = len (transfer_frames ext (outgoing (conn w))) + Z.of_nat fuel.
Proof.
  intros Hwin HC Hlen.
  destruct (transfer_loop_diverges
              (measured_frame (frame d) (next_outgoing_id (sess w)))
              (tf_payload (frame d)) (capacity ext w d) HC fuel 0
              (len (tf_payload (frame d))) w Hlen)
    as (w' & Hrun & Hsess & Hframes).
  exists w'. split; [|split; assumption].
  unfold _outgoing_transfer. rewrite bind_get.
  destruct (Z.leb_spec (remote_incoming_window (sess w)) 0); [lia|].
  destruct (negb (SessionState_eqb (state (sess w)) MAPPED));
    cbn [frame set_transfer_state transfer_state];
    change (_remote_max_frame_size (conn w)
            - encoded_size ext
                (measured_frame (frame d) (next_outgoing_id (sess w))) - 8)
      with (capacity ext w d);
    unfold bind at 1; now rewrite Hrun.
Qed.

(** The delivery as a BUSY call leaves it. *)
Lemma outgoing_transfer_busy (w : W) (d : Delivery) (fuel : nat) :
  remote_incoming_window (sess w) <= 0 ->
  _outgoing_transfer ext fuel d w = (Ok (mkDelivery (frame d) (Some BUSY)), w).
Proof.
  intros Hwin. unfold _outgoing_transfer. rewrite bind_get.
  destruct (Z.leb_spec (remote_incoming_window (sess w)) 0); [|lia].
  now destruct (negb (SessionState_eqb (state (sess w)) MAPPED)).
Qed.

Lemma outgoing_transfers_busy (fuel : nat) (ds : list Delivery) (w : W) :
  remote_incoming_window (sess w) <= 0 ->
  outgoing_transfers ext fuel ds w
  = (Ok (map (fun d => mkDelivery (frame d) (Some BUSY)) ds), w).
Proof.
  intros Hwin. induction ds as [|d ds IH]; [reflexivity|].
  cbn [outgoing_transfers map].
  rewrite (bind_ok _ _ _ _ _ (outgoing_transfer_busy w d fuel Hwin)).
  now rewrite (bind_ok _ _ _ _ _ IH).
Qed.

Lemma outgoing_transfers_app (fuel : nat) (ds1 ds2 : list Delivery) (w : W) :
  outgoing_transfers ext fuel (ds1 ++ ds2) w
  = bind (outgoing_transfers ext fuel ds1) (fun r1 =>
      bind (outgoing_transfers ext fuel ds2) (fun r2 => ret (r1 ++ r2))) w.
Proof.
  revert w. induction ds1 as [|d ds1 IH]; intros w; cbn [outgoing_transfers app].
  - unfold bind, ret.
    now destruct (outgoing_transfers ext fuel ds2 w) as [[r|e|] w'].
  - unfold bind.
    destruct (_outgoing_transfer ext fuel d w) as [[d'|e|] w1]; try reflexivity.
    rewrite IH. unfold bind.
    destruct (outgoing_transfers ext fuel ds1 w1) as [[r1|e|] w2]; try reflexivity.
    unfold ret. cbn beta iota.
    now destruct (outgoing_transfers ext fuel ds2 w2) as [[r2|e|] w3].
Qed.

(** As many deliveries as the remote window has room for: all are sent, with
    consecutive delivery ids, and counted. *)
Lemma outgoing_transfers_sent (fuel : nat) (ds : list Delivery) :
  forall w : W,
    (forall f, encoded_size ext f + 8 < _remote_max_frame_size (conn w)) ->
    Forall (fun d => (List.length (tf_payload (frame d)) < fuel)%nat) ds ->
    len ds <= remote_incoming_window (sess w) ->
    exists (rs : list Delivery) (w' : W),
      outgoing_transfers ext fuel ds w = (Ok rs, w')
      /\ map transfer_state rs = repeat (Some OKAY) (List.length ds)
      /\ (forall i r, nth_error rs i = Some r ->
            tf_delivery_id (frame r)
            = Some (next_outgoing_id (sess w) + Z.of_nat i))
      /\ next_outgoing_id (sess w') = next_outgoing_id (sess w) + len ds
      /\ remote_incoming_window (sess w')
         = remote_incoming_window (sess w) - len ds
      /\ outgoing_window (sess w') = outgoing_window (sess w) - len ds
      /\ state (sess w') = state (sess w)
      /\ _remote_max_frame_size (conn w') = _remote_max_frame_size (conn w).
Proof.
  induction ds as [|d ds IH]; intros w Hcap Hfuel Hwin.
  - exists [], w. split; [reflexivity|]. split; [reflexivity|].
    split; [intros [|i] r; discriminate|].
    unfold len; cbn [List.length]. repeat split; lia.
  - rewrite len_cons in Hwin |- *. pose proof (len_nonneg ds) as Hds.
    inversion Hfuel as [|? ? Hd Hrest]; subst.
    assert (HC : 0 < capacity ext w d).
    { unfold capacity.
      specialize (Hcap (measured_frame (frame d) (next_outgoing_id (sess w)))).
      lia. }
    destruct (outgoing_transfer_sends ext w d fuel) as (cs & Hrun & _ & _);
      [lia|exact HC| |].
    { pose proof (frame_count_le (len (tf_payload (frame d))) (capacity ext w d)
                    HC (len_nonneg _)) as Hle.
      pose proof (frame_count_pos (len (tf_payload (frame d))) (capacity ext w d)).
      unfold len in Hle at 2. lia. }
    match type of Hrun with _ = (Ok ?x, ?y) =>
      set (d' := x) in *; set (w1 := y) in * end.
    destruct (IH w1) as (rs & w' & Hrest_run & Hstates & Hids & Hid & Hriw & How
                         & Hst & Hsize);
      [exact Hcap|exact Hrest| subst w1; cbn; lia|].
    exists (d' :: rs), w'. split; [|split; [|split]].
    + cbn [outgoing_transfers].
      rewrite (bind_ok _ _ _ _ _ Hrun), (bind_ok _ _ _ _ _ Hrest_run).
      reflexivity.
    + cbn [map List.length repeat]. now rewrite Hstates.
    + intros [|i] r Hnth; cbn [nth_error] in Hnth.
      * injection Hnth as <-. cbn. f_equal. lia.
      * rewrite (Hids i r Hnth). subst w1. cbn. f_equal. lia.
    + subst w1. cbn in Hid, Hriw, How, Hst, Hsize.
      rewrite Hid, Hriw, How, Hst, Hsize. repeat split; lia.
Qed.

(** X11.  With a positive frame capacity for every frame, a remote window
    of n lets exactly the next n deliveries through: they are marked OKAY and
    carry the consecutive delivery ids next_outgoing_id, next_outgoing_id + 1,
    ...; every delivery after them is marked BUSY; and the counters have
    moved by n, the remote window being 0. *)
Theorem remote_window_admits_as_many_deliveries (fuel : nat)
    (ds1 ds2 : list Delivery) (w : W) :
  (forall f, encoded_size ext f + 8 < _remote_max_frame_size (conn w)) ->
  Forall (fun d => (List.length (tf_payload (frame d)) < fuel)%nat) ds1 ->
  len ds1 = remote_incoming_window (sess w) ->
  exists (rs : list Delivery) (w' : W),
    outgoing_transfers ext fuel (ds1 ++ ds2) w = (Ok rs, w')
    /\ map transfer_state rs
       = repeat (Some OKAY) (List.length ds1) ++ repeat (Some BUSY) (List.length ds2)
    /\ (forall i r, (i < List.length ds1)%nat -> nth_error rs i = Some r ->
          tf_delivery_id (frame r)
          = Some (next_outgoing_id (sess w) + Z.of_nat i))
    /\ next_outgoing_id (sess w') = next_outgoing_id (sess w) + len ds1
    /\ remote_incoming_window (sess w') = 0
    /\ outgoing_window (sess w') = outgoing_window (sess w) - len ds1.
Proof.
  intros Hcap Hfuel Hwin.
  destruct (outgoing_transfers_sent fuel ds1 w Hcap Hfuel ltac:(lia))
    as (rs & w' & Hrun & Hstates & Hids & Hid & Hriw & How & _ & _).
  exists (rs ++ map (fun d => mkDelivery (frame d) (Some BUSY)) ds2), w'.
  assert (Hlen : List.length rs = List.length ds1).
  { rewrite <- (length_map transfer_state rs), Hstates. apply repeat_length. }
  split; [|split; [|split; [|split; [|split]]]].
  - rewrite outgoing_transfers_app, (bind_ok _ _ _ _ _ Hrun).
    rewrite (bind_ok _ _ _ _ _ (outgoing_transfers_busy fuel ds2 w' ltac:(lia))).
    reflexivity.
  - rewrite map_app, Hstates, map_map. cbn [transfer_state]. f_equal.
    clear. induction ds2 as [|d ds2 IH]; [reflexivity|].
    cbn [map List.length repeat]. now rewrite IH.
  - intros i r Hi Hnth. apply Hids.
    rewrite nth_error_app1 in Hnth by lia. exact Hnth.
  - exact Hid.
  - lia.
  - exact How.
Qed.


(** X13.  [_outgoing_transfer] empties the payload of the delivery it
    sends and stores the delivery id in it: handing the returned delivery to
    [_outgoing_transfer] again sends one Transfer frame with an empty
    payload under the next delivery id. *)
Theorem sent_delivery_has_lost_its_payload (w : W) (d : Delivery) (fuel : nat) :
  1 < remote_incoming_window (sess w) ->
  (forall f, encoded_size ext f + 8 < _remote_max_frame_size (conn w)) ->
  (List.length (tf_payload (frame d)) < fuel)%nat ->
  exists (d1 d2 : Delivery) (w1 w2 : W),
    _outgoing_transfer ext fuel d w = (Ok d1, w1)
    /\ tf_payload (frame d1) = []
    /\ tf_delivery_id (frame d1) = Some (next_outgoing_id (sess w))
    /\ _outgoing_transfer ext fuel d1 w1 = (Ok d2, w2)
    /\ transfer_state d2 = Some OKAY
    /\ outgoing (conn w2)
       = outgoing (conn w1)
         ++ [(channel (sess w),
              PTransfer (tmp_delivery_frame (frame d1) false
                           (next_outgoing_id (sess w) + 1) []))].
Proof.
  intros Hwin Hcap Hfuel.
  assert (HC : 0 < capacity ext w d).
  { unfold capacity.
    specialize (Hcap (measured_frame (frame d) (next_outgoing_id (sess w)))).
    lia. }
  destruct (outgoing_transfer_sends ext w d fuel) as (cs & Hrun & _ & _);
    [lia|exact HC| |].
  { pose proof (frame_count_le (len (tf_payload (frame d))) (capacity ext w d)
                  HC (len_nonneg _)) as Hle.
    pose proof (frame_count_pos (len (tf_payload (frame d))) (capacity ext w d)).
    unfold len in Hle at 2. lia. }
  match type of Hrun with _ = (Ok ?x, ?y) => set (d1 := x) in *; set (w1 := y) in * end.
  assert (HC1 : 0 < capacity ext w1 d1).
  { unfold capacity.
    specialize (Hcap (measured_frame (frame d1) (next_outgoing_id (sess w1)))).
    subst w1. cbn in *. lia. }
  assert (Hp : len (tf_payload (frame d1)) = 0) by reflexivity.
  destruct (outgoing_transfer_sends ext w1 d1 fuel) as (cs1 & Hrun1 & Hcount1 & _);
    [subst w1; cbn; lia|exact HC1| |].
  { rewrite Hp, (frame_count_last 0 (capacity ext w1 d1) HC1) by lia.
    cbn. lia. }
  rewrite Hp, (frame_count_last 0 (capacity ext w1 d1) HC1) in Hcount1 by lia.
  assert (cs1 = []) as ->.
  { destruct cs1; [reflexivity|]. rewrite len_cons in Hcount1.
    pose proof (len_nonneg cs1). lia. }
  exists d1. eexists. exists w1. eexists.
  split; [exact Hrun|]. split; [reflexivity|]. split; [reflexivity|].
  split; [exact Hrun1|]. split; [reflexivity|].
  cbn [with_sess sent conn outgoing]. f_equal.
  unfold on_channel, more_frames. cbn [map app].
  change (tf_payload (frame d1)) with (@nil byte). rewrite skipn_nil.
  reflexivity.
Qed.
End Deliveries.


(** ** The handle tables *)

Section PyDictFacts.
Variables (K V : Type) (eqb : K -> K -> bool).
Hypothesis eqb_refl : forall k, eqb k k = true.

Lemma dict_get_set_same (d : pydict K V) (k : K) (v : V) :
  dict_get eqb (dict_set eqb d k v) k = Some v.
Proof.
  induction d as [|[k' v'] d IH]; cbn [dict_set dict_get].
  - now rewrite eqb_refl.
  - destruct (eqb k k') eqn:E; cbn [dict_get]; rewrite E; [reflexivity|exact IH].
Qed.
End PyDictFacts.

Lemma dict_mem_false_not_in {V : Type} (d : pydict Z V) (k : Z) :
  dict_mem Z.eqb d k = false -> ~ In k (map fst d).
Proof.
  unfold dict_mem. induction d as [|[k' v'] d IH]; cbn [dict_get map fst In].
  - intros _ [].
  - destruct (Z.eqb_spec k k') as [->|Hne]; [discriminate|].
    intros Hmem [Heq|Hin]; [congruence|]. now apply IH.
Qed.

Lemma dict_set_new_keys {V : Type} (d : pydict Z V) (k : Z) (v : V) :
  dict_mem Z.eqb d k = false ->
  map fst (dict_set Z.eqb d k v) = map fst d ++ [k].
Proof.
  unfold dict_mem. induction d as [|[k' v'] d IH]; cbn [dict_set dict_get map fst app].
  - reflexivity.
  - destruct (Z.eqb_spec k k') as [->|Hne]; [discriminate|].
    intros Hmem. cbn [map fst]. now rewrite (IH Hmem).
Qed.

Lemma dict_mem_in {V : Type} (d : pydict Z V) (k : Z) :
  dict_mem Z.eqb d k = true -> In k (map fst d).
Proof.
  unfold dict_mem. induction d as [|[k' v'] d IH]; cbn [dict_get map fst In].
  - discriminate.
  - destruct (Z.eqb_spec k k') as [->|Hne]; [now left|].
    intros Hmem. right. now apply IH.
Qed.

Lemma NoDup_map_injective {A B : Type} (f : A -> B) (l : list A) :
  (forall a b, f a = f b -> a = b) -> NoDup l -> NoDup (map f l).
Proof.
  intros Hinj Hnd. induction Hnd as [|a l Hnotin Hnd IH]; cbn [map]; constructor.
  - intros Hin. apply in_map_iff in Hin. destruct Hin as (b & Heq & Hb).
    apply Hinj in Heq. now subst.
  - exact IH.
Qed.

(** Distinct integers of [1, hm) are fewer than hm. *)
Lemma distinct_in_range_length (l : list Z) (hm : Z) :
  NoDup l -> Forall (fun h => 1 <= h < hm) l -> 1 <= hm -> len l <= hm - 1.
Proof.
  intros Hnd Hrange Hhm.
  assert (Hincl : incl l (map Z.of_nat (seq 1 (Z.to_nat (hm - 1))))).
  { intros h Hin. rewrite Forall_forall in Hrange. specialize (Hrange h Hin).
    apply in_map_iff. exists (Z.to_nat h). split; [lia|].
    apply in_seq. lia. }
  pose proof (NoDup_incl_length Hnd Hincl) as Hlen.
  rewrite length_map, length_seq in Hlen. unfold len. lia.
Qed.

Section HandleTables.
Variable ext : Collaborators.

Local Abbreviation W := (World (Link ext) (LinkStore ext) (LinkFrame ext)).

(** The allocator does not change the world, whatever it returns. *)
Lemma get_next_output_handle_pure (w w' : W) (r : outcome Z) :
  _get_next_output_handle ext w = (r, w') -> w' = w.
Proof.
  unfold _get_next_output_handle. rewrite bind_get.
  destruct (len (_output_handles (sess w)) >=? handle_max (sess w)).
  - now intros [= _ <-].
  - destruct (next_in_range _ 1 _); now intros [= _ <-].
Qed.

(** What a returned handle tells about the table. *)
Lemma get_next_output_handle_inv (w w' : W) (h : Z) :
  _get_next_output_handle ext w = (Ok h, w') ->
  w' = w
  /\ smallest_free ext 1 (handle_max (sess w)) (_output_handles (sess w)) h
  /\ len (_output_handles (sess w)) < handle_max (sess w).
Proof.
  intros Hrun. split; [exact (get_next_output_handle_pure _ _ _ Hrun)|].
  revert Hrun. unfold _get_next_output_handle. rewrite bind_get.
  destruct (Z.geb_spec (len (_output_handles (sess w))) (handle_max (sess w)))
    as [|Hlt]; [discriminate|].
  destruct (next_in_range _ 1 (Z.to_nat (handle_max (sess w) - 1))) as [h'|]
    eqn:Hnext; [|discriminate].
  intros [= -> _].
  destruct (next_in_range_some _ _ _ _ Hnext) as (Hrange & Hfree & Hmin).
  cbn beta in Hfree. apply negb_true_iff in Hfree.
  split; [|exact Hlt]. split; [lia|]. split; [exact Hfree|].
  intros i Hi. specialize (Hmin i Hi). cbn beta in Hmin.
  now apply negb_false_iff in Hmin.
Qed.

(** X14.  Whenever [_get_next_output_handle] returns a handle, the
    handle is at least 1 and below handle_max, is not in the output-handle
    table while every smaller handle from 1 on is, the table holds fewer than
    handle_max entries, and nothing was changed. *)
Theorem get_next_output_handle_sound (w w' : W) (h : Z) :
  _get_next_output_handle ext w = (Ok h, w') ->
  w' = w
  /\ smallest_free ext 1 (handle_max (sess w)) (_output_handles (sess w)) h
  /\ len (_output_handles (sess w)) < handle_max (sess w).
Proof.
  intros Hrun. split; [exact (get_next_output_handle_pure _ _ _ Hrun)|].
  revert Hrun. unfold _get_next_output_handle. rewrite bind_get.
  destruct (Z.geb_spec (len (_output_handles (sess w))) (handle_max (sess w)))
    as [|Hlt]; [discriminate|].
  destruct (next_in_range _ 1 (Z.to_nat (handle_max (sess w) - 1))) as [h'|]
    eqn:Hnext; [|discriminate].
  intros [= -> _].
  destruct (next_in_range_some _ _ _ _ Hnext) as (Hrange & Hfree & Hmin).
  cbn beta in Hfree. apply negb_true_iff in Hfree.
  split; [|exact Hlt]. split; [lia|]. split; [exact Hfree|].
  intros i Hi. specialize (Hmin i Hi). cbn beta in Hmin.
  now apply negb_false_iff in Hmin.
Qed.

(** Both [create_sender_link] and [create_receiver_link], by what the
    allocator and the constructor return. *)
Lemma create_link_tables (sender : bool) (args : LinkArgs ext) (w : W) (h : Z) :
  constructors_quiet ext ->
  _get_next_output_handle ext w = (Ok h, w) ->
  exists (l : Link ext) (w' : W),
    (if sender then create_sender_link ext args
     else create_receiver_link ext args) w = (Ok l, w')
    /\ _output_handles (sess w') = dict_set Z.eqb (_output_handles (sess w)) h l
    /\ links (sess w')
       = dict_set String.eqb (links (sess w)) (link_name ext l) l
    /\ _input_handles (sess w') = _input_handles (sess w)
    /\ handle_max (sess w') = handle_max (sess w).
Proof.
  intros [Hsender Hreceiver] Hh.
  destruct sender.
  - destruct (Hsender h args w) as (l & w1 & Hnew & [Hs _ _]).
    exists l. eexists. split.
    + unfold create_sender_link.
      rewrite (bind_ok _ _ _ _ _ Hh), (bind_ok _ _ _ _ _ Hnew).
      rewrite bind_get, bind_assign, bind_get, bind_assign. reflexivity.
    + cbn. now rewrite Hs.
  - destruct (Hreceiver h args w) as (l & w1 & Hnew & [Hs _ _]).
    exists l. eexists. split.
    + unfold create_receiver_link.
      rewrite (bind_ok _ _ _ _ _ Hh), (bind_ok _ _ _ _ _ Hnew).
      rewrite bind_get, bind_assign, bind_get, bind_assign. reflexivity.
    + cbn. now rewrite Hs.
Qed.

(** When the allocator does not return a handle, neither method does
    anything. *)
Lemma create_link_fails (sender : bool) (args : LinkArgs ext) (w w0 : W)
    (r : outcome Z) :
  _get_next_output_handle ext w = (r, w0) ->
  (forall h, r <> Ok h) ->
  exists r' : outcome (Link ext),
    (if sender then create_sender_link ext args
     else create_receiver_link ext args) w = (r', w)
    /\ forall l, r' <> Ok l.
Proof.
  intros Hrun Hfail.
  pose proof (get_next_output_handle_pure _ _ _ Hrun) as ->.
  destruct r as [h|e|]; [now destruct (Hfail h)| |].
  - exists (Raise e). split; [|discriminate].
    destruct sender; unfold create_sender_link, create_receiver_link;
      now rewrite (bind_raise _ _ _ _ _ Hrun).
  - exists OutOfFuel. split; [|discriminate].
    destruct sender; unfold create_sender_link, create_receiver_link;
      unfold bind at 1; now rewrite Hrun.
Qed.

(** X15.  [create_sender_link] and [create_receiver_link] keep the
    output-handle table well formed, whatever they return: one entry per
    handle, every handle in [1, handle_max). *)
Theorem create_link_keeps_handles_ok (sender : bool) (args : LinkArgs ext)
    (w w' : W) (r : outcome (Link ext)) :
  constructors_quiet ext ->
  handles_ok ext (sess w) ->
  (if sender then create_sender_link ext args
   else create_receiver_link ext args) w = (r, w') ->
  handles_ok ext (sess w').
Proof.
  intros Hq [Hnd Hrange] Hrun.
  destruct (_get_next_output_handle ext w) as [[h|e|] w0] eqn:Hnext.
  - destruct (get_next_output_handle_inv _ _ _ Hnext)
      as (-> & (Hh & Hfree & _) & _).
    destruct (create_link_tables sender args w h Hq Hnext)
      as (l & w1 & Hrun1 & Htable & _ & _ & Hmax).
    rewrite Hrun1 in Hrun. injection Hrun as _ <-.
    unfold handles_ok. rewrite Htable, Hmax, (dict_set_new_keys _ _ _ Hfree).
    split.
    + apply NoDup_app; [exact Hnd|repeat constructor; intros []|].
      intros k Hin [<-|[]]. now apply (dict_mem_false_not_in _ _ Hfree).
    + apply Forall_app. split; [exact Hrange|]. now constructor.
  - destruct (create_link_fails sender args w w0 _ Hnext) as (r' & Hrun' & _);
      [discriminate|].
    rewrite Hrun' in Hrun. injection Hrun as _ <-. now split.
  - destruct (create_link_fails sender args w w0 _ Hnext) as (r' & Hrun' & _);
      [discriminate|].
    rewrite Hrun' in Hrun. injection Hrun as _ <-. now split.
Qed.

(** X16.  On a well-formed output-handle table (one entry per handle,
    every handle in [1, handle_max), handle_max at least 1) the allocator
    never raises the documented ValueError: it returns the smallest free
    handle, or, when the handle_max - 1 handles are all taken, raises
    StopIteration. *)
Theorem created_tables_never_raise_ValueError (w : W) :
  handles_ok ext (sess w) ->
  1 <= handle_max (sess w) ->
  (exists h,
      _get_next_output_handle ext w = (Ok h, w)
      /\ smallest_free ext 1 (handle_max (sess w)) (_output_handles (sess w)) h)
  \/ (_get_next_output_handle ext w = (Raise StopIteration, w)
      /\ len (_output_handles (sess w)) = handle_max (sess w) - 1
      /\ forall i, 1 <= i < handle_max (sess w) ->
                   dict_mem Z.eqb (_output_handles (sess w)) i = true).
Proof.
  intros [Hnd Hrange] Hmax.
  pose proof (distinct_in_range_length _ _ Hnd Hrange Hmax) as Hlen.
  rewrite len_map in Hlen.
  destruct (_get_next_output_handle ext w) as [[h|e|] w0] eqn:Hnext.
  - destruct (get_next_output_handle_inv _ _ _ Hnext) as (-> & Hfree & _).
    left. exists h. now split.
  - pose proof (get_next_output_handle_pure _ _ _ Hnext) as ->.
    right. revert Hnext. unfold _get_next_output_handle. rewrite bind_get.
    destruct (Z.geb_spec (len (_output_handles (sess w))) (handle_max (sess w)));
      [lia|].
    destruct (next_in_range _ 1 (Z.to_nat (handle_max (sess w) - 1))) as [h'|]
      eqn:Hscan; [discriminate|].
    intros [= <-]. split; [reflexivity|].
    assert (Hfull : forall i, 1 <= i < handle_max (sess w) ->
               dict_mem Z.eqb (_output_handles (sess w)) i = true).
    { intros i Hi.
      pose proof (next_in_range_none _ _ _ Hscan i ltac:(lia)) as Hfree.
      cbn beta in Hfree. now apply negb_false_iff in Hfree. }
    split; [|exact Hfull].
    assert (Hincl : incl (map Z.of_nat (seq 1 (Z.to_nat (handle_max (sess w) - 1))))
                         (map fst (_output_handles (sess w)))).
    { intros i Hin. apply in_map_iff in Hin. destruct Hin as (k & <- & Hk).
      apply in_seq in Hk. apply dict_mem_in, Hfull. lia. }
    assert (Hseq : NoDup (map Z.of_nat (seq 1 (Z.to_nat (handle_max (sess w) - 1))))).
    { apply NoDup_map_injective; [intros a b; lia|apply seq_NoDup]. }
    pose proof (NoDup_incl_length Hseq Hincl) as Hge.
    rewrite !length_map, length_seq in Hge. unfold len in *. lia.
  - pose proof (get_next_output_handle_pure _ _ _ Hnext) as ->.
    revert Hnext. unfold _get_next_output_handle. rewrite bind_get.
    destruct (len (_output_handles (sess w)) >=? handle_max (sess w));
      [discriminate|].
    destruct (next_in_range _ 1 _); discriminate.
Qed.

(** X17.  A link returned by [create_sender_link] or
    [create_receiver_link] is found again under the allocated handle in
    [_output_handles] and under its name in [links]; the two tables are the
    old ones with that one entry set, and [_input_handles] is unchanged. *)
Theorem create_link_registers (sender : bool) (args : LinkArgs ext)
    (w w' : W) (l : Link ext) :
  constructors_quiet ext ->
  (if sender then create_sender_link ext args
   else create_receiver_link ext args) w = (Ok l, w') ->
  exists h,
    smallest_free ext 1 (handle_max (sess w)) (_output_handles (sess w)) h
    /\ _output_handles (sess w') = dict_set Z.eqb (_output_handles (sess w)) h l
    /\ links (sess w') = dict_set String.eqb (links (sess w)) (link_name ext l) l
    /\ dict_get Z.eqb (_output_handles (sess w')) h = Some l
    /\ dict_get String.eqb (links (sess w')) (link_name ext l) = Some l
    /\ _input_handles (sess w') = _input_handles (sess w).
Proof.
  intros Hq Hrun.
  destruct (_get_next_output_handle ext w) as [[h|e|] w0] eqn:Hnext.
  - destruct (get_next_output_handle_inv _ _ _ Hnext) as (-> & Hfree & _).
    destruct (create_link_tables sender args w h Hq Hnext)
      as (l1 & w1 & Hrun1 & Htable & Hlinks & Hinput & _).
    rewrite Hrun1 in Hrun. injection Hrun as -> ->.
    exists h. split; [exact Hfree|]. split; [exact Htable|].
    split; [exact Hlinks|]. split; [|split; [|exact Hinput]].
    + rewrite Htable. apply dict_get_set_same, Z.eqb_refl.
    + rewrite Hlinks. apply dict_get_set_same, String.eqb_refl.
  - destruct (create_link_fails sender args w w0 _ Hnext) as (r' & Hrun' & Hfail);
      [discriminate|].
    rewrite Hrun' in Hrun. injection Hrun as -> _. now destruct (Hfail l).
  - destruct (create_link_fails sender args w w0 _ Hnext) as (r' & Hrun' & Hfail);
      [discriminate|].
    rewrite Hrun' in Hrun. injection Hrun as -> _. now destruct (Hfail l).
Qed.
End HandleTables.


(** ** The incoming window *)

Lemma window_after_zero (T iw : Z) : 1 <= iw <= T -> window_after T iw 0 = iw.
Proof. intros H. unfold window_after. rewrite Z.mod_small by lia. lia. Qed.

Lemma window_after_step (T iw k : Z) :
  1 <= iw <= T ->
  window_after T (if iw - 1 =? 0 then T else iw - 1) k
  = window_after T iw (1 + k).
Proof.
  intros H. unfold window_after.
  destruct (Z.eqb_spec (iw - 1) 0) as [Hz|Hnz].
  - replace (T - 1 - k) with (iw - 1 - (1 + k) + 1 * T) by lia.
    now rewrite Z.mod_add by lia.
  - f_equal. f_equal. lia.
Qed.

Lemma window_after_bounds (T iw k : Z) : 1 <= T -> 1 <= window_after T iw k <= T.
Proof.
  intros H. unfold window_after.
  pose proof (Z.mod_pos_bound (iw - 1 - k) T ltac:(lia)). lia.
Qed.

Lemma resets_after_zero (T iw : Z) : 1 <= iw <= T -> resets_after T iw 0 = 0.
Proof. intros H. unfold resets_after. apply Z.div_small. lia. Qed.

Lemma resets_after_step (T iw k : Z) :
  1 <= iw <= T ->
  (if iw - 1 =? 0 then 1 else 0)
  + resets_after T (if iw - 1 =? 0 then T else iw - 1) k
  = resets_after T iw (1 + k).
Proof.
  intros H. unfold resets_after.
  destruct (Z.eqb_spec (iw - 1) 0) as [Hz|Hnz].
  - replace (1 + k + T - iw) with (k + T - T + 1 * T) by lia.
    rewrite Z.div_add by lia. lia.
  - rewrite Z.add_0_l. f_equal. lia.
Qed.

Section IncomingWindow.
Variable ext : Collaborators.

Local Abbreviation W := (World (Link ext) (LinkStore ext) (LinkFrame ext)).
Local Abbreviation Frame := (Performative (LinkFrame ext)).

Lemma flow_frames_app (l1 l2 : list (Z * Frame)) :
  flow_frames ext (l1 ++ l2) = flow_frames ext l1 ++ flow_frames ext l2.
Proof. unfold flow_frames. now rewrite map_app, filter_app. Qed.

(** One inbound Transfer frame on a known handle whose link takes it
    silently. *)
Lemma incoming_transfer_step (frame : TransferFrame) (w : W) (n : Z) :
  (forall l f, silent ext (link_incoming_transfer ext l f)) ->
  next_incoming_id (sess w) = Some n ->
  dict_mem Z.eqb (_input_handles (sess w)) (tf_handle frame) = true ->
  exists w',
    _incoming_transfer ext frame w = (Ok tt, w')
    /\ sess w'
       = (if incoming_window (sess w) - 1 =? 0
          then set_incoming_window (target_incoming_window (sess w))
                 (count_frame ext n (sess w))
          else count_frame ext n (sess w))
    /\ len (flow_frames ext (outgoing (conn w')))
       = len (flow_frames ext (outgoing (conn w)))
         + (if incoming_window (sess w) - 1 =? 0 then 1 else 0).
Proof.
  intros Hq Hid Hmem.
  unfold dict_mem in Hmem.
  destruct (dict_get Z.eqb (_input_handles (sess w)) (tf_handle frame))
    as [link|] eqn:Hget; [clear Hmem|discriminate].
  set (w0 := with_sess ext (count_frame ext n) w).
  destruct (Hq link frame w0) as ([] & st & Hlink).
  set (w1 := mkWorld (sess w0) (conn w0) st (state_log w0)) in *.
  assert (Hrun : _incoming_transfer ext frame w
                 = bind get (fun w2 =>
                     if incoming_window (sess w2) =? 0 then
                       bind (assign ext (set_incoming_window
                                           (target_incoming_window (sess w2))))
                            (fun _ => _outgoing_flow ext None)
                     else ret tt) w1).
  { unfold _incoming_transfer.
    rewrite bind_get, Hid, bind_assign.
    rewrite bind_get, bind_assign, bind_get, bind_assign.
    change (with_sess ext _ (with_sess ext _ (with_sess ext _ w))) with w0.
    unfold bind at 1, try_except.
    rewrite bind_get.
    replace (_input_handles (sess w0)) with (_input_handles (sess w))
      by reflexivity.
    rewrite Hget, (bind_ok _ _ _ _ _ Hlink). reflexivity. }
  rewrite Hrun, bind_get.
  change (incoming_window (sess w1)) with (incoming_window (sess w) - 1).
  destruct (Z.eqb_spec (incoming_window (sess w) - 1) 0) as [Hz|Hnz].
  - rewrite bind_assign. unfold _outgoing_flow. rewrite bind_get.
    eexists. split; [reflexivity|]. split; [reflexivity|].
    cbn [with_sess sess conn sent outgoing].
    rewrite flow_frames_app, len_app. reflexivity.
  - eexists. split; [reflexivity|]. split; [reflexivity|].
    cbn. lia.
Qed.

(** X18.  Inbound Transfer frames on known handles, the links taking them
    silently, on a session whose incoming window is between 1 and its target:
    after k frames next_incoming_id has moved up and remote_outgoing_window
    down by k, the incoming window is again between 1 and the target, at
    ((window - 1 - k) mod target) + 1, and the session has sent
    (k + target - window) / target Flow frames, one each time the window
    ran out. *)
Theorem incoming_window_cycles (fs : list TransferFrame) :
  (forall l f, silent ext (link_incoming_transfer ext l f)) ->
  forall (w : W) (n : Z),
    next_incoming_id (sess w) = Some n ->
    Forall (fun f => dict_mem Z.eqb (_input_handles (sess w)) (tf_handle f) = true)
           fs ->
    1 <= incoming_window (sess w) <= target_incoming_window (sess w) ->
    exists w',
      incoming_transfers ext fs w = (Ok tt, w')
      /\ next_incoming_id (sess w') = Some (n + len fs)
      /\ remote_outgoing_window (sess w')
         = remote_outgoing_window (sess w) - len fs
      /\ incoming_window (sess w')
         = window_after (target_incoming_window (sess w))
             (incoming_window (sess w)) (len fs)
      /\ 1 <= incoming_window (sess w') <= target_incoming_window (sess w)
      /\ len (flow_frames ext (outgoing (conn w')))
         = len (flow_frames ext (outgoing (conn w)))
           + resets_after (target_incoming_window (sess w))
               (incoming_window (sess w)) (len fs).
Proof.
  intros Hq. unfold incoming_transfers.
  induction fs as [|f fs IH]; intros w n Hid Hknown Hwin.
  - exists w. split; [reflexivity|].
    unfold len; cbn [List.length].
    rewrite window_after_zero, resets_after_zero by exact Hwin.
    repeat split; try lia. rewrite Hid. f_equal. lia.
  - inversion Hknown as [|? ? Hf Hrest]; subst.
    destruct (incoming_transfer_step f w n Hq Hid Hf) as (w1 & Hrun1 & Hs1 & Hfl1).
    set (T := target_incoming_window (sess w)) in *.
    set (iw := incoming_window (sess w)) in *.
    assert (Hfields : next_incoming_id (sess w1) = Some (n + 1)
                      /\ remote_outgoing_window (sess w1)
                         = remote_outgoing_window (sess w) - 1
                      /\ incoming_window (sess w1) = (if iw - 1 =? 0 then T else iw - 1)
                      /\ target_incoming_window (sess w1) = T
                      /\ _input_handles (sess w1) = _input_handles (sess w)).
    { rewrite Hs1. subst T iw.
      destruct (incoming_window (sess w) - 1 =? 0); repeat split. }
    destruct Hfields as (Hid1 & Hrow1 & Hiw1 & HT1 & Hin1).
    destruct (IH w1 (n + 1) Hid1) as (w' & Hrun & Hid' & Hrow' & Hiw' & Hb' & Hfl').
    + rewrite Hin1. exact Hrest.
    + rewrite Hiw1, HT1. destruct (Z.eqb_spec (iw - 1) 0); lia.
    + exists w'. rewrite len_cons. split; [|split; [|split; [|split; [|split]]]].
      * cbn [for_each]. rewrite (bind_ok _ _ _ _ _ Hrun1). exact Hrun.
      * rewrite Hid'. f_equal. lia.
      * rewrite Hrow', Hrow1. lia.
      * rewrite Hiw', HT1, Hiw1. now apply window_after_step.
      * rewrite HT1 in Hb'. exact Hb'.
      * rewrite Hfl', Hfl1, HT1, Hiw1.
        rewrite <- (resets_after_step T iw (len fs) Hwin). lia.
Qed.

(** X19.  A session whose incoming window is zero or negative (as when
    constructed with [incoming_window=0]) never resets it and never sends a
    Flow: every inbound Transfer frame takes it one further down. *)
Theorem closed_incoming_window_is_never_reset (fs : list TransferFrame) :
  (forall l f, silent ext (link_incoming_transfer ext l f)) ->
  forall (w : W) (n : Z),
    next_incoming_id (sess w) = Some n ->
    Forall (fun f => dict_mem Z.eqb (_input_handles (sess w)) (tf_handle f) = true)
           fs ->
    incoming_window (sess w) <= 0 ->
    exists w',
      incoming_transfers ext fs w = (Ok tt, w')
      /\ incoming_window (sess w') = incoming_window (sess w) - len fs
      /\ flow_frames ext (outgoing (conn w')) = flow_frames ext (outgoing (conn w))
      /\ outgoing (conn w') = outgoing (conn w).
Proof.
  intros Hq. unfold incoming_transfers.
  induction fs as [|f fs IH]; intros w n Hid Hknown Hwin.
  - exists w. split; [reflexivity|]. unfold len; cbn [List.length].
    repeat split. lia.
  - inversion Hknown as [|? ? Hf Hrest]; subst.
    unfold dict_mem in Hf.
    destruct (dict_get Z.eqb (_input_handles (sess w)) (tf_handle f))
      as [link|] eqn:Hget; [clear Hf|discriminate].
    set (w0 := with_sess ext (count_frame ext n) w).
    destruct (Hq link f w0) as ([] & st & Hlink).
    set (w1 := mkWorld (sess w0) (conn w0) st (state_log w0)) in *.
    assert (Hrun1 : _incoming_transfer ext f w = (Ok tt, w1)).
    { unfold _incoming_transfer.
      rewrite bind_get, Hid, bind_assign.
      rewrite bind_get, bind_assign, bind_get, bind_assign.
      change (with_sess ext _ (with_sess ext _ (with_sess ext _ w))) with w0.
      unfold bind at 1, try_except.
      rewrite bind_get.
      replace (_input_handles (sess w0)) with (_input_handles (sess w))
        by reflexivity.
      rewrite Hget, (bind_ok _ _ _ _ _ Hlink).
      unfold ret at 1. cbn beta iota. rewrite bind_get.
      change (incoming_window (sess w1)) with (incoming_window (sess w) - 1).
      destruct (Z.eqb_spec (incoming_window (sess w) - 1) 0); [lia|reflexivity]. }
    destruct (IH w1 (n + 1)) as (w' & Hrun & Hiw' & Hfl' & Hout'); try reflexivity.
    + exact Hrest.
    + change (incoming_window (sess w1)) with (incoming_window (sess w) - 1). lia.
    + exists w'. rewrite len_cons. split; [|split; [|split]].
      * cbn [for_each]. rewrite (bind_ok _ _ _ _ _ Hrun1). exact Hrun.
      * rewrite Hiw'.
        change (incoming_window (sess w1)) with (incoming_window (sess w) - 1).
        lia.
      * rewrite Hfl'. reflexivity.
      * rewrite Hout'. reflexivity.
Qed.
End IncomingWindow.


(** ** The further properties on concrete sessions *)

Lemma failing_links_quiet (e : exn) : links_quiet (failing_links e).
Proof.
  split.
  - intros l w. exists tt, w. split; [reflexivity|].
    apply (link_step_refl (failing_links e)).
  - intros l err w. destruct (simple_detach_quiet 32 l w) as (a & w' & Hrun & Hstep).
    exists a, w'. split; [exact Hrun|].
    destruct Hstep as [Hs Hl Ho]. now split.
Qed.

Lemma simple_links_silent (overhead : Z) (l : SimpleLink) (f : TransferFrame) :
  silent (simple_links overhead) (link_incoming_transfer (simple_links overhead) l f).
Proof. intros w. exists tt, (lstore w). now destruct w. Qed.

(** X3, witness: the peer ends a MAPPED session. *)
Lemma incoming_end_replies_once_witness :
  exists w' : SimpleWorld,
    _incoming_end (simple_links 32) mapped_world = (Ok tt, w')
    /\ state (sess w') = UNMAPPED
    /\ end_frames (simple_links 32) (outgoing (conn w')) = [PEnd None].
Proof.
  destruct (incoming_end_replies_once (simple_links 32) mapped_world
              (simple_links_quiet 32)) as (w' & Hrun & Hs & Hends & _).
  exists w'. split; [exact Hrun|]. split.
  - etransitivity; [exact (f_equal (fun s => state s) Hs)|reflexivity].
  - etransitivity; [exact Hends|vm_compute; reflexivity].
Defined.

(** X4, witness *)
Lemma begin_to_end_round_trip_witness :
  state (sess fresh_world) = UNMAPPED
  /\ allow_pipelined_open (sess fresh_world) = true
  /\ exists w' : SimpleWorld,
       begin_to_end (simple_links 32)
         (mkBegin (Some 0) 0 100 100 7 None None None) fresh_world
       = (Ok tt, w')
       /\ state (sess w') = UNMAPPED
       /\ remote_channel (sess w') = Some 0
       /\ state_log w'
          = [(UNMAPPED, BEGIN_SENT); (BEGIN_SENT, MAPPED); (MAPPED, END_SENT);
             (END_SENT, UNMAPPED)].
Proof.
  split; [vm_compute; reflexivity|]. split; [vm_compute; reflexivity|].
  destruct (begin_to_end_round_trip (simple_links 32)
              (mkBegin (Some 0) 0 100 100 7 None None None) fresh_world
              (simple_links_quiet 32))
    as (w' & Hrun & Hs & Hlog & _); try (vm_compute; reflexivity).
  exists w'. split; [exact Hrun|]. split; [|split].
  - etransitivity; [exact (f_equal (fun s => state s) Hs)|reflexivity].
  - etransitivity; [exact (f_equal (fun s => remote_channel s) Hs)|reflexivity].
  - etransitivity; [exact Hlog|vm_compute; reflexivity].
Defined.

(** X1, witness: [allow_pipelined_open=False]. *)
Lemma begin_sends_before_it_raises_witness :
  allow_pipelined_open (sess unpipelined_world) = false
  /\ exists w' : SimpleWorld,
       begin (simple_links 32) unpipelined_world = (Raise ValueError, w')
       /\ state (sess w') = BEGIN_SENT
       /\ List.length (session_frames (simple_links 32) (outgoing (conn w')))
          = 1%nat.
Proof.
  split; [vm_compute; reflexivity|].
  destruct (begin_sends_before_it_raises (simple_links 32) unpipelined_world
              (proj1 (simple_links_quiet 32)))
    as (w' & Hrun & Hstate & _ & Hframes).
  exists w'. split; [exact Hrun|]. split; [exact Hstate|].
  etransitivity; [exact (f_equal (@List.length _) Hframes)|reflexivity].
Defined.

(** X2, witness: a second Begin on the MAPPED session, with handle_max 2. *)
Lemma incoming_begin_in_other_states_witness :
  state (sess mapped_world) = MAPPED
  /\ _incoming_begin (simple_links 32) (mkBegin None 5 9 9 2 None None None)
       mapped_world
     = (Ok tt,
        with_sess (simple_links 32)
          (begin_assignments (simple_links 32)
             (mkBegin None 5 9 9 2 None None None)) mapped_world).
Proof.
  assert (Hstate : state (sess mapped_world) = MAPPED) by (vm_compute; reflexivity).
  split; [exact Hstate|].
  apply (incoming_begin_in_other_states (simple_links 32)).
  - intros H. assert (Hne : MAPPED = UNMAPPED)
      by (etransitivity; [symmetry; exact Hstate|exact H]). discriminate Hne.
  - intros H. assert (Hne : MAPPED = BEGIN_SENT)
      by (etransitivity; [symmetry; exact Hstate|exact H]). discriminate Hne.
Defined.

(** X6, witness: a Detach for handle 99. *)
Lemma incoming_detach_unknown_handle_witness :
  dict_get Z.eqb (_input_handles (sess mapped_world)) 99 = None
  /\ exists w1 : SimpleWorld,
       _incoming_detach (simple_links 32) (99, Some true, None) mapped_world
       = (Ok tt, closed (simple_links 32) w1 (Some unattached_handle_error))
       /\ state (sess w1) = DISCARDING.
Proof.
  split; [vm_compute; reflexivity|].
  destruct (incoming_detach_unknown_handle (simple_links 32)
              (99, Some true, None) mapped_world
              (proj1 (simple_links_quiet 32)))
    as (w1 & _ & Hrun & Hs & _); [vm_compute; reflexivity|].
  exists w1. split; [exact Hrun|].
  etransitivity; [exact (f_equal (fun s => state s) Hs)|reflexivity].
Defined.

(** X7, witness: the link raises KeyError, and the link raises ValueError. *)
Lemma incoming_transfer_link_failure_witness :
  (exists w' : SimpleWorld,
      _incoming_transfer (failing_links KeyError) (transfer_on 0) receiving_world
      = (Ok tt, w')
      /\ state (sess w') = DISCARDING)
  /\ fst (_incoming_transfer (failing_links ValueError) (transfer_on 0)
            receiving_world)
     = Raise ValueError.
Proof.
  split.
  - destruct (proj2 (incoming_transfer_link_failure (failing_links KeyError)
                       (transfer_on 0) receiving_world
                       (with_sess (failing_links KeyError)
                          (count_frame (failing_links KeyError) 0) receiving_world)
                       0 (mkSimpleLink "receiver" 1 false) KeyError
                       (failing_links_quiet KeyError)
                       ltac:(vm_compute; reflexivity)
                       ltac:(vm_compute; reflexivity)
                       ltac:(vm_compute; reflexivity)) eq_refl)
      as (w' & Hrun & Hs & _).
    exists w'. split; [exact Hrun|].
    etransitivity; [exact (f_equal (fun s => state s) Hs)|reflexivity].
  - etransitivity;
      [exact (f_equal fst
                (proj1 (incoming_transfer_link_failure (failing_links ValueError)
                          (transfer_on 0) receiving_world
                          (with_sess (failing_links ValueError)
                             (count_frame (failing_links ValueError) 0)
                             receiving_world)
                          0 (mkSimpleLink "receiver" 1 false) ValueError
                          (failing_links_quiet ValueError)
                          ltac:(vm_compute; reflexivity)
                          ltac:(vm_compute; reflexivity)
                          ltac:(vm_compute; reflexivity))
                   ltac:(discriminate)))
      |reflexivity].
Defined.

(** X8, witness: a Flow for handle 5. *)
Lemma incoming_flow_unknown_handle_witness :
  dict_get Z.eqb (_input_handles (sess mapped_world)) 5 = None
  /\ fst (_incoming_flow (simple_links 32)
            (mkFlow (Some 0) 7 3 50 (Some 5) None None None) mapped_world)
     = Raise KeyError
  /\ remote_incoming_window
       (sess (snd (_incoming_flow (simple_links 32)
                     (mkFlow (Some 0) 7 3 50 (Some 5) None None None)
                     mapped_world)))
     = 7.
Proof.
  pose proof (incoming_flow_unknown_handle (simple_links 32)
                (mkFlow (Some 0) 7 3 50 (Some 5) None None None) mapped_world 5
                eq_refl ltac:(vm_compute; reflexivity)) as Hrun.
  split; [vm_compute; reflexivity|]. split.
  - etransitivity; [exact (f_equal fst Hrun)|reflexivity].
  - etransitivity;
      [exact (f_equal (fun r => remote_incoming_window (sess (snd r))) Hrun)
      |vm_compute; reflexivity].
Defined.

(** X9, witness: a session with a sender link; the peer closes its window. *)
Lemma incoming_flow_closed_window_notifies_nobody_witness :
  List.length (_output_handles (sess sending_world)) = 1%nat
  /\ _incoming_flow (simple_links 32) (peer_flow None 0) sending_world
     = (Ok tt,
        with_sess (simple_links 32)
          (flow_assignments (simple_links 32) (peer_flow None 0)) sending_world).
Proof.
  split; [vm_compute; reflexivity|].
  apply (incoming_flow_closed_window_notifies_nobody (simple_links 32)).
  - reflexivity.
  - vm_compute. discriminate.
Defined.

(** X10, witness: an overhead of 504 bytes leaves no room (512 - 504 - 8). *)
Lemma outgoing_transfer_never_returns_witness :
  capacity (simple_links 504) mapped_world (delivery_of 1) = 0
  /\ exists w' : SimpleWorld,
       _outgoing_transfer (simple_links 504) 50 (delivery_of 1) mapped_world
       = (OutOfFuel, w')
       /\ len (transfer_frames (simple_links 504) (outgoing (conn w'))) = 50.
Proof.
  split; [vm_compute; reflexivity|].
  destruct (outgoing_transfer_never_returns (simple_links 504) mapped_world
              (delivery_of 1) 50
              ltac:(vm_compute; reflexivity)
              ltac:(vm_compute; discriminate)
              ltac:(vm_compute; reflexivity))
    as (w' & Hrun & _ & Hframes).
  exists w'. split; [exact Hrun|].
  etransitivity; [exact Hframes|vm_compute; reflexivity].
Defined.

(** X11, witness: a remote window of 3 and four deliveries. *)
Lemma remote_window_admits_as_many_deliveries_witness :
  remote_incoming_window (sess window_three_world) = 3
  /\ exists (rs : list Delivery) (w' : SimpleWorld),
       outgoing_transfers (simple_links 32) 3
         ([delivery_of 1; delivery_of 2; delivery_of 0] ++ [delivery_of 1])
         window_three_world
       = (Ok rs, w')
       /\ map transfer_state rs = [Some OKAY; Some OKAY; Some OKAY; Some BUSY]
       /\ remote_incoming_window (sess w') = 0.
Proof.
  split; [vm_compute; reflexivity|].
  destruct (remote_window_admits_as_many_deliveries (simple_links 32) 3
              [delivery_of 1; delivery_of 2; delivery_of 0] [delivery_of 1]
              window_three_world)
    as (rs & w' & Hrun & Hstates & _ & _ & Hwin & _).
  - intros f. vm_compute. reflexivity.
  - repeat constructor.
  - vm_compute. reflexivity.
  - exists rs, w'. split; [exact Hrun|]. split; [exact Hstates|exact Hwin].
Defined.


(** X14, witness *)
Lemma get_next_output_handle_sound_witness :
  _get_next_output_handle (simple_links 32) sending_world = (Ok 2, sending_world)
  /\ dict_mem Z.eqb (_output_handles (sess sending_world)) 2 = false
  /\ dict_mem Z.eqb (_output_handles (sess sending_world)) 1 = true.
Proof.
  assert (Hrun : _get_next_output_handle (simple_links 32) sending_world
                 = (Ok 2, sending_world)) by (vm_compute; reflexivity).
  destruct (get_next_output_handle_sound (simple_links 32) sending_world
              sending_world 2 Hrun) as (_ & (_ & Hfree & Hmin) & _).
  split; [exact Hrun|]. split; [exact Hfree|]. apply Hmin. lia.
Defined.

Lemma handles_ok_mapped_world :
  handles_ok (simple_links 32) (sess mapped_world).
Proof. split; vm_compute; constructor. Qed.

(** X15, witness: the first link of the session. *)
Lemma create_link_keeps_handles_ok_witness :
  handles_ok (simple_links 32) (sess mapped_world)
  /\ handles_ok (simple_links 32) (sess sending_world).
Proof.
  split; [exact handles_ok_mapped_world|].
  apply (create_link_keeps_handles_ok (simple_links 32) true "sender"%string
           mapped_world sending_world
           (Ok (mkSimpleLink "sender" 1 true))
           (simple_constructors_quiet 32) handles_ok_mapped_world).
  vm_compute. reflexivity.
Defined.

(** X16, witness: handle_max is 7 and the table is empty. *)
Lemma created_tables_never_raise_ValueError_witness :
  1 <= handle_max (sess mapped_world)
  /\ ((exists h,
          _get_next_output_handle (simple_links 32) mapped_world
          = (Ok h, mapped_world)
          /\ smallest_free (simple_links 32) 1 (handle_max (sess mapped_world))
               (_output_handles (sess mapped_world)) h)
      \/ (_get_next_output_handle (simple_links 32) mapped_world
          = (Raise StopIteration, mapped_world)
          /\ len (_output_handles (sess mapped_world))
             = handle_max (sess mapped_world) - 1
          /\ forall i, 1 <= i < handle_max (sess mapped_world) ->
               dict_mem Z.eqb (_output_handles (sess mapped_world)) i = true)).
Proof.
  assert (Hmax : 1 <= handle_max (sess mapped_world))
    by (vm_compute; discriminate).
  split; [exact Hmax|].
  exact (created_tables_never_raise_ValueError (simple_links 32) mapped_world
           handles_ok_mapped_world Hmax).
Defined.

(** X5, witness: the detach of the session's one link raises; [end()] has
    sent its End frame and returns normally, the session UNMAPPED. *)
Lemma end_swallows_detach_failure_witness :
  exists w' : SimpleWorld,
    end_ (undetachable_links OtherException) None sending_world = (Ok tt, w')
    /\ state (sess w') = UNMAPPED
    /\ end_frames (undetachable_links OtherException) (outgoing (conn w'))
       = [PEnd None].
Proof.
  destruct (end_swallows_detach_failure (undetachable_links OtherException)
              None sending_world
              (sent (undetachable_links OtherException) sending_world
                 [(0, PEnd None)])
              OtherException)
    as (w' & Hrun & Hs & _ & Hframes).
  - intros l w. exists tt, w. split; [reflexivity|].
    apply (link_step_refl (undetachable_links OtherException)).
  - vm_compute. reflexivity.
  - exists w'. split; [exact Hrun|]. split.
    + etransitivity; [exact (f_equal (fun s => state s) Hs)|reflexivity].
    + etransitivity;
        [exact (end_frames_of_session_frames
                  (undetachable_links OtherException) (outgoing (conn w')))|].
      etransitivity;
        [exact (f_equal (filter (is_end (undetachable_links OtherException)))
                  Hframes)|].
      vm_compute. reflexivity.
Defined.

(** X18, witness: a window of 3 and four frames: one Flow, and the window is
    at 2. *)
Lemma incoming_window_cycles_witness :
  incoming_window (sess (receiving_world_with_window 3)) = 3
  /\ target_incoming_window (sess (receiving_world_with_window 3)) = 3
  /\ exists w' : SimpleWorld,
       incoming_transfers (simple_links 32)
         [transfer_on 0; transfer_on 0; transfer_on 0; transfer_on 0]
         (receiving_world_with_window 3)
       = (Ok tt, w')
       /\ incoming_window (sess w') = 2
       /\ len (flow_frames (simple_links 32) (outgoing (conn w'))) = 1.
Proof.
  split; [vm_compute; reflexivity|]. split; [vm_compute; reflexivity|].
  destruct (incoming_window_cycles (simple_links 32)
              [transfer_on 0; transfer_on 0; transfer_on 0; transfer_on 0]
              (simple_links_silent 32) (receiving_world_with_window 3) 0)
    as (w' & Hrun & _ & _ & Hwin & _ & Hflows).
  - vm_compute. reflexivity.
  - repeat constructor.
  - vm_compute. split; discriminate.
  - exists w'. split; [exact Hrun|]. split.
    + etransitivity; [exact Hwin|vm_compute; reflexivity].
    + etransitivity; [exact Hflows|vm_compute; reflexivity].
Defined.

(** X19, witness: a session constructed with [incoming_window=0]. *)
Lemma closed_incoming_window_is_never_reset_witness :
  incoming_window (sess (receiving_world_with_window 0)) = 0
  /\ exists w' : SimpleWorld,
       incoming_transfers (simple_links 32)
         [transfer_on 0; transfer_on 0; transfer_on 0]
         (receiving_world_with_window 0)
       = (Ok tt, w')
       /\ incoming_window (sess w') = -3
       /\ outgoing (conn w') = outgoing (conn (receiving_world_with_window 0)).
Proof.
  split; [vm_compute; reflexivity|].
  destruct (closed_incoming_window_is_never_reset (simple_links 32)
              [transfer_on 0; transfer_on 0; transfer_on 0]
              (simple_links_silent 32) (receiving_world_with_window 0) 0)
    as (w' & Hrun & Hwin & _ & Hout).
  - vm_compute. reflexivity.
  - repeat constructor.
  - vm_compute. discriminate.
  - exists w'. split; [exact Hrun|]. split; [|exact Hout].
    etransitivity; [exact Hwin|vm_compute; reflexivity].
Defined.

(** X17, witness *)
Lemma create_link_registers_witness :
  create_receiver_link (simple_links 32) "receiver"%string sending_world
  = (Ok (mkSimpleLink "receiver" 2 false),
     snd (create_receiver_link (simple_links 32) "receiver"%string sending_world))
  /\ exists h,
       dict_get Z.eqb
         (_output_handles
            (sess (snd (create_receiver_link (simple_links 32) "receiver"%string
                          sending_world)))) h
       = Some (mkSimpleLink "receiver" 2 false).
Proof.
  assert (Hrun : create_receiver_link (simple_links 32) "receiver"%string
                   sending_world
                 = (Ok (mkSimpleLink "receiver" 2 false),
                    snd (create_receiver_link (simple_links 32)
                           "receiver"%string sending_world)))
    by (vm_compute; reflexivity).
  split; [exact Hrun|].
  destruct (create_link_registers (simple_links 32) false "receiver"%string
              sending_world _ _ (simple_constructors_quiet 32) Hrun)
    as (h & _ & _ & _ & Hget & _).
  exists h. exact Hget.
Defined.

(** X13, witness *)
Lemma sent_delivery_has_lost_its_payload_witness :
  1 < remote_incoming_window (sess mapped_world)
  /\ exists (d1 d2 : Delivery) (w1 w2 : SimpleWorld),
       _outgoing_transfer (simple_links 32) 3 (delivery_of 2) mapped_world
       = (Ok d1, w1)
       /\ tf_payload (frame d1) = []
       /\ _outgoing_transfer (simple_links 32) 3 d1 w1 = (Ok d2, w2)
       /\ len (transfer_frames (simple_links 32) (outgoing (conn w2))) = 2.
Proof.
  split; [vm_compute; reflexivity|].
  destruct (sent_delivery_has_lost_its_payload (simple_links 32) mapped_world
              (delivery_of 2) 3)
    as (d1 & d2 & w1 & w2 & Hrun1 & Hpayload & _ & Hrun2 & _ & Hout).
  - vm_compute. reflexivity.
  - intros f. vm_compute. reflexivity.
  - vm_compute. lia.
  - exists d1, d2, w1, w2. split; [exact Hrun1|]. split; [exact Hpayload|].
    split; [exact Hrun2|].
    assert (Hw1 : w1 = snd (_outgoing_transfer (simple_links 32) 3 (delivery_of 2)
                              mapped_world))
      by (etransitivity; [|exact (f_equal snd (eq_sym Hrun1))]; reflexivity).
    etransitivity;
      [exact (f_equal (fun l => len (transfer_frames (simple_links 32) l)) Hout)|].
    rewrite Hw1. vm_compute. reflexivity.
Defined.

